(** * ATS backend: the entity-table access layer

    A shallow embedding of [api/database.py], [api/applicants.py],
    [api/clients.py], [api/recruiters.py], [api/job_descriptions.py] and
    [api/applicant_job_apply.py], and the properties of the repository
    operations (search, create, update, soft delete, codecs).

    Python values that travel in wire rows are a small sum type; a wire
    row (a [dict]) is a [gmap string pyval]; Python exceptions are an
    error monad; calls to the remote record store are the nodes of a
    small free monad, so that both the payload of every call and the
    reaction to every possible store answer can be stated. *)

From Stdlib Require Import ZArith NArith String Ascii List Lia Bool.
From stdpp Require Import base option gmap strings list fin_maps.

Local Open Scope string_scope.
Local Open Scope Z_scope.

(** ** Python values and exceptions *)

(** The JSON-like values found in a wire row. Numbers are integers here:
    salaries and integer ids are carried, compared and sent back, never
    computed with. *)
Inductive pyval : Type :=
  | VNone
  | VBool (b : bool)
  | VNum (z : Z)
  | VStr (s : string).

#[global] Instance pyval_eq_dec : EqDecision pyval.
Proof. solve_decision. Defined.

(** A wire row: column name to value. *)
Abbreviation row := (gmap string pyval).

(** Python truthiness, as used by [if x:] and [x and y]. *)
Definition truthy (v : pyval) : bool :=
  match v with
  | VNone => false
  | VBool b => b
  | VNum z => negb (z =? 0)
  | VStr s => negb (String.eqb s "")
  end.

(** [data.get(k)]: the value, or [None] when the key is absent. *)
Definition dict_get (data : row) (k : string) : pyval :=
  default VNone (data !! k).

(** [data.get(k, d)]. *)
Definition dict_get_default (data : row) (k : string) (d : pyval) : pyval :=
  default d (data !! k).

Inductive exn : Type :=
  | KeyError (k : string)
  | ValueError (msg : string)
  | TypeError (msg : string)
  | AttributeError (msg : string)
  | Exception_ (msg : string).

#[global] Instance exn_eq_dec : EqDecision exn.
Proof. solve_decision. Defined.

(** [str(e)] of an exception. *)
Definition exn_str (e : exn) : string :=
  match e with
  | KeyError k => "'" +:+ k +:+ "'"
  | ValueError m | TypeError m | AttributeError m | Exception_ m => m
  end.

(** The outcome of a Python expression: a value or a raised exception. *)
Inductive result (A : Type) : Type :=
  | Ok (a : A)
  | Raise (e : exn).
Arguments Ok {A} a.
Arguments Raise {A} e.

Definition rbind {A B} (r : result A) (k : A -> result B) : result B :=
  match r with
  | Ok a => k a
  | Raise e => Raise e
  end.

Declare Scope py_scope.
Delimit Scope py_scope with py.
Notation "x <-! e ;; k" := (rbind e (fun x => k))
  (at level 100, e at next level, right associativity) : py_scope.
Local Open Scope py_scope.

(** [data[k]]: raises [KeyError] when the key is absent. *)
Definition dict_item (data : row) (k : string) : result pyval :=
  match data !! k with
  | Some v => Ok v
  | None => Raise (KeyError k)
  end.

(** A list comprehension [[f x for x in l]] whose body may raise. *)
Fixpoint map_r {A B} (f : A -> result B) (l : list A) : result (list B) :=
  match l with
  | [] => Ok []
  | x :: l' => y <-! f x ;; ys <-! map_r f l' ;; Ok (y :: ys)
  end.

(** A list comprehension [[x for x in l if p x]] whose test may raise. *)
Fixpoint filter_r {A} (p : A -> result bool) (l : list A) : result (list A) :=
  match l with
  | [] => Ok []
  | x :: l' =>
      b <-! p x ;; ys <-! filter_r p l' ;; Ok (if b then x :: ys else ys)
  end.

(** ** Strings *)

Module PyStr.

(** [str.lower] on the ASCII range. *)
Definition lower_ascii (c : ascii) : ascii :=
  let n := nat_of_ascii c in
  if (65 <=? n)%nat && (n <=? 90)%nat then ascii_of_nat (n + 32) else c.

Fixpoint lower (s : string) : string :=
  match s with
  | EmptyString => EmptyString
  | String c s' => String (lower_ascii c) (lower s')
  end.

(** [sub in s] on strings. *)
Fixpoint contains (sub s : string) : bool :=
  String.prefix sub s ||
  match s with
  | EmptyString => false
  | String _ s' => contains sub s'
  end.

(** [s.replace(old, "")] for a non-empty [old]: occurrences are removed
    left to right, without overlap. [skip] counts the characters of the
    occurrence being removed that are still to be dropped. *)
Fixpoint remove_from (old s : string) (skip : nat) : string :=
  match s with
  | EmptyString => EmptyString
  | String c s' =>
      match skip with
      | S n => remove_from old s' n
      | O =>
          if String.prefix old s
          then remove_from old s' (String.length old - 1)
          else String c (remove_from old s' 0)
      end
  end.

Definition remove_all (old s : string) : string := remove_from old s 0.

Definition in_chars (c : ascii) (chars : string) : bool :=
  existsb (Ascii.eqb c) (list_ascii_of_string chars).

Fixpoint lstrip (chars s : string) : string :=
  match s with
  | EmptyString => EmptyString
  | String c s' => if in_chars c chars then lstrip chars s' else s
  end.

Fixpoint rstrip (chars s : string) : string :=
  match s with
  | EmptyString => EmptyString
  | String c s' =>
      match rstrip chars s' with
      | EmptyString => if in_chars c chars then EmptyString else String c EmptyString
      | t => String c t
      end
  end.

(** [s.strip(chars)]. *)
Definition strip (chars s : string) : string := rstrip chars (lstrip chars s).

End PyStr.

(** [v.lower()]: only strings have the method. *)
Definition py_lower (v : pyval) : result string :=
  match v with
  | VStr s => Ok (PyStr.lower s)
  | _ => Raise (AttributeError "object has no attribute 'lower'")
  end.

(** ** Opaque unique identifiers: Python's [uuid.UUID] *)

Module PyUuid.

(** A UUID object holds a 128-bit integer; two UUIDs are equal when
    their integers are. *)
Record UUID : Type := mkUUID { int : N }.

#[global] Instance UUID_eq_dec : EqDecision UUID.
Proof. solve_decision. Defined.

Definition hex_value (c : ascii) : option N :=
  let n := N_of_ascii c in
  if ((48 <=? n) && (n <=? 57))%N then Some (n - 48)%N
  else if ((97 <=? n) && (n <=? 102))%N then Some (n - 87)%N
  else if ((65 <=? n) && (n <=? 70))%N then Some (n - 55)%N
  else None.

(** [int(hex, 16)] on a string of hexadecimal digits (the signs,
    underscores and blanks that [int] also tolerates are refused). *)
Fixpoint parse_hex (s : string) (acc : N) : option N :=
  match s with
  | EmptyString => Some acc
  | String c s' =>
      match hex_value c with
      | Some d => parse_hex s' (16 * acc + d)%N
      | None => None
      end
  end.

(** [uuid.UUID(hex)]:
      hex = hex.replace('urn:', '').replace('uuid:', '')
      hex = hex.strip('{}').replace('-', '')
      if len(hex) != 32: raise ValueError
      int = int_(hex, 16)
    [None] stands for the [ValueError]. *)
Definition of_string (s : string) : option UUID :=
  let hex := PyStr.remove_all "uuid:" (PyStr.remove_all "urn:" s) in
  let hex := PyStr.remove_all "-" (PyStr.strip "{}" hex) in
  if (String.length hex =? 32)%nat
  then mkUUID <$> parse_hex hex 0%N
  else None.

Definition hex_char (d : N) : ascii :=
  if (d <? 10)%N then ascii_of_N (48 + d) else ascii_of_N (87 + d).

(** The [n] low hexadecimal digits of [x], most significant first. *)
Fixpoint hex_digits (n : nat) (x : N) (acc : string) : string :=
  match n with
  | O => acc
  | S n' => hex_digits n' (x / 16)%N (String (hex_char (x mod 16)%N) acc)
  end.

(** [str(u)]:
      hex = '%032x' % self.int
      return '%s-%s-%s-%s-%s' % (hex[:8], hex[8:12], hex[12:16], hex[16:20], hex[20:]) *)
Definition to_string (u : UUID) : string :=
  let hex := hex_digits 32 (int u) "" in
  String.substring 0 8 hex +:+ "-" +:+ String.substring 8 4 hex +:+ "-" +:+
  String.substring 12 4 hex +:+ "-" +:+ String.substring 16 4 hex +:+ "-" +:+
  String.substring 20 12 hex.

End PyUuid.

Abbreviation UUID := PyUuid.UUID.

(** [uuid.UUID(v)] on a wire value: a non-string has no [replace]. *)
Definition uuid_UUID (v : pyval) : result UUID :=
  match v with
  | VStr s =>
      match PyUuid.of_string s with
      | Some u => Ok u
      | None => Raise (ValueError "badly formed hexadecimal UUID string")
      end
  | _ => Raise (AttributeError "object has no attribute 'replace'")
  end.

(** [str(x)] of an [Optional[uuid.UUID]] field: [str(None)] is ["None"]. *)
Definition str_opt_uuid (o : option UUID) : string :=
  match o with
  | Some u => PyUuid.to_string u
  | None => "None"
  end.

(** ** Instants: Python's [datetime] *)

Module PyDatetime.

(** [utcoffset] is the offset of an aware datetime in microseconds,
    [None] for a naive one (what [datetime.utcnow()] returns). *)
Record datetime : Type := mkDatetime {
  year : N; month : N; day : N;
  hour : N; minute : N; second : N; microsecond : N;
  utcoffset : option Z
}.

#[global] Instance datetime_eq_dec : EqDecision datetime.
Proof. solve_decision. Defined.

Definition is_leap (y : N) : bool :=
  ((y mod 4 =? 0) && (negb (y mod 100 =? 0) || (y mod 400 =? 0)))%N.

Definition days_in_month (y m : N) : N :=
  (if m =? 2 then (if is_leap y then 29 else 28)
   else if (m =? 4) || (m =? 6) || (m =? 9) || (m =? 11) then 30
   else 31)%N.

Definition day_us : Z := 86400000000.

(** The range checks of the [datetime] and [timezone] constructors. *)
Definition valid (d : datetime) : bool :=
  ((1 <=? year d) && (year d <=? 9999) &&
   (1 <=? month d) && (month d <=? 12) &&
   (1 <=? day d) && (day d <=? days_in_month (year d) (month d)) &&
   (hour d <? 24) && (minute d <? 60) && (second d <? 60) &&
   (microsecond d <? 1000000))%N &&
  match utcoffset d with
  | None => true
  | Some off => (- day_us <? off) && (off <? day_us)
  end.

Definition digit_value (c : ascii) : option N :=
  let n := N_of_ascii c in
  if ((48 <=? n) && (n <=? 57))%N then Some (n - 48)%N else None.

(** Reads exactly [n] decimal digits. *)
Fixpoint take_digits (n : nat) (s : string) (acc : N) : option (N * string) :=
  match n with
  | O => Some (acc, s)
  | S n' =>
      match s with
      | EmptyString => None
      | String c s' =>
          match digit_value c with
          | Some d => take_digits n' s' (10 * acc + d)%N
          | None => None
          end
      end
  end.

Definition expect (c : ascii) (s : string) : option string :=
  match s with
  | String c' s' => if Ascii.eqb c c' then Some s' else None
  | EmptyString => None
  end.

(** [_parse_isoformat_date]: [YYYY-MM-DD], then the rest of the string. *)
Definition parse_date (s : string) : option (N * N * N * string) :=
  '(y, s) ← take_digits 4 s 0%N;
  s ← expect "-" s;
  '(m, s) ← take_digits 2 s 0%N;
  s ← expect "-" s;
  '(d, s) ← take_digits 2 s 0%N;
  Some (y, m, d, s).

(** The fraction after the dot: three or six digits, nothing after. *)
Definition parse_fraction (s : string) : option N :=
  match String.length s with
  | 3%nat => '(f, _) ← take_digits 3 s 0%N; Some (f * 1000)%N
  | 6%nat => '(f, _) ← take_digits 6 s 0%N; Some f
  | _ => None
  end.

(** [_parse_hh_mm_ss_ff]: [HH[:MM[:SS[.fff[fff]]]]]. *)
Definition parse_hh_mm_ss_ff (s : string) : option (N * N * N * N) :=
  '(h, s) ← take_digits 2 s 0%N;
  match s with
  | EmptyString => Some (h, 0, 0, 0)%N
  | String ":" s =>
      '(m, s) ← take_digits 2 s 0%N;
      match s with
      | EmptyString => Some (h, m, 0, 0)%N
      | String ":" s =>
          '(sec, s) ← take_digits 2 s 0%N;
          match s with
          | EmptyString => Some (h, m, sec, 0%N)
          | String "." s => f ← parse_fraction s; Some (h, m, sec, f)
          | _ => None
          end
      | _ => None
      end
  | _ => None
  end.

(** Splits [s] at its first [c]. *)
Fixpoint split_at (c : ascii) (s : string) : option (string * string) :=
  match s with
  | EmptyString => None
  | String c' s' =>
      if Ascii.eqb c c' then Some (EmptyString, s')
      else '(a, b) ← split_at c s'; Some (String c' a, b)
  end.

(** [tz_pos = tstr.find('-') + 1 or tstr.find('+') + 1]: the time text,
    and the sign and text of the offset if there is one. *)
Definition split_tz (tstr : string) : string * option (bool * string) :=
  match split_at "-" tstr with
  | Some (t, tz) => (t, Some (true, tz))
  | None =>
      match split_at "+" tstr with
      | Some (t, tz) => (t, Some (false, tz))
      | None => (tstr, None)
      end
  end.

Definition parse_offset (neg : bool) (tzstr : string) : option Z :=
  match String.length tzstr with
  | 5%nat | 8%nat | 15%nat =>
      '(h, m, s, us) ← parse_hh_mm_ss_ff tzstr;
      let mag := Z.of_N ((h * 3600 + m * 60 + s) * 1000000 + us)%N in
      Some (if neg then - mag else mag)
  | _ => None
  end.

(** [_parse_isoformat_time]. *)
Definition parse_time (tstr : string) : option (N * N * N * N * option Z) :=
  if (String.length tstr <? 2)%nat then None else
  let '(timestr, tz) := split_tz tstr in
  '(h, m, s, us) ← parse_hh_mm_ss_ff timestr;
  match tz with
  | None => Some (h, m, s, us, None)
  | Some (neg, tzstr) => off ← parse_offset neg tzstr; Some (h, m, s, us, Some off)
  end.

(** [datetime.fromisoformat] (the grammar of Python 3.7 to 3.10):
      dstr = date_string[0:10]; tstr = date_string[11:]
    the character between the two is not looked at. [None] stands for
    the [ValueError]. *)
Definition fromisoformat (date_string : string) : option datetime :=
  '(y, mo, d, rest) ← parse_date date_string;
  let tstr := match rest with EmptyString => EmptyString | String _ t => t end in
  '(h, mi, s, us, off) ←
    (match tstr with
     | EmptyString => Some (0, 0, 0, 0, None)%N
     | _ => parse_time tstr
     end);
  let dt := mkDatetime y mo d h mi s us off in
  if valid dt then Some dt else None.

Definition digit_char (n : N) : ascii := ascii_of_N (48 + n).

(** ["%02d" % n], ["%04d" % n] and ["%06d" % n] in front of [k]. *)
Definition pad2 (n : N) (k : string) : string :=
  String (digit_char (n / 10 mod 10)) (String (digit_char (n mod 10)) k).
Definition pad4 (n : N) (k : string) : string := pad2 (n / 100) (pad2 n k).
Definition pad6 (n : N) (k : string) : string := pad2 (n / 10000) (pad4 n k).

(** [_format_time(hh, mm, ss, us)] with the default ['auto'] timespec. *)
Definition format_time (h m s us : N) (k : string) : string :=
  pad2 h (String ":" (pad2 m (String ":" (pad2 s
    (if (us =? 0)%N then k else String "." (pad6 us k)))))).

(** [_format_offset]. *)
Definition format_offset (off : option Z) : string :=
  match off with
  | None => EmptyString
  | Some o =>
      let sign := if (o <? 0)%Z then "-"%char else "+"%char in
      let a := Z.to_N (Z.abs o) in
      let us := (a mod 1000000)%N in
      let secs := (a / 1000000)%N in
      let h := (secs / 3600)%N in
      let m := (secs mod 3600 / 60)%N in
      let s := (secs mod 60)%N in
      String sign (pad2 h (String ":" (pad2 m
        (if ((s =? 0) && (us =? 0))%N then EmptyString
         else String ":" (pad2 s
           (if (us =? 0)%N then EmptyString else String "." (pad6 us EmptyString)))))))
  end.

(** [d.isoformat()]. *)
Definition isoformat (d : datetime) : string :=
  pad4 (year d) (String "-" (pad2 (month d) (String "-" (pad2 (day d)
    (String "T" (format_time (hour d) (minute d) (second d) (microsecond d)
       (format_offset (utcoffset d)))))))).

End PyDatetime.

Abbreviation datetime := PyDatetime.datetime.

(** [datetime.fromisoformat(v)] on a wire value. *)
Definition datetime_fromisoformat (v : pyval) : result datetime :=
  match v with
  | VStr s =>
      match PyDatetime.fromisoformat s with
      | Some d => Ok d
      | None => Raise (ValueError "Invalid isoformat string")
      end
  | _ => Raise (TypeError "fromisoformat: argument must be str")
  end.

(** ** The record store client and [api/database.py] *)

(** One round trip to the remote store, as built with the client:
      [client.table(t).select("*").eq(c1, v1)....execute()]
      [client.table(t).insert(data).execute()]
      [client.table(t).update(data).eq("id", record_id).execute()]
      [client.table(t).delete().eq("id", record_id).execute()]
    Each one answers with [response.data], a list of rows, or raises. *)
Inductive call : Type :=
  | Select (table_name : string) (eqs : row)
  | InsertRow (table_name : string) (data : row)
  | UpdateEq (table_name : string) (data : row) (record_id : pyval)
  | DeleteEq (table_name : string) (record_id : pyval).

(** A computation that talks to the store: it returns, raises, or makes
    one call and goes on with the answer. *)
Inductive prog (A : Type) : Type :=
  | Ret (a : A)
  | Throw (e : exn)
  | Do (c : call) (k : result (list row) -> prog A).
Arguments Ret {A} a.
Arguments Throw {A} e.
Arguments Do {A} c k.

Fixpoint pbind {A B} (p : prog A) (f : A -> prog B) : prog B :=
  match p with
  | Ret a => f a
  | Throw e => Throw e
  | Do c k => Do c (fun r => pbind (k r) f)
  end.

(** [try: p except Exception as e: h e]. *)
Fixpoint try_except {A} (p : prog A) (h : exn -> prog A) : prog A :=
  match p with
  | Ret a => Ret a
  | Throw e => h e
  | Do c k => Do c (fun r => try_except (k r) h)
  end.

Definition lift {A} (r : result A) : prog A :=
  match r with
  | Ok a => Ret a
  | Raise e => Throw e
  end.

(** [....execute()] followed by [response.data]. *)
Definition execute (c : call) : prog (list row) := Do c lift.

Notation "x <- e ;; k" := (pbind e (fun x => k))
  (at level 100, e at next level, right associativity) : py_scope.

(** The store side: how a store in state [S] answers a call. *)
Class RecordStore (S : Type) : Type :=
  answer : call -> S -> result (list row) * S.

Fixpoint run {S} `{RecordStore S} {A} (p : prog A) (s : S) : result A * S :=
  match p with
  | Ret a => (Ok a, s)
  | Throw e => (Raise e, s)
  | Do c k => let '(r, s') := answer c s in run (k r) s'
  end.

Module Database.

(** [query_table]: the filters are added as equality predicates; a
    missing or empty [filters] adds none. The store handle is taken as
    initialised ([get_supabase_client] has returned it). *)
Definition query_table (table_name : string) (filters : option row) : prog (list row) :=
  execute (Select table_name (default ∅ filters)).

(** [insert_record]: any exception of the store is caught and raised
    again as [Exception("Error inserting into <table>: <str(e)>")]. *)
Definition insert_record (table_name : string) (data : row) : prog (list row) :=
  try_except (execute (InsertRow table_name data))
    (fun e => Throw (Exception_ ("Error inserting into " +:+ table_name +:+ ": " +:+ exn_str e))).

Definition update_record (table_name : string) (record_id : pyval) (data : row)
  : prog (list row) :=
  execute (UpdateEq table_name data record_id).

Definition delete_record (table_name : string) (record_id : pyval) : prog (list row) :=
  execute (DeleteEq table_name record_id).

End Database.

(** ** An in-memory record store *)

Module MemStore.

(** Modelled from the spec: the remote store itself (section 6 of the
    specification, "Record Store contract"). A column and a value match
    when the row holds that value; the value [null] matches a row whose
    column is unset or null. *)
Definition col_matches (r : row) (c : string) (v : pyval) : bool :=
  match v with
  | VNone => bool_decide (r !! c = None ∨ r !! c = Some VNone)
  | _ => bool_decide (r !! c = Some v)
  end.

Definition row_matches (eqs : row) (r : row) : bool :=
  forallb (fun cv => col_matches r cv.1 cv.2) (map_to_list eqs).

(** The state: the rows of every table, and the store-side defaults
    ([id], [created_at], ...) with which an inserted row is completed. *)
Record t : Type := mk {
  tables : gmap string (list row);
  defaults : string -> list row -> row -> row
}.

Definition rows_of (s : t) (table_name : string) : list row :=
  default [] (tables s !! table_name).

Definition set_rows (s : t) (table_name : string) (rs : list row) : t :=
  mk (<[table_name := rs]> (tables s)) (defaults s).

(** Modelled from the spec: [query(table, filters) -> rows] of the store
    contract, the rows matching every predicate. *)
Definition query (s : t) (table_name : string) (eqs : row) : list row :=
  List.filter (row_matches eqs) (rows_of s table_name).

(** The row has the primary identifier [record_id]. *)
Definition is_target (record_id : pyval) (r : row) : bool :=
  col_matches r "id" record_id.

Definition updated (data : row) (record_id : pyval) (r : row) : row :=
  if is_target record_id r then data ∪ r else r.

(** Modelled from the spec: [update(table, id, partial_row) -> rows] of
    the store contract. The rows whose [id] matches take the fields of
    [partial_row] and are returned; the others stay as they are. *)
Definition update (s : t) (table_name : string) (data : row) (record_id : pyval)
  : list row * t :=
  let rs := rows_of s table_name in
  (List.map (fun r => data ∪ r) (List.filter (is_target record_id) rs),
   set_rows s table_name (List.map (updated data record_id) rs)).

(** Modelled from the spec: [insert(table, row) -> rows] of the store
    contract, the inserted row as the store completed it. *)
Definition insert (s : t) (table_name : string) (data : row) : list row * t :=
  let rs := rows_of s table_name in
  let r := defaults s table_name rs data in
  ([r], set_rows s table_name (rs ++ [r])).

(** Modelled from the spec: [delete(table, id) -> rows] of the store
    contract, the removed rows. *)
Definition delete (s : t) (table_name : string) (record_id : pyval) : list row * t :=
  let rs := rows_of s table_name in
  (List.filter (is_target record_id) rs,
   set_rows s table_name (List.filter (fun r => negb (is_target record_id r)) rs)).

#[global] Instance store : RecordStore t := fun c s =>
  match c with
  | Select tn eqs => (Ok (query s tn eqs), s)
  | InsertRow tn data => let '(rs, s') := insert s tn data in (Ok rs, s')
  | UpdateEq tn data rid => let '(rs, s') := update s tn data rid in (Ok rs, s')
  | DeleteEq tn rid => let '(rs, s') := delete s tn rid in (Ok rs, s')
  end.

End MemStore.

(** ** Helpers shared by the five entity modules *)

(** [conv(data[k]) if data.get(k) else None]. *)
Definition parse_if_present {A} (conv : pyval -> result A) (data : row) (k : string)
  : result (option A) :=
  if truthy (dict_get data k)
  then v <-! dict_item data k ;; x <-! conv v ;; Ok (Some x)
  else Ok None.

(** [if s:] on an [Optional[str]] argument. *)
Definition given (o : option string) : bool :=
  match o with
  | Some s => negb (String.eqb s "")
  | None => false
  end.

(** [if v is not None: data[k] = v] on an optional wire value. *)
Definition set_if_not_none (k : string) (v : pyval) (data : row) : row :=
  match v with
  | VNone => data
  | _ => <[k := v]> data
  end.

(** [needle in v.lower()]. *)
Definition in_lower (needle : string) (v : pyval) : result bool :=
  s <-! py_lower v ;; Ok (PyStr.contains needle s).

(** [bool(result and len(result) > 0)]. *)
Definition nonempty {A} (l : list A) : bool :=
  match l with
  | [] => false
  | _ :: _ => true
  end.

(** ** [api/applicants.py] *)

Module Applicants.

Record Applicant : Type := mkApplicant {
  name : pyval;
  last_name : pyval;
  linkedin : pyval;
  email : pyval;
  phone : pyval;
  city : pyval;
  english : pyval;
  id : option UUID;
  created_at : option datetime;
  deactive_at : option datetime
}.

Definition to_dict (self : Applicant) : row :=
  let data : row :=
    {[ "name" := name self;
       "last_name" := last_name self;
       "linkedin" := linkedin self;
       "email" := email self;
       "phone" := phone self;
       "city" := city self;
       "english" := english self ]} in
  match id self with
  | Some u => <["id" := VStr (PyUuid.to_string u)]> data
  | None => data
  end.

Definition from_dict (data : row) : result Applicant :=
  id_ <-! parse_if_present uuid_UUID data "id" ;;
  name_ <-! dict_item data "name" ;;
  last_name_ <-! dict_item data "last_name" ;;
  linkedin_ <-! dict_item data "linkedin" ;;
  email_ <-! dict_item data "email" ;;
  phone_ <-! dict_item data "phone" ;;
  city_ <-! dict_item data "city" ;;
  english_ <-! dict_item data "english" ;;
  created_at_ <-! parse_if_present datetime_fromisoformat data "created_at" ;;
  deactive_at_ <-! parse_if_present datetime_fromisoformat data "deactive_at" ;;
  Ok (mkApplicant name_ last_name_ linkedin_ email_ phone_ city_ english_
        id_ created_at_ deactive_at_).

Definition TABLE_NAME : string := "applicants".

Definition get_all_applicants (include_inactive : bool) : prog (list Applicant) :=
  data <- (if include_inactive
           then Database.query_table TABLE_NAME None
           else Database.query_table TABLE_NAME (Some {[ "deactive_at" := VNone ]})) ;;
  lift (map_r from_dict data).

Definition get_applicant_by_id (applicant_id : string) : prog (option Applicant) :=
  data <- Database.query_table TABLE_NAME (Some {[ "id" := VStr applicant_id ]}) ;;
  match data with
  | r :: _ => a <- lift (from_dict r) ;; Ret (Some a)
  | [] => Ret None
  end.

(** The residual test of the [name] filter:
    [name_lower in a.name.lower() or name_lower in a.last_name.lower()]. *)
Definition name_matches (name_lower : string) (a : Applicant) : result bool :=
  b <-! in_lower name_lower (name a) ;;
  if b then Ok true else in_lower name_lower (last_name a).

Definition city_matches (city_lower : string) (a : Applicant) : result bool :=
  in_lower city_lower (city a).

Definition search_filters (english_level email_ : option string) : row :=
  let filters : row := ∅ in
  let filters := if given email_ then <["email" := VStr (default "" email_)]> filters else filters in
  let filters :=
    if given english_level then <["english" := VStr (default "" english_level)]> filters
    else filters in
  filters.

Definition search_applicants (name_ city_ english_level email_ : option string)
  : prog (list Applicant) :=
  let filters := search_filters english_level email_ in
  data <- Database.query_table TABLE_NAME
            (Some (if bool_decide (filters = ∅) then {[ "deactive_at" := VNone ]} else filters)) ;;
  applicants <- lift (map_r from_dict data) ;;
  applicants <- (if given name_
                 then lift (filter_r (name_matches (PyStr.lower (default "" name_))) applicants)
                 else Ret applicants) ;;
  applicants <- (if given city_
                 then lift (filter_r (city_matches (PyStr.lower (default "" city_))) applicants)
                 else Ret applicants) ;;
  Ret applicants.

Definition create_applicant (applicant : Applicant) : prog Applicant :=
  let data := to_dict applicant in
  result <- Database.insert_record TABLE_NAME data ;;
  match result with
  | r :: _ => lift (from_dict r)
  | [] => Throw (Exception_ "Failed to create applicant")
  end.

Definition update_applicant (applicant_id : string) (updates : row)
  : prog (option Applicant) :=
  result <- Database.update_record TABLE_NAME (VStr applicant_id) updates ;;
  match result with
  | r :: _ => a <- lift (from_dict r) ;; Ret (Some a)
  | [] => Ret None
  end.

Definition delete_applicant (applicant_id : string) : prog bool :=
  result <- Database.delete_record TABLE_NAME (VStr applicant_id) ;;
  Ret (nonempty result).

(** [now] is the value of [datetime.utcnow()] at the call. *)
Definition deactivate_applicant (now : datetime) (applicant_id : string)
  : prog (option Applicant) :=
  let updates : row := {[ "deactive_at" := VStr (PyDatetime.isoformat now) ]} in
  update_applicant applicant_id updates.

Definition reactivate_applicant (applicant_id : string) : prog (option Applicant) :=
  let updates : row := {[ "deactive_at" := VNone ]} in
  update_applicant applicant_id updates.

End Applicants.

(** ** [api/clients.py] *)

Module Clients.

Record Client : Type := mkClient {
  description : pyval;
  id : option UUID;
  created_at : option datetime;
  deactive : option datetime
}.

Definition to_dict (self : Client) : row :=
  let data : row := ∅ in
  let data := set_if_not_none "description" (description self) data in
  match id self with
  | Some u => <["id" := VStr (PyUuid.to_string u)]> data
  | None => data
  end.

Definition from_dict (data : row) : result Client :=
  id_ <-! parse_if_present uuid_UUID data "id" ;;
  let description_ := dict_get data "description" in
  created_at_ <-! parse_if_present datetime_fromisoformat data "created_at" ;;
  deactive_ <-! parse_if_present datetime_fromisoformat data "deactive" ;;
  Ok (mkClient description_ id_ created_at_ deactive_).

Definition TABLE_NAME : string := "client".

Definition get_all_clients (include_inactive : bool) : prog (list Client) :=
  data <- (if include_inactive
           then Database.query_table TABLE_NAME None
           else Database.query_table TABLE_NAME (Some {[ "deactive" := VNone ]})) ;;
  lift (map_r from_dict data).

Definition get_client_by_id (client_id : string) : prog (option Client) :=
  data <- Database.query_table TABLE_NAME (Some {[ "id" := VStr client_id ]}) ;;
  match data with
  | r :: _ => c <- lift (from_dict r) ;; Ret (Some c)
  | [] => Ret None
  end.

(** The residual test of the [description] filter:
    [c.description and desc_lower in c.description.lower()]. *)
Definition description_matches (desc_lower : string) (c : Client) : result bool :=
  if truthy (description c) then in_lower desc_lower (description c) else Ok false.

Definition search_clients (description_ : option string) : prog (list Client) :=
  data <- Database.query_table TABLE_NAME (Some {[ "deactive" := VNone ]}) ;;
  clients <- lift (map_r from_dict data) ;;
  clients <- (if given description_
              then lift (filter_r (description_matches (PyStr.lower (default "" description_)))
                           clients)
              else Ret clients) ;;
  Ret clients.

Definition create_client (client : Client) : prog Client :=
  let data := to_dict client in
  let data := delete "id" data in
  result <- Database.insert_record TABLE_NAME data ;;
  match result with
  | r :: _ => lift (from_dict r)
  | [] => Throw (Exception_ "Failed to create client")
  end.

Definition update_client (client_id : string) (updates : row) : prog (option Client) :=
  result <- Database.update_record TABLE_NAME (VStr client_id) updates ;;
  match result with
  | r :: _ => c <- lift (from_dict r) ;; Ret (Some c)
  | [] => Ret None
  end.

Definition delete_client (client_id : string) : prog bool :=
  result <- Database.delete_record TABLE_NAME (VStr client_id) ;;
  Ret (nonempty result).

Definition deactivate_client (now : datetime) (client_id : string) : prog (option Client) :=
  let updates : row := {[ "deactive" := VStr (PyDatetime.isoformat now) ]} in
  update_client client_id updates.

Definition reactivate_client (client_id : string) : prog (option Client) :=
  let updates : row := {[ "deactive" := VNone ]} in
  update_client client_id updates.

End Clients.

(** ** [api/recruiters.py] *)

Module Recruiters.

(** The [id] of a recruiter after decoding: a UUID object, or the wire
    value as it came (an integer, a string that is no UUID, [None]). *)
Inductive id_value : Type :=
  | IdUuid (u : UUID)
  | IdRaw (v : pyval).

Record Recruiter : Type := mkRecruiter {
  name : pyval;
  description : pyval;
  id : id_value;
  created_at : option datetime;
  deactive_at : option datetime
}.

Definition to_dict (self : Recruiter) : row :=
  let data : row := {[ "name" := name self ]} in
  set_if_not_none "description" (description self) data.

(** The first lines of [from_dict]:
      id_val = data.get("id")
      if id_val is not None:
          if isinstance(id_val, str):
              try: id_val = uuid.UUID(id_val)
              except ValueError: pass *)
Definition resolve_id (id_val : pyval) : id_value :=
  match id_val with
  | VStr s =>
      match PyUuid.of_string s with
      | Some u => IdUuid u
      | None => IdRaw id_val
      end
  | _ => IdRaw id_val
  end.

Definition from_dict (data : row) : result Recruiter :=
  let id_val := resolve_id (dict_get data "id") in
  name_ <-! dict_item data "name" ;;
  let description_ := dict_get data "description" in
  created_at_ <-! parse_if_present datetime_fromisoformat data "created_at" ;;
  deactive_at_ <-! parse_if_present datetime_fromisoformat data "deactive_at" ;;
  Ok (mkRecruiter name_ description_ id_val created_at_ deactive_at_).

Definition TABLE_NAME : string := "recruiter".

Definition get_all_recruiters (include_inactive : bool) : prog (list Recruiter) :=
  data <- (if include_inactive
           then Database.query_table TABLE_NAME None
           else Database.query_table TABLE_NAME (Some {[ "deactive_at" := VNone ]})) ;;
  lift (map_r from_dict data).

Definition get_recruiter_by_id (recruiter_id : string) : prog (option Recruiter) :=
  data <- Database.query_table TABLE_NAME (Some {[ "id" := VStr recruiter_id ]}) ;;
  match data with
  | r :: _ => x <- lift (from_dict r) ;; Ret (Some x)
  | [] => Ret None
  end.

Definition name_matches (name_lower : string) (r : Recruiter) : result bool :=
  in_lower name_lower (name r).

(** [r.description and desc_lower in r.description.lower()]. *)
Definition description_matches (desc_lower : string) (r : Recruiter) : result bool :=
  if truthy (description r) then in_lower desc_lower (description r) else Ok false.

Definition search_recruiters (name_ description_ : option string) : prog (list Recruiter) :=
  data <- Database.query_table TABLE_NAME (Some {[ "deactive_at" := VNone ]}) ;;
  recruiters <- lift (map_r from_dict data) ;;
  recruiters <- (if given name_
                 then lift (filter_r (name_matches (PyStr.lower (default "" name_))) recruiters)
                 else Ret recruiters) ;;
  recruiters <- (if given description_
                 then lift (filter_r
                              (description_matches (PyStr.lower (default "" description_)))
                              recruiters)
                 else Ret recruiters) ;;
  Ret recruiters.

Definition create_recruiter (recruiter : Recruiter) : prog Recruiter :=
  let data := to_dict recruiter in
  result <- Database.insert_record TABLE_NAME data ;;
  match result with
  | r :: _ => lift (from_dict r)
  | [] => Throw (Exception_ "Failed to create recruiter")
  end.

Definition update_recruiter (recruiter_id : string) (updates : row)
  : prog (option Recruiter) :=
  result <- Database.update_record TABLE_NAME (VStr recruiter_id) updates ;;
  match result with
  | r :: _ => x <- lift (from_dict r) ;; Ret (Some x)
  | [] => Ret None
  end.

Definition delete_recruiter (recruiter_id : string) : prog bool :=
  result <- Database.delete_record TABLE_NAME (VStr recruiter_id) ;;
  Ret (nonempty result).

Definition deactivate_recruiter (now : datetime) (recruiter_id : string)
  : prog (option Recruiter) :=
  let updates : row := {[ "deactive_at" := VStr (PyDatetime.isoformat now) ]} in
  update_recruiter recruiter_id updates.

Definition reactivate_recruiter (recruiter_id : string) : prog (option Recruiter) :=
  let updates : row := {[ "deactive_at" := VNone ]} in
  update_recruiter recruiter_id updates.

End Recruiters.

(** ** [api/job_descriptions.py] *)

(** [v >= bound] and [v <= bound] with a numeric bound: [bool] is a
    number, [None] and strings are not comparable with one. *)
Definition as_number (v : pyval) : result Z :=
  match v with
  | VNum z => Ok z
  | VBool b => Ok (if b then 1 else 0)
  | _ => Raise (TypeError "comparison not supported between these types")
  end.

Definition py_ge (v : pyval) (bound : Z) : result bool :=
  z <-! as_number v ;; Ok (bound <=? z).

Definition py_le (v : pyval) (bound : Z) : result bool :=
  z <-! as_number v ;; Ok (z <=? bound).

Module JobDescriptions.

Record JobDescription : Type := mkJobDescription {
  min_salary : pyval;
  status : pyval;
  description : pyval;
  max_salary : pyval;
  recruiter_id : pyval;
  client_id : option UUID;
  id : option UUID;
  created_at : option datetime;
  deactive_at : option datetime
}.

Definition to_dict (self : JobDescription) : row :=
  let data : row := {[ "min_salary" := min_salary self; "status" := status self ]} in
  let data := set_if_not_none "description" (description self) data in
  let data := set_if_not_none "max_salary" (max_salary self) data in
  let data := set_if_not_none "recruiter_id" (recruiter_id self) data in
  match client_id self with
  | Some u => <["client_id" := VStr (PyUuid.to_string u)]> data
  | None => data
  end.

Definition from_dict (data : row) : result JobDescription :=
  id_ <-! parse_if_present uuid_UUID data "id" ;;
  let min_salary_ := dict_get_default data "min_salary" (VNum 0) in
  let max_salary_ := dict_get data "max_salary" in
  let description_ := dict_get data "description" in
  let status_ := dict_get_default data "status" (VStr "OPEN") in
  let recruiter_id_ := dict_get data "recruiter_id" in
  client_id_ <-! parse_if_present uuid_UUID data "client_id" ;;
  created_at_ <-! parse_if_present datetime_fromisoformat data "created_at" ;;
  deactive_at_ <-! parse_if_present datetime_fromisoformat data "deactive_at" ;;
  Ok (mkJobDescription min_salary_ status_ description_ max_salary_ recruiter_id_
        client_id_ id_ created_at_ deactive_at_).

Definition TABLE_NAME : string := "job_description".

Definition get_all_job_descriptions (include_inactive : bool) : prog (list JobDescription) :=
  data <- (if include_inactive
           then Database.query_table TABLE_NAME None
           else Database.query_table TABLE_NAME (Some {[ "deactive_at" := VNone ]})) ;;
  lift (map_r from_dict data).

Definition get_job_description_by_id (job_id : string) : prog (option JobDescription) :=
  data <- Database.query_table TABLE_NAME (Some {[ "id" := VStr job_id ]}) ;;
  match data with
  | r :: _ => j <- lift (from_dict r) ;; Ret (Some j)
  | [] => Ret None
  end.

Definition search_filters (status_ client_id_ : option string) (recruiter_id_ : option Z)
  : row :=
  let filters : row := ∅ in
  let filters := if given status_ then <["status" := VStr (default "" status_)]> filters
                 else filters in
  let filters := if given client_id_ then <["client_id" := VStr (default "" client_id_)]> filters
                 else filters in
  match recruiter_id_ with
  | Some n => <["recruiter_id" := VNum n]> filters
  | None => filters
  end.

Definition search_job_descriptions (status_ client_id_ : option string)
    (recruiter_id_ min_salary_min min_salary_max : option Z) : prog (list JobDescription) :=
  let filters := search_filters status_ client_id_ recruiter_id_ in
  data <- (if bool_decide (filters = ∅)
           then Database.query_table TABLE_NAME (Some {[ "deactive_at" := VNone ]})
           else Database.query_table TABLE_NAME (Some (<["deactive_at" := VNone]> filters))) ;;
  jobs <- lift (map_r from_dict data) ;;
  jobs <- (match min_salary_min with
           | Some lo => lift (filter_r (fun j => py_ge (min_salary j) lo) jobs)
           | None => Ret jobs
           end) ;;
  jobs <- (match min_salary_max with
           | Some hi => lift (filter_r (fun j => py_le (min_salary j) hi) jobs)
           | None => Ret jobs
           end) ;;
  Ret jobs.

Definition create_job_description (job : JobDescription) : prog JobDescription :=
  let data := to_dict job in
  result <- Database.insert_record TABLE_NAME data ;;
  match result with
  | r :: _ => lift (from_dict r)
  | [] => Throw (Exception_ "Failed to create job description")
  end.

Definition update_job_description (job_id : string) (updates : row)
  : prog (option JobDescription) :=
  result <- Database.update_record TABLE_NAME (VStr job_id) updates ;;
  match result with
  | r :: _ => j <- lift (from_dict r) ;; Ret (Some j)
  | [] => Ret None
  end.

Definition delete_job_description (job_id : string) : prog bool :=
  result <- Database.delete_record TABLE_NAME (VStr job_id) ;;
  Ret (nonempty result).

Definition close_job_description (now : datetime) (job_id : string)
  : prog (option JobDescription) :=
  let updates : row :=
    {[ "deactive_at" := VStr (PyDatetime.isoformat now); "status" := VStr "CLOSED" ]} in
  update_job_description job_id updates.

Definition reopen_job_description (job_id : string) : prog (option JobDescription) :=
  let updates : row := {[ "deactive_at" := VNone; "status" := VStr "OPEN" ]} in
  update_job_description job_id updates.

Definition change_job_status (job_id : string) (status_ : string)
  : prog (option JobDescription) :=
  update_job_description job_id {[ "status" := VStr status_ ]}.

End JobDescriptions.

(** ** [api/applicant_job_apply.py] *)

Module JobApplications.

Record ApplicantJobApply : Type := mkApplicantJobApply {
  applicant_id : option UUID;
  job_description_id : option UUID;
  id : pyval;
  created_at : option datetime;
  deactive_at : option datetime;
  recruiter_id : option UUID
}.

Definition to_dict (self : ApplicantJobApply) : row :=
  let data : row :=
    {[ "applicant_id" := VStr (str_opt_uuid (applicant_id self));
       "job_description_id" := VStr (str_opt_uuid (job_description_id self)) ]} in
  let data := match recruiter_id self with
              | Some u => <["recruiter_id" := VStr (PyUuid.to_string u)]> data
              | None => data
              end in
  if truthy (id self) then <["id" := id self]> data else data.

Definition from_dict (data : row) : result ApplicantJobApply :=
  let id_ := dict_get data "id" in
  applicant_id_ <-! parse_if_present uuid_UUID data "applicant_id" ;;
  job_description_id_ <-! parse_if_present uuid_UUID data "job_description_id" ;;
  recruiter_id_ <-! parse_if_present uuid_UUID data "recruiter_id" ;;
  created_at_ <-! parse_if_present datetime_fromisoformat data "created_at" ;;
  deactive_at_ <-! parse_if_present datetime_fromisoformat data "deactive_at" ;;
  Ok (mkApplicantJobApply applicant_id_ job_description_id_ id_ created_at_ deactive_at_
        recruiter_id_).

Definition TABLE_NAME : string := "applicant_job_apply".

Definition get_all_applications (include_inactive : bool) : prog (list ApplicantJobApply) :=
  data <- (if include_inactive
           then Database.query_table TABLE_NAME None
           else Database.query_table TABLE_NAME (Some {[ "deactive_at" := VNone ]})) ;;
  lift (map_r from_dict data).

Definition get_application_by_id (application_id : Z) : prog (option ApplicantJobApply) :=
  data <- Database.query_table TABLE_NAME (Some {[ "id" := VNum application_id ]}) ;;
  match data with
  | r :: _ => a <- lift (from_dict r) ;; Ret (Some a)
  | [] => Ret None
  end.

Definition get_applications_by_applicant (applicant_id_ : string)
  : prog (list ApplicantJobApply) :=
  data <- Database.query_table TABLE_NAME (Some {[ "applicant_id" := VStr applicant_id_ ]}) ;;
  lift (map_r from_dict data).

Definition get_applications_by_job (job_description_id_ : string)
  : prog (list ApplicantJobApply) :=
  data <- Database.query_table TABLE_NAME
            (Some {[ "job_description_id" := VStr job_description_id_ ]}) ;;
  lift (map_r from_dict data).

Definition search_filters (applicant_id_ job_description_id_ recruiter_id_ : option string)
  : row :=
  let filters : row := ∅ in
  let filters := if given applicant_id_
                 then <["applicant_id" := VStr (default "" applicant_id_)]> filters
                 else filters in
  let filters := if given job_description_id_
                 then <["job_description_id" := VStr (default "" job_description_id_)]> filters
                 else filters in
  let filters := if given recruiter_id_
                 then <["recruiter_id" := VStr (default "" recruiter_id_)]> filters
                 else filters in
  match filters !! "deactive_at" with
  | None => <["deactive_at" := VNone]> filters
  | Some _ => filters
  end.

Definition search_applications (applicant_id_ job_description_id_ recruiter_id_ : option string)
  : prog (list ApplicantJobApply) :=
  let filters := search_filters applicant_id_ job_description_id_ recruiter_id_ in
  data <- Database.query_table TABLE_NAME
            (if bool_decide (filters = ∅) then None else Some filters) ;;
  lift (map_r from_dict data).

Definition create_application (application : ApplicantJobApply) : prog ApplicantJobApply :=
  let data := to_dict application in
  result <- Database.insert_record TABLE_NAME data ;;
  match result with
  | r :: _ => lift (from_dict r)
  | [] => Throw (Exception_ "Failed to create job application")
  end.

Definition update_application (application_id : Z) (updates : row)
  : prog (option ApplicantJobApply) :=
  result <- Database.update_record TABLE_NAME (VNum application_id) updates ;;
  match result with
  | r :: _ => a <- lift (from_dict r) ;; Ret (Some a)
  | [] => Ret None
  end.

Definition delete_application (application_id : Z) : prog bool :=
  result <- Database.delete_record TABLE_NAME (VNum application_id) ;;
  Ret (nonempty result).

Definition deactivate_application (now : datetime) (application_id : Z)
  : prog (option ApplicantJobApply) :=
  let updates : row := {[ "deactive_at" := VStr (PyDatetime.isoformat now) ]} in
  update_application application_id updates.

Definition reactivate_application (application_id : Z) : prog (option ApplicantJobApply) :=
  let updates : row := {[ "deactive_at" := VNone ]} in
  update_application application_id updates.

Definition assign_recruiter (application_id : Z) (recruiter_id_ : string)
  : prog (option ApplicantJobApply) :=
  let updates : row := {[ "recruiter_id" := VStr recruiter_id_ ]} in
  update_application application_id updates.

Definition unassign_recruiter (application_id : Z) : prog (option ApplicantJobApply) :=
  let updates : row := {[ "recruiter_id" := VNone ]} in
  update_application application_id updates.

End JobApplications.

(** The first round trip a program makes, if it makes one. *)
Definition first_call {A} (p : prog A) : option call :=
  match p with
  | Do c _ => Some c
  | _ => None
  end.

(** The round trips a program makes against a store, in order. *)
Fixpoint trace {S} `{RecordStore S} {A} (p : prog A) (s : S) : list call :=
  match p with
  | Do c k => let '(r, s') := answer c s in c :: trace (k r) s'
  | _ => []
  end.

(** The exceptions a codec raises on a row: a missing key, a value that
    does not parse, a value of the wrong type. *)
Definition codec_exn (e : exn) : Prop :=
  match e with
  | Exception_ _ => False
  | _ => True
  end.

Definition raises_only {A} (P : exn -> Prop) (r : result A) : Prop :=
  forall e, r = Raise e -> P e.

(** [Some] of a decoded row. *)
Definition some_r {A} (r : result A) : result (option A) :=
  a <-! r ;; Ok (Some a).

(** ** The contracts of the repository operations *)

(** [Exception("Failed to create <what>")], raised by the [create_*]
    functions when the insert answered with no row. *)
Definition creation_error (what : string) : exn :=
  Exception_ ("Failed to create " +:+ what).

(** [create]: one insert of [payload]; a creation error exactly when the
    store answers with zero rows; otherwise the decoded first row. *)
Definition create_contract {S} `{RecordStore S} {E} (create : prog E) (table : string)
    (payload : row) (from_wire : row -> result E) (what : string) (s : S) : Prop :=
  trace create s = [InsertRow table payload] /\
  (run create s).2 = (answer (InsertRow table payload) s).2 /\
  ((run create s).1 = Raise (creation_error what) <->
   (answer (InsertRow table payload) s).1 = Ok []) /\
  (forall r rest, (answer (InsertRow table payload) s).1 = Ok (r :: rest) ->
                  (run create s).1 = from_wire r).

(** [update]: one update-by-id of [fields]; the decoded first row when
    the store answers with one, the absent value when it answers with
    none. *)
Definition update_contract {S} `{RecordStore S} {E} (update : prog (option E))
    (table : string) (record_id : pyval) (fields : row) (from_wire : row -> result E)
    (s : S) : Prop :=
  trace update s = [UpdateEq table fields record_id] /\
  (run update s).2 = (answer (UpdateEq table fields record_id) s).2 /\
  (forall r rest, (answer (UpdateEq table fields record_id) s).1 = Ok (r :: rest) ->
                  (run update s).1 = some_r (from_wire r)) /\
  ((answer (UpdateEq table fields record_id) s).1 = Ok [] -> (run update s).1 = Ok None).

(** No row of [table] has the identifier [record_id]. *)
Definition no_such_row (m : MemStore.t) (table : string) (record_id : pyval) : Prop :=
  Forall (fun r => MemStore.is_target record_id r = false) (MemStore.rows_of m table).

(** The shape shared by the five [update_*] functions: one update-by-id,
    then the first row of the answer decoded, or [None]. *)
Definition update_with {E} (from_wire : row -> result E) (table : string)
    (record_id : pyval) (fields : row) : prog (option E) :=
  result <- Database.update_record table record_id fields ;;
  match result with
  | r :: _ => a <- lift (from_wire r) ;; Ret (Some a)
  | [] => Ret None
  end.

(** The first row of [table] that has the identifier [record_id]. *)
Definition first_row (m : MemStore.t) (table : string) (record_id : pyval) : option row :=
  head (List.filter (MemStore.is_target record_id) (MemStore.rows_of m table)).

(** An instant as [datetime.utcnow()] gives it: in range and naive. *)
Definition utc_instant (now : datetime) : Prop :=
  PyDatetime.valid now = true /\ PyDatetime.utcoffset now = None.

(** Soft delete on the in-memory store, with the clock reading [now1] at
    the first call and [now2] at the second: deactivating then
    reactivating leaves [deactive_at] null; deactivating an entity that
    is already inactive is accepted and stamps it again. *)
Definition lifecycle_contract {E} (deactivate : datetime -> prog (option E))
    (reactivate : prog (option E)) (deactive_of : E -> option datetime)
    (m : MemStore.t) (now1 now2 : datetime) : Prop :=
  (exists e, (run (_ <- deactivate now1 ;; reactivate) m).1 = Ok (Some e) /\
             deactive_of e = None) /\
  (exists e1 e2,
      (run (deactivate now1) m).1 = Ok (Some e1) /\ deactive_of e1 = Some now1 /\
      (run (_ <- deactivate now1 ;; deactivate now2) m).1 = Ok (Some e2) /\
      deactive_of e2 = Some now2).

(** The round trip on the overlapping field set: a column present both
    in the row and in the re-encoded row has the same value in both. *)
Definition round_trip (data out : row) : Prop :=
  forall k v v', data !! k = Some v -> out !! k = Some v' -> v = v'.

(** The text held in column [k], when it reads as a UUID, is the text
    that [str] gives for that UUID (lower case, hyphens, no braces). *)
Definition canonical_id (data : row) (k : string) : Prop :=
  forall s u, data !! k = Some (VStr s) -> PyUuid.of_string s = Some u ->
              PyUuid.to_string u = s.

(** Column [k], when present, holds a true value (not null, not empty). *)
Definition filled (data : row) (k : string) : Prop :=
  forall v, data !! k = Some v -> truthy v = true.

(** What every search does after its query: decode the rows, then keep
    a part of them. [keeps k] says that the continuation [k] only returns
    entities it was given. *)
Definition keeps {A} (k : list A -> prog (list A)) : Prop :=
  forall (m : MemStore.t) l l', (run (k l) m).1 = Ok l' -> forall x, x ∈ l' -> x ∈ l.

(** The shapes shared by the five [get_all_*], [get_*_by_id] and
    [delete_*] functions; [dk] is the deactivation column of the table. *)
Definition get_all_with {E} (from_wire : row -> result E) (table dk : string)
    (include_inactive : bool) : prog (list E) :=
  data <- (if include_inactive
           then Database.query_table table None
           else Database.query_table table (Some {[ dk := VNone ]})) ;;
  lift (map_r from_wire data).

Definition get_by_id_with {E} (from_wire : row -> result E) (table : string)
    (record_id : pyval) : prog (option E) :=
  data <- Database.query_table table (Some {[ "id" := record_id ]}) ;;
  match data with
  | r :: _ => a <- lift (from_wire r) ;; Ret (Some a)
  | [] => Ret None
  end.

Definition delete_with (table : string) (record_id : pyval) : prog bool :=
  result <- Database.delete_record table record_id ;;
  Ret (nonempty result).

#[global] Instance result_eq_dec {A} `{EqDecision A} : EqDecision (result A).
Proof. solve_decision. Defined.

(** The column is unset or null in the row. *)
Definition null_column (r : row) (k : string) : Prop :=
  r !! k = None \/ r !! k = Some VNone.

(** Permanent deletion on the in-memory store: the answer tells whether
    a row had the identifier; exactly the rows with the identifier are
    gone, the other rows and tables stay; a lookup of the identifier then
    finds nothing and a second deletion answers [False]. *)
Definition deletion_contract {E} (delete : prog bool) (lookup : prog (option E))
    (m : MemStore.t) (table : string) (record_id : pyval) : Prop :=
  let m' := (run delete m).2 in
  (exists b, (run delete m).1 = Ok b /\
             (b = true <-> exists r, r ∈ MemStore.rows_of m table /\
                                     MemStore.is_target record_id r = true)) /\
  MemStore.rows_of m' table
  = List.filter (fun r => negb (MemStore.is_target record_id r)) (MemStore.rows_of m table) /\
  (forall table', table' ≠ table -> MemStore.rows_of m' table' = MemStore.rows_of m table') /\
  (run (_ <- delete ;; lookup) m).1 = Ok None /\
  (run (_ <- delete ;; delete) m).1 = Ok false.

(** A store that is down: every call raises [e]. *)
Inductive outage : Type := Outage (e : exn).

#[global] Instance outage_store : RecordStore outage := fun _ s =>
  match s with
  | Outage e => (Raise e, s)
  end.

(** When the store raises [e] on the call [c], the program raises
    [wrap e]. *)
Definition raises_when {S} `{RecordStore S} {A} (c : call) (wrap : exn -> exn)
    (p : prog A) (s : S) : Prop :=
  forall e, (answer c s).1 = Raise e -> (run p s).1 = Raise (wrap e).

(** The exception [insert_record] raises in place of the store's. *)
Definition insert_error (table : string) (e : exn) : exn :=
  Exception_ ("Error inserting into " +:+ table +:+ ": " +:+ exn_str e).

(** What is seen of an entity once it is deactivated, on the in-memory
    store: the lookup by identifier still returns it, stamped with the
    instant of the call; every entity of the default listing is decoded
    from a row of the table that does not have the identifier. *)
Definition deactivation_visibility {E} (deactivate lookup : prog (option E))
    (listing : prog (list E)) (from_wire : row -> result E)
    (deactive_of : E -> option datetime) (m : MemStore.t) (table : string)
    (record_id : pyval) (now : datetime) : Prop :=
  (exists e, (run (_ <- deactivate ;; lookup) m).1 = Ok (Some e) /\
             deactive_of e = Some now) /\
  (forall l, (run (_ <- deactivate ;; listing) m).1 = Ok l ->
             forall a, a ∈ l ->
                       exists r, r ∈ MemStore.rows_of m table /\
                                 MemStore.is_target record_id r = false /\
                                 from_wire r = Ok a).


(** The exceptions of the residual tests: [None.lower()] and
    [None >= bound]. *)
Definition no_lower : exn := AttributeError "object has no attribute 'lower'".
Definition not_comparable : exn := TypeError "comparison not supported between these types".


(** The exception is not a [KeyError]. *)
Definition not_key_error (e : exn) : Prop :=
  match e with
  | KeyError _ => False
  | _ => True
  end.

(** What an update changes on the in-memory store, whether or not the
    call then raises: a row without the identifier stays as it is; a row
    with it takes the given fields and keeps its other columns; the other
    tables stay. *)
Definition update_frame {E} (update : prog (option E)) (m : MemStore.t) (table : string)
    (record_id : pyval) (fields : row) : Prop :=
  let m' := (run update m).2 in
  Forall2 (fun r r' : row =>
             (MemStore.is_target record_id r = false -> r' = r) /\
             (MemStore.is_target record_id r = true ->
              forall k v, fields !! k = Some v -> r' !! k = Some v) /\
             (forall k, fields !! k = None -> r' !! k = r !! k))
    (MemStore.rows_of m table) (MemStore.rows_of m' table) /\
  (forall table', table' ≠ table -> MemStore.rows_of m' table' = MemStore.rows_of m table').

(** The shape shared by the five [create_*] functions. *)
Definition create_with {E} (from_wire : row -> result E) (table what : string)
    (payload : row) : prog E :=
  result <- Database.insert_record table payload ;;
  match result with
  | r :: _ => lift (from_wire r)
  | [] => Throw (creation_error what)
  end.

(** Creating on the in-memory store, when the full listing decodes
    before the call: the creation succeeds exactly when the completed row
    decodes, and the full listing is then the former one followed by the
    created entity. *)
Definition creation_extends_listing {E} (create : prog E) (listing : prog (list E))
    (m : MemStore.t) : Prop :=
  forall every,
    (run listing m).1 = Ok every ->
    forall created,
      (run create m).1 = Ok created ->
      (run (_ <- create ;; listing) m).1 = Ok (every ++ [created])%list.

(** ** Sample data *)

Module Sample.

Definition uuid_a : string := "12345678-1234-5678-1234-567812345678".
Definition uuid_b : string := "9f8e7d6c-0000-4000-8000-0123456789ab".
Definition uuid_c : string := "00000000-0000-4000-8000-00000000000c".

Definition noon : datetime := PyDatetime.mkDatetime 2024 3 1 12 0 0 0 None.
Definition later : datetime := PyDatetime.mkDatetime 2024 3 2 8 15 30 250000 None.

(** An active applicant and a deactivated one. *)
Definition ana : row :=
  {[ "id" := VStr uuid_a; "name" := VStr "Ana"; "last_name" := VStr "Diaz";
     "linkedin" := VStr "in/ana"; "email" := VStr "ana@x.io"; "phone" := VStr "555-0101";
     "city" := VStr "Lima"; "english" := VStr "B2";
     "created_at" := VStr "2024-01-15T10:30:00.123456+00:00";
     "deactive_at" := VNone ]}.

Definition bob : row :=
  {[ "id" := VStr uuid_b; "name" := VStr "Bob"; "last_name" := VStr "Roe";
     "linkedin" := VStr "in/bob"; "email" := VStr "bob@x.io"; "phone" := VStr "555-0102";
     "city" := VStr "Quito"; "english" := VStr "C1";
     "created_at" := VStr "2024-01-16T09:00:00+00:00";
     "deactive_at" := VStr "2024-02-01T00:00:00+00:00" ]}.

(** The same applicant as [ana], its id written in upper case. *)
Definition ana_upper : row :=
  <["id" := VStr "ABCDEF00-1234-5678-1234-567812345678"]> ana.

Definition globant : row :=
  {[ "id" := VStr uuid_a; "description" := VStr "Globant - IT";
     "created_at" := VStr "2024-01-15T10:30:00+00:00"; "deactive" := VNone ]}.

(** A client whose description column is null. *)
Definition nameless : row :=
  {[ "id" := VStr uuid_b; "description" := VNone;
     "created_at" := VStr "2024-01-15T10:30:00+00:00"; "deactive" := VNone ]}.

Definition rita : row :=
  {[ "id" := VNum 7; "name" := VStr "Rita"; "description" := VNone;
     "created_at" := VStr "2024-01-15T10:30:00+00:00"; "deactive_at" := VNone ]}.

Definition backend_job : row :=
  {[ "id" := VStr uuid_c; "min_salary" := VNum 50000; "status" := VStr "OPEN";
     "description" := VStr "Backend developer"; "recruiter_id" := VNum 7;
     "client_id" := VStr uuid_a;
     "created_at" := VStr "2024-01-20T08:00:00+00:00"; "deactive_at" := VNone ]}.

Definition application : row :=
  {[ "id" := VNum 1; "applicant_id" := VStr uuid_a; "job_description_id" := VStr uuid_c;
     "created_at" := VStr "2024-01-21T08:00:00+00:00"; "deactive_at" := VNone ]}.

(** The store completes an inserted row with an [id] and a [created_at]
    unless the row brings its own. *)
Definition defaults (table : string) (rows : list row) (data : row) : row :=
  data ∪ {[ "id" := VStr uuid_c; "created_at" := VStr "2024-03-01T12:00:00+00:00" ]}.

Definition store : MemStore.t :=
  MemStore.mk
    {[ "applicants" := [ana; bob];
       "client" := [globant; nameless];
       "recruiter" := [rita];
       "job_description" := [backend_job];
       "applicant_job_apply" := [application] ]}
    defaults.

Definition new_client : Clients.Client :=
  Clients.mkClient (VStr "Acme Corp") (PyUuid.of_string uuid_b) None None.

Definition new_applicant : Applicants.Applicant :=
  Applicants.mkApplicant (VStr "Eva") (VStr "Luna") (VStr "in/eva") (VStr "eva@x.io")
    (VStr "555-0103") (VStr "Cusco") (VStr "B1") (PyUuid.of_string uuid_b) None None.

(** A recruiter whose name column is null, and a store that holds it. *)
Definition anonymous : row :=
  {[ "id" := VNum 8; "name" := VNone; "description" := VStr "Sourcing";
     "created_at" := VStr "2024-01-15T10:30:00+00:00"; "deactive_at" := VNone ]}.

Definition store_with_anonymous : MemStore.t :=
  MemStore.mk {[ "recruiter" := [rita; anonymous] ]} defaults.

End Sample.

(** * Properties *)

(** ** The library models on examples *)

Example uuid_parse_canonical :
  PyUuid.to_string <$> PyUuid.of_string "12345678-1234-5678-1234-567812345678"
  = Some "12345678-1234-5678-1234-567812345678".
Proof. vm_compute. reflexivity. Qed.

Example uuid_parse_upper_braces :
  PyUuid.to_string <$> PyUuid.of_string "{ABCDEF00-1234-5678-1234-567812345678}"
  = Some "abcdef00-1234-5678-1234-567812345678".
Proof. vm_compute. reflexivity. Qed.

Example uuid_parse_short : PyUuid.of_string "uuid-here" = None.
Proof. vm_compute. reflexivity. Qed.

Example fromisoformat_store_instant :
  PyDatetime.fromisoformat "2024-01-15T10:30:00.123456+00:00"
  = Some (PyDatetime.mkDatetime 2024 1 15 10 30 0 123456 (Some 0)).
Proof. vm_compute. reflexivity. Qed.

Example fromisoformat_date_only :
  PyDatetime.fromisoformat "2024-02-29"
  = Some (PyDatetime.mkDatetime 2024 2 29 0 0 0 0 None).
Proof. vm_compute. reflexivity. Qed.

Example fromisoformat_bad_day : PyDatetime.fromisoformat "2023-02-29T10:30:00" = None.
Proof. vm_compute. reflexivity. Qed.

Example isoformat_naive :
  PyDatetime.isoformat (PyDatetime.mkDatetime 2024 1 15 10 30 0 0 None)
  = "2024-01-15T10:30:00".
Proof. vm_compute. reflexivity. Qed.

Example isoformat_aware :
  PyDatetime.isoformat (PyDatetime.mkDatetime 2024 1 15 10 30 0 120 (Some (-12600000000)))
  = "2024-01-15T10:30:00.000120-03:30".
Proof. vm_compute. reflexivity. Qed.

(** ** Running programs against a store *)

Section Run.
Context {S : Type} `{RecordStore S}.

Lemma run_bind {A B} (p : prog A) (f : A -> prog B) (s : S) :
  run (pbind p f) s =
  match run p s with
  | (Ok a, s') => run (f a) s'
  | (Raise e, s') => (Raise e, s')
  end.
Proof.
  revert s. induction p as [a|e|c k IH]; intros s; simpl; try reflexivity.
  destruct (answer c s) as [r s']. apply IH.
Qed.

Lemma run_lift {A} (r : result A) (s : S) : run (lift r) s = (r, s).
Proof. destruct r; reflexivity. Qed.

Lemma run_execute (c : call) (s : S) : run (execute c) s = answer c s.
Proof.
  unfold execute. simpl. destruct (answer c s) as [r s']. apply run_lift.
Qed.

Lemma run_query_table tn filters (s : S) :
  run (Database.query_table tn filters) s = answer (Select tn (default ∅ filters)) s.
Proof. apply run_execute. Qed.

Lemma run_update_record tn rid data (s : S) :
  run (Database.update_record tn rid data) s = answer (UpdateEq tn data rid) s.
Proof. apply run_execute. Qed.

Lemma run_insert_record tn data (s : S) :
  run (Database.insert_record tn data) s =
  match answer (InsertRow tn data) s with
  | (Ok rs, s') => (Ok rs, s')
  | (Raise e, s') =>
      (Raise (Exception_ ("Error inserting into " +:+ tn +:+ ": " +:+ exn_str e)), s')
  end.
Proof.
  unfold Database.insert_record, execute. simpl.
  destruct (answer (InsertRow tn data) s) as [[rs|e] s']; reflexivity.
Qed.

End Run.


Lemma run_bind_ok {S} `{RecordStore S} {A B} (p : prog A) (f : A -> prog B) (s s' : S) a :
  run p s = (Ok a, s') -> run (pbind p f) s = run (f a) s'.
Proof. intros Hp. rewrite run_bind, Hp. reflexivity. Qed.

Lemma run_bind_raise {S} `{RecordStore S} {A B} (p : prog A) (f : A -> prog B) (s s' : S) e :
  run p s = (Raise e, s') -> run (pbind p f) s = (Raise e, s').
Proof. intros Hp. rewrite run_bind, Hp. reflexivity. Qed.

(** ** What the codecs can raise *)

Lemma raises_only_ok {A} (P : exn -> Prop) (a : A) : raises_only P (Ok a).
Proof. intros e He. discriminate. Qed.

Lemma raises_only_bind {A B} (P : exn -> Prop) (r : result A) (k : A -> result B) :
  raises_only P r -> (forall a, raises_only P (k a)) -> raises_only P (rbind r k).
Proof.
  intros Hr Hk e. destruct r as [a|e']; simpl.
  - apply Hk.
  - intros [= <-]. apply Hr. reflexivity.
Qed.

Lemma dict_item_raises data k : raises_only codec_exn (dict_item data k).
Proof. intros e. unfold dict_item. destruct (data !! k); intros [= <-]. exact I. Qed.

Lemma uuid_UUID_raises v : raises_only codec_exn (uuid_UUID v).
Proof.
  intros e. unfold uuid_UUID.
  destruct v; try (intros [= <-]; exact I).
  destruct (PyUuid.of_string s); intros [= <-]. exact I.
Qed.

Lemma datetime_fromisoformat_raises v : raises_only codec_exn (datetime_fromisoformat v).
Proof.
  intros e. unfold datetime_fromisoformat.
  destruct v; try (intros [= <-]; exact I).
  destruct (PyDatetime.fromisoformat s); intros [= <-]. exact I.
Qed.

Lemma parse_if_present_raises {A} (conv : pyval -> result A) data k :
  (forall v, raises_only codec_exn (conv v)) ->
  raises_only codec_exn (parse_if_present conv data k).
Proof.
  intros Hconv. unfold parse_if_present.
  destruct (truthy (dict_get data k)); [|apply raises_only_ok].
  apply raises_only_bind; [apply dict_item_raises|]. intros v.
  apply raises_only_bind; [apply Hconv|]. intros x. apply raises_only_ok.
Qed.

Create HintDb codec.
#[local] Hint Resolve raises_only_ok dict_item_raises uuid_UUID_raises
  datetime_fromisoformat_raises parse_if_present_raises : codec.

Ltac codec_raises :=
  repeat (first [ apply raises_only_ok
                | apply raises_only_bind; [solve [auto with codec]|intros ?] ]).

Lemma Applicant_from_dict_raises data : raises_only codec_exn (Applicants.from_dict data).
Proof. unfold Applicants.from_dict. codec_raises. Qed.

Lemma Client_from_dict_raises data : raises_only codec_exn (Clients.from_dict data).
Proof. unfold Clients.from_dict. codec_raises. Qed.

Lemma Recruiter_from_dict_raises data : raises_only codec_exn (Recruiters.from_dict data).
Proof. unfold Recruiters.from_dict. codec_raises. Qed.

Lemma JobDescription_from_dict_raises data :
  raises_only codec_exn (JobDescriptions.from_dict data).
Proof. unfold JobDescriptions.from_dict. codec_raises. Qed.

Lemma JobApplication_from_dict_raises data :
  raises_only codec_exn (JobApplications.from_dict data).
Proof. unfold JobApplications.from_dict. codec_raises. Qed.

(** ** Create *)

Section Create.
Context {S : Type} `{RecordStore S} {E : Type}.
Variable from_wire : row -> result E.
Variable table what : string.
Hypothesis from_wire_raises : forall r, raises_only codec_exn (from_wire r).

(** The shape shared by the five [create_*] functions. *)
Let create (payload : row) : prog E :=
  pbind (Database.insert_record table payload)
    (fun result =>
       match result with
       | r :: _ => lift (from_wire r)
       | [] => Throw (creation_error what)
       end).

Lemma create_run payload (s : S) :
  run (create payload) s =
  match answer (InsertRow table payload) s with
  | (Ok (r :: _), s') => (from_wire r, s')
  | (Ok [], s') => (Raise (creation_error what), s')
  | (Raise e, s') =>
      (Raise (Exception_ ("Error inserting into " +:+ table +:+ ": " +:+ exn_str e)), s')
  end.
Proof.
  unfold create. rewrite run_bind, run_insert_record.
  destruct (answer (InsertRow table payload) s) as [[[|r rest]|e] s']; simpl; try reflexivity.
  apply run_lift.
Qed.

Lemma create_trace payload (s : S) :
  trace (create payload) s = [InsertRow table payload].
Proof.
  unfold create, Database.insert_record, execute. simpl.
  destruct (answer (InsertRow table payload) s) as [[[|r rest]|e] s']; simpl; try reflexivity.
  destruct (from_wire r); reflexivity.
Qed.

Lemma create_meets_contract payload (s : S) :
  create_contract (create payload) table payload from_wire what s.
Proof.
  unfold create_contract. rewrite create_trace, create_run.
  destruct (answer (InsertRow table payload) s) as [[[|r rest]|e] s']; simpl.
  - repeat split; auto. intros r rest [=].
  - repeat split; auto.
    + intros Hr. apply from_wire_raises in Hr. destruct Hr.
    + intros [=].
    + intros r' rest' [= <- <-]. reflexivity.
  - repeat split; auto.
    + intros [=].
    + intros [=].
    + intros r rest [=].
Qed.

End Create.

(** C9. The insert that [create_client] sends never carries an [id]: the
    payload is [to_dict] of the client with the key [id] removed, whatever
    the caller put in the [id] field, and it is the only round trip made.
    [create_applicant] sends [to_dict] as it is, and that dictionary holds
    the text of a caller-set id. *)
Theorem create_client_payload_has_no_id {S} `{RecordStore S} (s : S) :
  (forall client : Clients.Client,
      exists data : row,
        trace (Clients.create_client client) s = [InsertRow Clients.TABLE_NAME data] /\
        data = delete "id" (Clients.to_dict client) /\
        data !! "id" = None) /\
  (forall applicant : Applicants.Applicant,
      trace (Applicants.create_applicant applicant) s
      = [InsertRow Applicants.TABLE_NAME (Applicants.to_dict applicant)] /\
      Applicants.to_dict applicant !! "id"
      = (fun u => VStr (PyUuid.to_string u)) <$> Applicants.id applicant).
Proof.
  split.
  - intros client. eexists. split; [|split; [reflexivity|]].
    + apply (create_trace Clients.from_dict Clients.TABLE_NAME "client").
    + apply lookup_delete_eq.
  - intros applicant. split.
    + apply (create_trace Applicants.from_dict Applicants.TABLE_NAME "applicant").
    + unfold Applicants.to_dict. destruct (Applicants.id applicant) as [u|]; simpl.
      * apply lookup_insert_eq.
      * reflexivity.
Qed.

(** C4, as the code has it. For every entity type [create] makes one
    insert and raises the creation error exactly when the store answers
    with zero rows; when the store answers with at least one row it
    returns the decoding of the first. The payload is [to_dict] of the
    entity, except for a client, where it is [to_dict] without the key
    [id]. *)
Theorem create_contract_all {S} `{RecordStore S} (s : S) :
  (forall a, create_contract (Applicants.create_applicant a) Applicants.TABLE_NAME
               (Applicants.to_dict a) Applicants.from_dict "applicant" s) /\
  (forall c, create_contract (Clients.create_client c) Clients.TABLE_NAME
               (delete "id" (Clients.to_dict c)) Clients.from_dict "client" s) /\
  (forall r, create_contract (Recruiters.create_recruiter r) Recruiters.TABLE_NAME
               (Recruiters.to_dict r) Recruiters.from_dict "recruiter" s) /\
  (forall j, create_contract (JobDescriptions.create_job_description j)
               JobDescriptions.TABLE_NAME (JobDescriptions.to_dict j)
               JobDescriptions.from_dict "job description" s) /\
  (forall a, create_contract (JobApplications.create_application a)
               JobApplications.TABLE_NAME (JobApplications.to_dict a)
               JobApplications.from_dict "job application" s).
Proof.
  split; [|split; [|split; [|split]]]; intros x.
  - apply (create_meets_contract _ _ _ Applicant_from_dict_raises).
  - apply (create_meets_contract _ _ _ Client_from_dict_raises).
  - apply (create_meets_contract _ _ _ Recruiter_from_dict_raises).
  - apply (create_meets_contract _ _ _ JobDescription_from_dict_raises).
  - apply (create_meets_contract _ _ _ JobApplication_from_dict_raises).
Qed.

(** C4, as stated, fails for clients: with a caller-set id the insert
    that [create_client] sends is not [to_dict] of the client. *)
Lemma create_client_does_not_send_to_dict :
  ~ create_contract (Clients.create_client Sample.new_client) Clients.TABLE_NAME
      (Clients.to_dict Sample.new_client) Clients.from_dict "client" Sample.store.
Proof.
  intros [Htrace _].
  apply (f_equal (fun l => match l with
                           | [InsertRow _ data] => data !! "id"
                           | _ => None
                           end)) in Htrace.
  vm_compute in Htrace. discriminate.
Qed.

Lemma create_contract_all_witness :
  (run (Applicants.create_applicant Sample.new_applicant) Sample.store).1
  = Applicants.from_dict
      (Sample.defaults "applicants" [] (Applicants.to_dict Sample.new_applicant)).
Proof.
  destruct (create_contract_all Sample.store) as [Ha _].
  destruct (Ha Sample.new_applicant) as (_ & _ & _ & Hfirst).
  apply (Hfirst _ []). vm_compute. reflexivity.
Defined.

(** ** Update *)

Section Update.
Context {S : Type} `{RecordStore S} {E : Type}.
Variable from_wire : row -> result E.
Variable table : string.

(** The shape shared by the five [update_*] functions. *)
Let update (record_id : pyval) (fields : row) : prog (option E) :=
  pbind (Database.update_record table record_id fields)
    (fun result =>
       match result with
       | r :: _ => pbind (lift (from_wire r)) (fun a => Ret (Some a))
       | [] => Ret None
       end).

Lemma update_run record_id fields (s : S) :
  run (update record_id fields) s =
  match answer (UpdateEq table fields record_id) s with
  | (Ok (r :: _), s') => (some_r (from_wire r), s')
  | (Ok [], s') => (Ok None, s')
  | (Raise e, s') => (Raise e, s')
  end.
Proof.
  unfold update. rewrite run_bind, run_update_record.
  destruct (answer (UpdateEq table fields record_id) s) as [[[|r rest]|e] s']; simpl;
    try reflexivity.
  destruct (from_wire r); reflexivity.
Qed.

Lemma update_trace record_id fields (s : S) :
  trace (update record_id fields) s = [UpdateEq table fields record_id].
Proof.
  unfold update, Database.update_record, execute. simpl.
  destruct (answer (UpdateEq table fields record_id) s) as [[[|r rest]|e] s']; simpl;
    try reflexivity.
  destruct (from_wire r); reflexivity.
Qed.

Lemma update_meets_contract record_id fields (s : S) :
  update_contract (update record_id fields) table record_id fields from_wire s.
Proof.
  unfold update_contract. rewrite update_trace, update_run.
  destruct (answer (UpdateEq table fields record_id) s) as [[[|r rest]|e] s']; simpl;
    (split; [reflexivity|split; [reflexivity|split]]).
  - intros r rest [=].
  - reflexivity.
  - intros r' rest' [= <- <-]. reflexivity.
  - intros [=].
  - intros r rest [=].
  - intros [=].
Qed.

End Update.

(** On the in-memory store an update of an identifier that no row has
    answers with no row, whatever the fields. *)
Lemma MemStore_update_no_such_row (m : MemStore.t) table record_id fields :
  no_such_row m table record_id ->
  (answer (UpdateEq table fields record_id) m).1 = Ok [].
Proof.
  intros Hno. simpl. f_equal.
  unfold no_such_row in Hno.
  induction Hno as [|r rs Hr _ IH]; simpl; [reflexivity|].
  rewrite Hr. exact IH.
Qed.

(** C5. For every entity type [update] makes one update-by-id of the
    given fields; it returns the decoded first row when the store answers
    with at least one row, and the absent value, without raising, when
    the store answers with none. On the in-memory store that is the case
    for an identifier no row has, also with an empty field mapping. *)
Theorem update_contract_all {S} `{RecordStore S} (s : S) (m : MemStore.t) :
  (forall id_ fields, update_contract (Applicants.update_applicant id_ fields)
      Applicants.TABLE_NAME (VStr id_) fields Applicants.from_dict s) /\
  (forall id_ fields, update_contract (Clients.update_client id_ fields)
      Clients.TABLE_NAME (VStr id_) fields Clients.from_dict s) /\
  (forall id_ fields, update_contract (Recruiters.update_recruiter id_ fields)
      Recruiters.TABLE_NAME (VStr id_) fields Recruiters.from_dict s) /\
  (forall id_ fields, update_contract (JobDescriptions.update_job_description id_ fields)
      JobDescriptions.TABLE_NAME (VStr id_) fields JobDescriptions.from_dict s) /\
  (forall id_ fields, update_contract (JobApplications.update_application id_ fields)
      JobApplications.TABLE_NAME (VNum id_) fields JobApplications.from_dict s) /\
  (forall id_, no_such_row m Applicants.TABLE_NAME (VStr id_) ->
               (run (Applicants.update_applicant id_ ∅) m).1 = Ok None) /\
  (forall id_, no_such_row m Clients.TABLE_NAME (VStr id_) ->
               (run (Clients.update_client id_ ∅) m).1 = Ok None) /\
  (forall id_, no_such_row m Recruiters.TABLE_NAME (VStr id_) ->
               (run (Recruiters.update_recruiter id_ ∅) m).1 = Ok None) /\
  (forall id_, no_such_row m JobDescriptions.TABLE_NAME (VStr id_) ->
               (run (JobDescriptions.update_job_description id_ ∅) m).1 = Ok None) /\
  (forall id_, no_such_row m JobApplications.TABLE_NAME (VNum id_) ->
               (run (JobApplications.update_application id_ ∅) m).1 = Ok None).
Proof.
  assert (Hgen : forall E (fw : row -> result E) table rid fields (s' : S),
             update_contract
               (pbind (Database.update_record table rid fields)
                  (fun result =>
                     match result with
                     | r :: _ => pbind (lift (fw r)) (fun a => Ret (Some a))
                     | [] => Ret None
                     end)) table rid fields fw s').
  { intros. apply update_meets_contract. }
  assert (Hmem : forall E (fw : row -> result E) table rid,
             no_such_row m table rid ->
             (run (pbind (Database.update_record table rid ∅)
                     (fun result =>
                        match result with
                        | r :: _ => pbind (lift (fw r)) (fun a => Ret (Some a))
                        | [] => Ret None
                        end)) m).1 = Ok None).
  { intros E fw table rid Hno.
    destruct (update_meets_contract fw table rid ∅ m) as (_ & _ & _ & Hnone).
    apply Hnone. apply MemStore_update_no_such_row. exact Hno. }
  repeat (split; [intros; first [apply Hgen | apply Hmem; assumption]|]).
  intros. apply Hmem. assumption.
Qed.

Lemma update_contract_all_witness :
  (run (Applicants.update_applicant Sample.uuid_c ∅) Sample.store).1 = Ok None.
Proof.
  destruct (update_contract_all Sample.store Sample.store)
    as (_ & _ & _ & _ & _ & Habsent & _).
  apply Habsent. unfold no_such_row. vm_compute.
  repeat constructor.
Defined.

(** ** [isoformat] and [fromisoformat] *)

Section DatetimeRoundTrip.
Import PyDatetime.

Ltac Zify.zify_post_hook ::= Z.to_euclidean_division_equations.

Lemma digit_value_char (d : N) : (d < 10)%N -> digit_value (digit_char d) = Some d.
Proof.
  intros Hd.
  assert (d = 0 \/ d = 1 \/ d = 2 \/ d = 3 \/ d = 4 \/ d = 5 \/ d = 6 \/ d = 7 \/ d = 8
          \/ d = 9)%N as Hc by lia.
  repeat (destruct Hc as [->|Hc]; [reflexivity|]). subst d. reflexivity.
Qed.

Lemma two_digits (x : N) : (10 * (x / 10 mod 10) + x mod 10 = x mod 100)%N.
Proof. lia. Qed.

Lemma take_digits_pad2 (m : nat) (n acc : N) (k : string) :
  take_digits (S (S m)) (pad2 n k) acc = take_digits m k (100 * acc + n mod 100)%N.
Proof.
  unfold pad2. cbn [take_digits].
  rewrite !digit_value_char by (apply N.mod_lt; discriminate).
  f_equal. rewrite <- two_digits. lia.
Qed.

Lemma take2_pad2 n k : (n < 100)%N -> take_digits 2 (pad2 n k) 0%N = Some (n, k).
Proof.
  intros Hn. rewrite take_digits_pad2. cbn [take_digits]. do 2 f_equal. lia.
Qed.

Lemma take4_pad4 n k : (n < 10000)%N -> take_digits 4 (pad4 n k) 0%N = Some (n, k).
Proof.
  intros Hn. unfold pad4. rewrite !take_digits_pad2. cbn [take_digits]. do 2 f_equal. lia.
Qed.

Lemma take6_pad6 n k : (n < 1000000)%N -> take_digits 6 (pad6 n k) 0%N = Some (n, k).
Proof.
  intros Hn. unfold pad6, pad4. rewrite !take_digits_pad2. cbn [take_digits]. do 2 f_equal. lia.
Qed.

Lemma digit_char_cases (d : N) :
  (d < 10)%N ->
  digit_char d = "0"%char \/ digit_char d = "1"%char \/ digit_char d = "2"%char \/
  digit_char d = "3"%char \/ digit_char d = "4"%char \/ digit_char d = "5"%char \/
  digit_char d = "6"%char \/ digit_char d = "7"%char \/ digit_char d = "8"%char \/
  digit_char d = "9"%char.
Proof.
  intros Hd.
  assert (d = 0 \/ d = 1 \/ d = 2 \/ d = 3 \/ d = 4 \/ d = 5 \/ d = 6 \/ d = 7 \/ d = 8
          \/ d = 9)%N as Hc by lia.
  repeat (destruct Hc as [->|Hc]; [tauto|]). subst d. tauto.
Qed.

Lemma split_at_digit c d k :
  (c = "-" \/ c = "+")%char -> (d < 10)%N ->
  split_at c (String (digit_char d) k) = '(a, b) ← split_at c k; Some (String (digit_char d) a, b).
Proof.
  intros Hc Hd. cbn [split_at].
  destruct (digit_char_cases d Hd) as [E|[E|[E|[E|[E|[E|[E|[E|[E|E]]]]]]]]];
    rewrite E; destruct Hc as [->| ->]; reflexivity.
Qed.

Lemma split_at_pad2_None c n k :
  (c = "-" \/ c = "+")%char -> split_at c k = None -> split_at c (pad2 n k) = None.
Proof.
  intros Hc Hk. unfold pad2.
  rewrite !split_at_digit by (auto; apply N.mod_lt; discriminate).
  rewrite Hk. reflexivity.
Qed.

Lemma split_at_sep_None c x k :
  (c = "-" \/ c = "+")%char -> (x = ":" \/ x = ".")%char ->
  split_at c k = None -> split_at c (String x k) = None.
Proof.
  intros [->| ->] [->| ->] Hk; cbn [split_at]; simpl; rewrite Hk; reflexivity.
Qed.

Lemma split_at_format_time c h m s us :
  (c = "-" \/ c = "+")%char -> split_at c (format_time h m s us EmptyString) = None.
Proof.
  intros Hc. unfold format_time, pad6, pad4.
  destruct (us =? 0)%N;
    repeat first [ apply split_at_pad2_None; [exact Hc|]
                 | apply split_at_sep_None; [exact Hc|tauto|] ];
    reflexivity.
Qed.

Lemma parse_hh_mm_ss_ff_format_time h m s us :
  (h < 100)%N -> (m < 100)%N -> (s < 100)%N -> (us < 1000000)%N ->
  parse_hh_mm_ss_ff (format_time h m s us EmptyString) = Some (h, m, s, us).
Proof.
  intros Hh Hm Hs Hus. unfold parse_hh_mm_ss_ff, format_time.
  rewrite take2_pad2 by assumption. cbn [mbind option_bind].
  rewrite take2_pad2 by assumption. cbn [mbind option_bind].
  rewrite take2_pad2 by assumption. cbn [mbind option_bind].
  destruct (us =? 0)%N eqn:E.
  - apply N.eqb_eq in E. subst us. reflexivity.
  - unfold parse_fraction.
    replace (String.length (pad6 us EmptyString)) with 6%nat by reflexivity.
    rewrite take6_pad6 by assumption. reflexivity.
Qed.

Lemma parse_date_pad y m d k :
  (y < 10000)%N -> (m < 100)%N -> (d < 100)%N ->
  parse_date (pad4 y (String "-" (pad2 m (String "-" (pad2 d k))))) = Some (y, m, d, k).
Proof.
  intros Hy Hm Hd. unfold parse_date.
  rewrite take4_pad4 by assumption. cbn [mbind option_bind expect Ascii.eqb Bool.eqb].
  rewrite take2_pad2 by assumption. cbn [mbind option_bind expect Ascii.eqb Bool.eqb].
  rewrite take2_pad2 by assumption. reflexivity.
Qed.

Lemma valid_bounds d :
  valid d = true ->
  (year d < 10000 /\ month d < 100 /\ day d < 100 /\ hour d < 100 /\ minute d < 100
   /\ second d < 100 /\ microsecond d < 1000000)%N.
Proof.
  unfold valid. rewrite !andb_true_iff, !N.leb_le, !N.ltb_lt. intros Hv.
  assert (days_in_month (year d) (month d) <= 31)%N.
  { unfold days_in_month. repeat case_match; lia. }
  lia.
Qed.

Lemma fromisoformat_isoformat d :
  valid d = true -> utcoffset d = None -> fromisoformat (isoformat d) = Some d.
Proof.
  intros Hv Hnaive.
  destruct (valid_bounds d Hv) as (Hy & Hmo & Hd & Hh & Hmi & Hs & Hus).
  unfold fromisoformat, isoformat. rewrite Hnaive.
  rewrite parse_date_pad by assumption. cbn [mbind option_bind].
  change (format_offset None) with EmptyString.
  assert (Ht : parse_time (format_time (hour d) (minute d) (second d) (microsecond d) EmptyString)
               = Some (hour d, minute d, second d, microsecond d, None)).
  { unfold parse_time, split_tz.
    rewrite !split_at_format_time by tauto.
    rewrite parse_hh_mm_ss_ff_format_time by assumption.
    reflexivity. }
  unfold format_time at 1. unfold pad2 at 1.
  fold (pad2 (hour d)
          (String ":" (pad2 (minute d) (String ":" (pad2 (second d)
             (if (microsecond d =? 0)%N then EmptyString
              else String "." (pad6 (microsecond d) EmptyString))))))).
  fold (format_time (hour d) (minute d) (second d) (microsecond d) EmptyString).
  rewrite Ht. cbn [mbind option_bind].
  destruct d; simpl in *. subst. rewrite Hv. reflexivity.
Qed.

End DatetimeRoundTrip.

(** ** Decoding a row after an update *)

Lemma rbind_Ok {A B} (r : result A) (k : A -> result B) b :
  rbind r k = Ok b -> exists a, r = Ok a /\ k a = Ok b.
Proof. destruct r as [a|e]; simpl; [eauto|discriminate]. Qed.

Lemma dict_get_insert_ne (r : row) k k' v : k ≠ k' -> dict_get (<[k:=v]> r) k' = dict_get r k'.
Proof. intros. unfold dict_get. by rewrite lookup_insert_ne. Qed.

Lemma dict_get_insert_eq (r : row) k v : dict_get (<[k:=v]> r) k = v.
Proof. unfold dict_get. by rewrite lookup_insert_eq. Qed.

Lemma dict_get_default_insert_ne (r : row) k k' v d :
  k ≠ k' -> dict_get_default (<[k:=v]> r) k' d = dict_get_default r k' d.
Proof. intros. unfold dict_get_default. by rewrite lookup_insert_ne. Qed.

Lemma dict_get_default_insert_eq (r : row) k v d : dict_get_default (<[k:=v]> r) k d = v.
Proof. unfold dict_get_default. by rewrite lookup_insert_eq. Qed.

Lemma dict_item_insert_ne (r : row) k k' v : k ≠ k' -> dict_item (<[k:=v]> r) k' = dict_item r k'.
Proof. intros. unfold dict_item. by rewrite lookup_insert_ne. Qed.

Lemma parse_if_present_insert_ne {A} (conv : pyval -> result A) (r : row) k k' v :
  k ≠ k' -> parse_if_present conv (<[k:=v]> r) k' = parse_if_present conv r k'.
Proof.
  intros. unfold parse_if_present. by rewrite dict_get_insert_ne, dict_item_insert_ne.
Qed.

Lemma parse_if_present_insert_eq {A} (conv : pyval -> result A) (r : row) k v :
  parse_if_present conv (<[k:=v]> r) k
  = if truthy v then x <-! conv v ;; Ok (Some x) else Ok None.
Proof.
  unfold parse_if_present, dict_item. by rewrite dict_get_insert_eq, lookup_insert_eq.
Qed.

Ltac decode_steps H :=
  cbv zeta in H;
  repeat (let x := fresh "x" in
          let Hx := fresh "Hx" in
          apply rbind_Ok in H as (x & Hx & H); try rewrite Hx; cbn [rbind]).

Ltac insert_ne :=
  rewrite ?parse_if_present_insert_ne, ?dict_item_insert_ne, ?dict_get_insert_ne,
    ?dict_get_default_insert_ne by done.

Lemma Applicant_set_deactive_at r a v o :
  Applicants.from_dict r = Ok a ->
  parse_if_present datetime_fromisoformat (<["deactive_at" := v]> r) "deactive_at" = Ok o ->
  Applicants.from_dict (<["deactive_at" := v]> r)
  = Ok (Applicants.mkApplicant (Applicants.name a) (Applicants.last_name a)
          (Applicants.linkedin a) (Applicants.email a) (Applicants.phone a)
          (Applicants.city a) (Applicants.english a) (Applicants.id a)
          (Applicants.created_at a) o).
Proof.
  intros H Ho. unfold Applicants.from_dict in *. rewrite Ho. insert_ne.
  decode_steps H. injection H as <-. reflexivity.
Qed.

Lemma JobDescription_set_status r j v :
  JobDescriptions.from_dict r = Ok j ->
  JobDescriptions.from_dict (<["status" := v]> r)
  = Ok (JobDescriptions.mkJobDescription (JobDescriptions.min_salary j) v
          (JobDescriptions.description j) (JobDescriptions.max_salary j)
          (JobDescriptions.recruiter_id j) (JobDescriptions.client_id j)
          (JobDescriptions.id j) (JobDescriptions.created_at j)
          (JobDescriptions.deactive_at j)).
Proof.
  intros H. unfold JobDescriptions.from_dict in *. cbv zeta. insert_ne.
  rewrite dict_get_default_insert_eq.
  decode_steps H. injection H as <-. reflexivity.
Qed.

Lemma Client_set_deactive r c v o :
  Clients.from_dict r = Ok c ->
  parse_if_present datetime_fromisoformat (<["deactive" := v]> r) "deactive" = Ok o ->
  Clients.from_dict (<["deactive" := v]> r)
  = Ok (Clients.mkClient (Clients.description c) (Clients.id c) (Clients.created_at c) o).
Proof.
  intros H Ho. unfold Clients.from_dict in *. cbv zeta. rewrite Ho. insert_ne.
  decode_steps H. injection H as <-. reflexivity.
Qed.

Lemma Recruiter_set_deactive_at r x v o :
  Recruiters.from_dict r = Ok x ->
  parse_if_present datetime_fromisoformat (<["deactive_at" := v]> r) "deactive_at" = Ok o ->
  Recruiters.from_dict (<["deactive_at" := v]> r)
  = Ok (Recruiters.mkRecruiter (Recruiters.name x) (Recruiters.description x)
          (Recruiters.id x) (Recruiters.created_at x) o).
Proof.
  intros H Ho. unfold Recruiters.from_dict in *. cbv zeta. rewrite Ho. insert_ne.
  decode_steps H. injection H as <-. reflexivity.
Qed.

Lemma JobDescription_set_deactive_at r j v o :
  JobDescriptions.from_dict r = Ok j ->
  parse_if_present datetime_fromisoformat (<["deactive_at" := v]> r) "deactive_at" = Ok o ->
  JobDescriptions.from_dict (<["deactive_at" := v]> r)
  = Ok (JobDescriptions.mkJobDescription (JobDescriptions.min_salary j)
          (JobDescriptions.status j) (JobDescriptions.description j)
          (JobDescriptions.max_salary j) (JobDescriptions.recruiter_id j)
          (JobDescriptions.client_id j) (JobDescriptions.id j)
          (JobDescriptions.created_at j) o).
Proof.
  intros H Ho. unfold JobDescriptions.from_dict in *. cbv zeta. rewrite Ho. insert_ne.
  decode_steps H. injection H as <-. reflexivity.
Qed.

Lemma JobApplication_set_deactive_at r a v o :
  JobApplications.from_dict r = Ok a ->
  parse_if_present datetime_fromisoformat (<["deactive_at" := v]> r) "deactive_at" = Ok o ->
  JobApplications.from_dict (<["deactive_at" := v]> r)
  = Ok (JobApplications.mkApplicantJobApply (JobApplications.applicant_id a)
          (JobApplications.job_description_id a) (JobApplications.id a)
          (JobApplications.created_at a) o (JobApplications.recruiter_id a)).
Proof.
  intros H Ho. unfold JobApplications.from_dict in *. cbv zeta. rewrite Ho. insert_ne.
  decode_steps H. injection H as <-. reflexivity.
Qed.

(** The timestamp that [deactivate] writes decodes to the instant it was
    taken from; the [None] that [reactivate] writes decodes to [None]. *)
Lemma parse_written_instant (r : row) k now :
  PyDatetime.valid now = true -> PyDatetime.utcoffset now = None ->
  parse_if_present datetime_fromisoformat (<[k := VStr (PyDatetime.isoformat now)]> r) k
  = Ok (Some now).
Proof.
  intros Hv Hn. rewrite parse_if_present_insert_eq.
  replace (truthy (VStr (PyDatetime.isoformat now))) with true by reflexivity.
  unfold datetime_fromisoformat. rewrite fromisoformat_isoformat by assumption.
  reflexivity.
Qed.

Lemma parse_written_none {A} (conv : pyval -> result A) (r : row) k :
  parse_if_present conv (<[k := VNone]> r) k = Ok None.
Proof. rewrite parse_if_present_insert_eq. reflexivity. Qed.

(** ** Updates on the in-memory store *)

Lemma update_with_run {S} `{RecordStore S} {E} (fw : row -> result E) table rid fields (s : S) :
  run (update_with fw table rid fields) s =
  match answer (UpdateEq table fields rid) s with
  | (Ok (r :: _), s') => (some_r (fw r), s')
  | (Ok [], s') => (Ok None, s')
  | (Raise e, s') => (Raise e, s')
  end.
Proof. apply (update_run fw table). Qed.

Lemma rows_of_set_rows m table rs : MemStore.rows_of (MemStore.set_rows m table rs) table = rs.
Proof. unfold MemStore.rows_of, MemStore.set_rows. simpl. by rewrite lookup_insert_eq. Qed.

Lemma rows_of_set_rows_ne m table table' rs :
  table ≠ table' ->
  MemStore.rows_of (MemStore.set_rows m table rs) table' = MemStore.rows_of m table'.
Proof.
  intros. unfold MemStore.rows_of, MemStore.set_rows. simpl. by rewrite lookup_insert_ne.
Qed.

Lemma is_target_union data rid (r : row) :
  data !! "id" = None -> MemStore.is_target rid (data ∪ r) = MemStore.is_target rid r.
Proof.
  intros Hd. unfold MemStore.is_target, MemStore.col_matches.
  rewrite lookup_union_r by exact Hd. reflexivity.
Qed.

Lemma filter_targets_updated data rid (rs : list row) :
  data !! "id" = None ->
  List.filter (MemStore.is_target rid) (List.map (MemStore.updated data rid) rs)
  = List.map (fun r => data ∪ r) (List.filter (MemStore.is_target rid) rs).
Proof.
  intros Hd. induction rs as [|r rs IH]; simpl; [reflexivity|].
  assert (Hu : MemStore.updated data rid r
               = if MemStore.is_target rid r then data ∪ r else r) by reflexivity.
  rewrite Hu. clear Hu.
  destruct (MemStore.is_target rid r) eqn:Ht.
  - rewrite (is_target_union data rid r Hd), Ht. simpl. rewrite IH. reflexivity.
  - rewrite Ht. exact IH.
Qed.

Lemma update_with_mem {E} (fw : row -> result E) table rid fields (m : MemStore.t) r :
  first_row m table rid = Some r ->
  run (update_with fw table rid fields) m
  = (some_r (fw (fields ∪ r)), (MemStore.update m table fields rid).2).
Proof.
  intros Hr. rewrite update_with_run. unfold first_row in Hr.
  change (answer (UpdateEq table fields rid) m)
    with (Ok (MemStore.update m table fields rid).1, (MemStore.update m table fields rid).2).
  unfold MemStore.update at 1. cbn [fst].
  destruct (List.filter (MemStore.is_target rid) (MemStore.rows_of m table)) as [|r0 rest];
    [discriminate|].
  injection Hr as ->. reflexivity.
Qed.

Lemma update_with_mem_none {E} (fw : row -> result E) table rid fields (m : MemStore.t) :
  first_row m table rid = None ->
  run (update_with fw table rid fields) m = (Ok None, (MemStore.update m table fields rid).2).
Proof.
  intros Hr. rewrite update_with_run. unfold first_row in Hr.
  change (answer (UpdateEq table fields rid) m)
    with (Ok (MemStore.update m table fields rid).1, (MemStore.update m table fields rid).2).
  unfold MemStore.update at 1. cbn [fst].
  destruct (List.filter (MemStore.is_target rid) (MemStore.rows_of m table)) as [|r0 rest];
    [reflexivity|discriminate].
Qed.

Lemma first_row_after_update table rid fields (m : MemStore.t) r :
  fields !! "id" = None ->
  first_row m table rid = Some r ->
  first_row (MemStore.update m table fields rid).2 table rid = Some (fields ∪ r).
Proof.
  intros Hid Hr. unfold first_row in *. unfold MemStore.update. cbn [snd].
  rewrite rows_of_set_rows, filter_targets_updated by exact Hid.
  destruct (List.filter (MemStore.is_target rid) (MemStore.rows_of m table)) as [|r0 rest];
    [discriminate|].
  injection Hr as ->. reflexivity.
Qed.

Lemma two_updates_mem {E} (fw : row -> result E) table rid f1 f2 (m : MemStore.t) r e1 :
  first_row m table rid = Some r ->
  f1 !! "id" = None ->
  fw (f1 ∪ r) = Ok e1 ->
  (run (_ <- update_with fw table rid f1 ;; update_with fw table rid f2) m).1
  = some_r (fw (f2 ∪ (f1 ∪ r))).
Proof.
  intros Hr Hid H1.
  rewrite run_bind, (update_with_mem fw table rid f1 m r Hr), H1. cbn [some_r rbind].
  rewrite (update_with_mem fw table rid f2 _ (f1 ∪ r)); [reflexivity|].
  apply first_row_after_update; assumption.
Qed.

(** ** Status and soft delete *)

Lemma singleton_union (k : string) (v : pyval) (r : row) : {[ k := v ]} ∪ r = <[k := v]> r.
Proof. symmetry. apply insert_union_singleton_l. Qed.

Lemma pair_union (k1 k2 : string) (v1 v2 : pyval) (r : row) :
  {[ k1 := v1; k2 := v2 ]} ∪ r = <[k1 := v1]> (<[k2 := v2]> r).
Proof. rewrite <- insert_union_l, singleton_union. reflexivity. Qed.

(** C2. On the in-memory store, for a job description identifier whose
    row decodes: [close_job_description] returns the job with status
    ["CLOSED"] and a non-null [deactive_at] (the instant of the call), and
    [reopen_job_description] returns it with status ["OPEN"] and a null
    [deactive_at]. *)
Theorem close_and_reopen_job_description (m : MemStore.t) (now : datetime)
    (job_id : string) (r : row) (j : JobDescriptions.JobDescription) :
  first_row m JobDescriptions.TABLE_NAME (VStr job_id) = Some r ->
  JobDescriptions.from_dict r = Ok j ->
  utc_instant now ->
  (exists j',
      (run (JobDescriptions.close_job_description now job_id) m).1 = Ok (Some j') /\
      JobDescriptions.status j' = VStr "CLOSED" /\
      JobDescriptions.deactive_at j' = Some now /\
      JobDescriptions.deactive_at j' <> None) /\
  (exists j',
      (run (JobDescriptions.reopen_job_description job_id) m).1 = Ok (Some j') /\
      JobDescriptions.status j' = VStr "OPEN" /\
      JobDescriptions.deactive_at j' = None).
Proof.
  intros Hr Hj [Hv Hn]. split.
  - unfold JobDescriptions.close_job_description. cbv zeta.
    change (JobDescriptions.update_job_description job_id ?f)
      with (update_with JobDescriptions.from_dict JobDescriptions.TABLE_NAME (VStr job_id) f).
    rewrite (update_with_mem _ _ _ _ _ r Hr). cbn [fst].
    rewrite pair_union.
    rewrite (JobDescription_set_deactive_at _ _ _ (Some now)
               (JobDescription_set_status r j (VStr "CLOSED") Hj)
               (parse_written_instant _ _ _ Hv Hn)).
    eexists. split; [reflexivity|]. simpl. repeat split. discriminate.
  - unfold JobDescriptions.reopen_job_description. cbv zeta.
    change (JobDescriptions.update_job_description job_id ?f)
      with (update_with JobDescriptions.from_dict JobDescriptions.TABLE_NAME (VStr job_id) f).
    rewrite (update_with_mem _ _ _ _ _ r Hr). cbn [fst].
    rewrite pair_union.
    rewrite (JobDescription_set_deactive_at _ _ _ None
               (JobDescription_set_status r j (VStr "OPEN") Hj)
               (parse_written_none _ _ _)).
    eexists. split; [reflexivity|]. simpl. repeat split.
Qed.

Lemma updated_frame data rid (r : row) k :
  data !! k = None -> MemStore.updated data rid r !! k = r !! k.
Proof.
  intros Hk. unfold MemStore.updated. destruct (MemStore.is_target rid r); [|reflexivity].
  apply lookup_union_r. exact Hk.
Qed.

Lemma update_with_mem_state {E} (fw : row -> result E) table rid fields (m : MemStore.t) :
  (run (update_with fw table rid fields) m).2 = (MemStore.update m table fields rid).2.
Proof.
  destruct (first_row m table rid) as [r|] eqn:Hr.
  - rewrite (update_with_mem fw table rid fields m r Hr). reflexivity.
  - rewrite (update_with_mem_none fw table rid fields m Hr). reflexivity.
Qed.

(** C3. [change_job_status] sends the single field [status]. On the
    in-memory store every row of the table keeps every field other than
    [status] ([deactive_at] among them), the other tables are untouched,
    and the job returned is the job as it was with only its status
    replaced; an identifier without a row gives [None]. *)
Theorem change_job_status_only_sets_status (m : MemStore.t) (job_id status_ : string) :
  let p := JobDescriptions.change_job_status job_id status_ in
  let m' := (run p m).2 in
  trace p m = [UpdateEq JobDescriptions.TABLE_NAME {[ "status" := VStr status_ ]} (VStr job_id)] /\
  Forall2 (fun r r' : row => forall k, k ≠ "status" -> r' !! k = r !! k)
    (MemStore.rows_of m JobDescriptions.TABLE_NAME)
    (MemStore.rows_of m' JobDescriptions.TABLE_NAME) /\
  (forall table, table ≠ JobDescriptions.TABLE_NAME ->
                 MemStore.rows_of m' table = MemStore.rows_of m table) /\
  (forall r j,
      first_row m JobDescriptions.TABLE_NAME (VStr job_id) = Some r ->
      JobDescriptions.from_dict r = Ok j ->
      (run p m).1
      = Ok (Some (JobDescriptions.mkJobDescription (JobDescriptions.min_salary j)
                    (VStr status_) (JobDescriptions.description j)
                    (JobDescriptions.max_salary j) (JobDescriptions.recruiter_id j)
                    (JobDescriptions.client_id j) (JobDescriptions.id j)
                    (JobDescriptions.created_at j) (JobDescriptions.deactive_at j)))) /\
  (first_row m JobDescriptions.TABLE_NAME (VStr job_id) = None -> (run p m).1 = Ok None).
Proof.
  intros p m'. subst p m'. unfold JobDescriptions.change_job_status.
  change (JobDescriptions.update_job_description job_id ?f)
    with (update_with JobDescriptions.from_dict JobDescriptions.TABLE_NAME (VStr job_id) f).
  rewrite update_with_mem_state.
  split; [apply (update_trace JobDescriptions.from_dict JobDescriptions.TABLE_NAME)|].
  split; [|split; [|split]].
  - unfold MemStore.update. cbn [snd]. rewrite rows_of_set_rows.
    induction (MemStore.rows_of m JobDescriptions.TABLE_NAME) as [|r rs IH]; simpl;
      constructor; [|exact IH].
    intros k Hk. apply updated_frame. apply lookup_singleton_ne. congruence.
  - intros table Hne. unfold MemStore.update. cbn [snd].
    apply rows_of_set_rows_ne. congruence.
  - intros r j Hr Hj. rewrite (update_with_mem _ _ _ _ _ r Hr). cbn [fst].
    rewrite singleton_union, (JobDescription_set_status r j _ Hj). reflexivity.
  - intros Hr. rewrite (update_with_mem_none _ _ _ _ _ Hr). reflexivity.
Qed.

Lemma change_job_status_only_sets_status_witness :
  exists j,
    (run (JobDescriptions.change_job_status Sample.uuid_c "CLOSED") Sample.store).1
    = Ok (Some j) /\
    JobDescriptions.status j = VStr "CLOSED" /\ JobDescriptions.deactive_at j = None.
Proof.
  destruct (change_job_status_only_sets_status Sample.store Sample.uuid_c "CLOSED")
    as (_ & _ & _ & Hres & _).
  eexists. split.
  - apply (Hres Sample.backend_job); vm_compute; reflexivity.
  - split; reflexivity.
Defined.

Section Lifecycle.
Context {E : Type}.
Variable fw : row -> result E.
Variable table dk : string.
Variable deactive_of : E -> option datetime.
Variable with_deactive : E -> option datetime -> E.
Variable extra1 extra2 : row.

Hypothesis extra1_id : extra1 !! "id" = None.
Hypothesis dk_not_id : dk ≠ "id".
Hypothesis extra_ok :
  forall x r e, x = extra1 \/ x = extra2 -> fw r = Ok e -> exists e', fw (x ∪ r) = Ok e'.
Hypothesis set_deactive :
  forall r e v o,
    fw r = Ok e ->
    parse_if_present datetime_fromisoformat (<[dk := v]> r) dk = Ok o ->
    fw (<[dk := v]> r) = Ok (with_deactive e o).
Hypothesis deactive_of_with : forall e o, deactive_of (with_deactive e o) = o.

Lemma stamp_decodes x r e v o :
  x = extra1 \/ x = extra2 ->
  fw r = Ok e ->
  (forall r', parse_if_present datetime_fromisoformat (<[dk := v]> r') dk = Ok o) ->
  exists e', fw (<[dk := v]> x ∪ r) = Ok e' /\ deactive_of e' = o.
Proof.
  intros Hx He Hv. destruct (extra_ok x r e Hx He) as [e0 He0].
  rewrite <- insert_union_l.
  rewrite (set_deactive _ e0 v o He0 (Hv _)). eauto.
Qed.

Lemma lifecycle_generic (m : MemStore.t) rid r e now1 now2 :
  first_row m table rid = Some r ->
  fw r = Ok e ->
  utc_instant now1 -> utc_instant now2 ->
  lifecycle_contract
    (fun now => update_with fw table rid (<[dk := VStr (PyDatetime.isoformat now)]> extra1))
    (update_with fw table rid (<[dk := VNone]> extra2))
    deactive_of m now1 now2.
Proof.
  intros Hr He [Hv1 Hn1] [Hv2 Hn2].
  assert (Hid : forall v, <[dk := v]> extra1 !! "id" = None).
  { intros v. rewrite lookup_insert_ne by exact dk_not_id. exact extra1_id. }
  destruct (stamp_decodes extra1 r e _ (Some now1) (or_introl eq_refl) He
              (fun r' => parse_written_instant r' dk now1 Hv1 Hn1)) as (e1 & He1 & Hd1).
  split.
  - rewrite (two_updates_mem fw table rid _ _ m r e1 Hr (Hid _) He1).
    destruct (stamp_decodes extra2 _ e1 VNone None (or_intror eq_refl) He1
                (fun r' => parse_written_none _ r' dk)) as (e2 & He2 & Hd2).
    rewrite He2. eauto.
  - exists e1.
    destruct (stamp_decodes extra1 _ e1 _ (Some now2) (or_introl eq_refl) He1
                (fun r' => parse_written_instant r' dk now2 Hv2 Hn2)) as (e2 & He2 & Hd2).
    exists e2. split; [|split; [exact Hd1|split; [|exact Hd2]]].
    + rewrite (update_with_mem fw table rid _ m r Hr). cbn [fst]. rewrite He1. reflexivity.
    + rewrite (two_updates_mem fw table rid _ _ m r e1 Hr (Hid _) He1), He2. reflexivity.
Qed.

End Lifecycle.

Lemma no_extra_ok {E} (fw : row -> result E) (x r : row) (e : E) :
  x = ∅ \/ x = ∅ -> fw r = Ok e -> exists e', fw (x ∪ r) = Ok e'.
Proof. intros Hx He. assert (x = ∅) as -> by tauto. rewrite (left_id_L ∅ (∪)). eauto. Qed.

(** C6. On the in-memory store, for every entity type and every
    identifier whose row decodes: deactivating and then reactivating
    returns the entity with a null deactivation timestamp; deactivating
    an entity that was just deactivated is accepted and returns it
    inactive, stamped with the instant of the second call. For job
    descriptions the two operations are [close_job_description] and
    [reopen_job_description]. *)
Theorem deactivate_reactivate_lifecycle (m : MemStore.t) (now1 now2 : datetime) :
  utc_instant now1 -> utc_instant now2 ->
  (forall id_ r a,
      first_row m Applicants.TABLE_NAME (VStr id_) = Some r ->
      Applicants.from_dict r = Ok a ->
      lifecycle_contract (fun now => Applicants.deactivate_applicant now id_)
        (Applicants.reactivate_applicant id_) Applicants.deactive_at m now1 now2) /\
  (forall id_ r c,
      first_row m Clients.TABLE_NAME (VStr id_) = Some r ->
      Clients.from_dict r = Ok c ->
      lifecycle_contract (fun now => Clients.deactivate_client now id_)
        (Clients.reactivate_client id_) Clients.deactive m now1 now2) /\
  (forall id_ r x,
      first_row m Recruiters.TABLE_NAME (VStr id_) = Some r ->
      Recruiters.from_dict r = Ok x ->
      lifecycle_contract (fun now => Recruiters.deactivate_recruiter now id_)
        (Recruiters.reactivate_recruiter id_) Recruiters.deactive_at m now1 now2) /\
  (forall id_ r a,
      first_row m JobApplications.TABLE_NAME (VNum id_) = Some r ->
      JobApplications.from_dict r = Ok a ->
      lifecycle_contract (fun now => JobApplications.deactivate_application now id_)
        (JobApplications.reactivate_application id_) JobApplications.deactive_at m now1 now2) /\
  (forall id_ r j,
      first_row m JobDescriptions.TABLE_NAME (VStr id_) = Some r ->
      JobDescriptions.from_dict r = Ok j ->
      lifecycle_contract (fun now => JobDescriptions.close_job_description now id_)
        (JobDescriptions.reopen_job_description id_) JobDescriptions.deactive_at m now1 now2).
Proof.
  intros H1 H2. split; [|split; [|split; [|split]]]; intros id_ r e Hr He.
  - apply (lifecycle_generic Applicants.from_dict Applicants.TABLE_NAME "deactive_at"
             Applicants.deactive_at _ ∅ ∅ (lookup_empty _) ltac:(done)
             (no_extra_ok _) Applicant_set_deactive_at ltac:(reflexivity)
             m (VStr id_) r e now1 now2 Hr He H1 H2).
  - apply (lifecycle_generic Clients.from_dict Clients.TABLE_NAME "deactive"
             Clients.deactive _ ∅ ∅ (lookup_empty _) ltac:(done)
             (no_extra_ok _) Client_set_deactive ltac:(reflexivity)
             m (VStr id_) r e now1 now2 Hr He H1 H2).
  - apply (lifecycle_generic Recruiters.from_dict Recruiters.TABLE_NAME "deactive_at"
             Recruiters.deactive_at _ ∅ ∅ (lookup_empty _) ltac:(done)
             (no_extra_ok _) Recruiter_set_deactive_at ltac:(reflexivity)
             m (VStr id_) r e now1 now2 Hr He H1 H2).
  - apply (lifecycle_generic JobApplications.from_dict JobApplications.TABLE_NAME "deactive_at"
             JobApplications.deactive_at _ ∅ ∅ (lookup_empty _) ltac:(done)
             (no_extra_ok _) JobApplication_set_deactive_at ltac:(reflexivity)
             m (VNum id_) r e now1 now2 Hr He H1 H2).
  - apply (lifecycle_generic JobDescriptions.from_dict JobDescriptions.TABLE_NAME "deactive_at"
             JobDescriptions.deactive_at
             (fun j o =>
                JobDescriptions.mkJobDescription (JobDescriptions.min_salary j)
                  (JobDescriptions.status j) (JobDescriptions.description j)
                  (JobDescriptions.max_salary j) (JobDescriptions.recruiter_id j)
                  (JobDescriptions.client_id j) (JobDescriptions.id j)
                  (JobDescriptions.created_at j) o)
             {[ "status" := VStr "CLOSED" ]} {[ "status" := VStr "OPEN" ]}
             ltac:(done) ltac:(done)) with (r := r) (e := e); try assumption.
    + intros x r' e' [-> | ->] He'; rewrite singleton_union;
        rewrite (JobDescription_set_status r' e' _ He'); eauto.
    + apply JobDescription_set_deactive_at.
    + reflexivity.
Qed.

Lemma close_and_reopen_job_description_witness :
  exists j,
    (run (JobDescriptions.close_job_description Sample.noon Sample.uuid_c) Sample.store).1
    = Ok (Some j) /\
    JobDescriptions.status j = VStr "CLOSED" /\
    JobDescriptions.deactive_at j = Some Sample.noon.
Proof.
  destruct (close_and_reopen_job_description Sample.store Sample.noon Sample.uuid_c
              Sample.backend_job
              (JobDescriptions.mkJobDescription (VNum 50000) (VStr "OPEN")
                 (VStr "Backend developer") VNone (VNum 7)
                 (PyUuid.of_string Sample.uuid_a) (PyUuid.of_string Sample.uuid_c)
                 (PyDatetime.fromisoformat "2024-01-20T08:00:00+00:00") None))
    as [(j & Hrun & Hstatus & Hstamp & _) _].
  - vm_compute. reflexivity.
  - vm_compute. reflexivity.
  - split; vm_compute; reflexivity.
  - exists j. auto.
Defined.

Lemma deactivate_reactivate_lifecycle_witness :
  lifecycle_contract (fun now => Applicants.deactivate_applicant now Sample.uuid_b)
    (Applicants.reactivate_applicant Sample.uuid_b) Applicants.deactive_at
    Sample.store Sample.noon Sample.later.
Proof.
  destruct (deactivate_reactivate_lifecycle Sample.store Sample.noon Sample.later)
    as [Happlicants _].
  - split; vm_compute; reflexivity.
  - split; vm_compute; reflexivity.
  - eapply (Happlicants Sample.uuid_b Sample.bob); vm_compute; reflexivity.
Defined.

(** ** The polymorphic identifier of a recruiter *)






(** ** Searching *)

Lemma filter_r_elem {A} (p : A -> result bool) (l l' : list A) (x : A) :
  filter_r p l = Ok l' -> x ∈ l' -> x ∈ l /\ p x = Ok true.
Proof.
  revert l'. induction l as [|y l IH]; intros l' Hf Hx; simpl in Hf.
  - injection Hf as <-. inversion Hx.
  - apply rbind_Ok in Hf as (b & Hb & Hf). apply rbind_Ok in Hf as (ys & Hys & Hf).
    injection Hf as <-. destruct b.
    + apply elem_of_cons in Hx as [-> | Hx].
      * split; [left|exact Hb].
      * destruct (IH ys Hys Hx). split; [by right|assumption].
    + destruct (IH ys Hys Hx). split; [by right|assumption].
Qed.

Lemma filter_r_total {A} (p : A -> result bool) (l : list A) :
  Forall (fun x => exists b, p x = Ok b) l -> exists l', filter_r p l = Ok l'.
Proof.
  induction 1 as [|x l [b Hb] _ [l' IH]]; simpl; [eauto|].
  rewrite Hb, IH. simpl. eauto.
Qed.

Lemma filter_r_Forall {A} (P : A -> Prop) (p : A -> result bool) (l l' : list A) :
  filter_r p l = Ok l' -> Forall P l -> Forall P l'.
Proof.
  intros Hf Hl. apply Forall_forall. intros x Hx.
  destruct (filter_r_elem p l l' x Hf Hx) as [Hin _].
  rewrite Forall_forall in Hl. auto.
Qed.

Lemma given_Some d : d ≠ "" -> given (Some d) = true.
Proof. intros Hd. simpl. apply String.eqb_neq in Hd. rewrite Hd. reflexivity. Qed.

Lemma run_search_clients {S} `{RecordStore S} (description_ : option string) (s : S) :
  run (Clients.search_clients description_) s =
  match answer (Select Clients.TABLE_NAME {[ "deactive" := VNone ]}) s with
  | (Ok rows, s') =>
      (clients <-! map_r Clients.from_dict rows ;;
       if given description_
       then filter_r (Clients.description_matches (PyStr.lower (default "" description_)))
              clients
       else Ok clients, s')
  | (Raise e, s') => (Raise e, s')
  end.
Proof.
  unfold Clients.search_clients. rewrite run_bind, run_query_table. simpl default.
  destruct (answer _ s) as [[rows|e] s']; [|reflexivity].
  rewrite run_bind, run_lift.
  destruct (map_r Clients.from_dict rows) as [cs|e]; [|reflexivity]. cbn [rbind].
  rewrite run_bind.
  destruct (given description_); [rewrite run_lift|]; simpl.
  - destruct (filter_r _ cs); reflexivity.
  - reflexivity.
Qed.

Lemma run_search_recruiters {S} `{RecordStore S} (name_ description_ : option string) (s : S) :
  run (Recruiters.search_recruiters name_ description_) s =
  match answer (Select Recruiters.TABLE_NAME {[ "deactive_at" := VNone ]}) s with
  | (Ok rows, s') =>
      (recruiters <-! map_r Recruiters.from_dict rows ;;
       recruiters <-! (if given name_
                       then filter_r (Recruiters.name_matches (PyStr.lower (default "" name_)))
                              recruiters
                       else Ok recruiters) ;;
       if given description_
       then filter_r (Recruiters.description_matches (PyStr.lower (default "" description_)))
              recruiters
       else Ok recruiters, s')
  | (Raise e, s') => (Raise e, s')
  end.
Proof.
  unfold Recruiters.search_recruiters. rewrite run_bind, run_query_table. simpl default.
  destruct (answer _ s) as [[rows|e] s']; [|reflexivity].
  rewrite run_bind, run_lift.
  destruct (map_r Recruiters.from_dict rows) as [rs|e]; [|reflexivity]. cbn [rbind].
  rewrite run_bind.
  assert (Hn : run (if given name_
                    then lift (filter_r (Recruiters.name_matches
                                           (PyStr.lower (default "" name_))) rs)
                    else Ret rs) s'
               = (if given name_
                  then filter_r (Recruiters.name_matches (PyStr.lower (default "" name_))) rs
                  else Ok rs, s')).
  { destruct (given name_); [apply run_lift|reflexivity]. }
  rewrite Hn. clear Hn.
  destruct (if given name_ then _ else _) as [rs'|e]; [|reflexivity]. cbn [rbind].
  rewrite run_bind.
  destruct (given description_); [rewrite run_lift|]; simpl.
  - destruct (filter_r _ rs'); reflexivity.
  - reflexivity.
Qed.

Lemma description_test_total needle (v : pyval) :
  v = VNone \/ (exists t, v = VStr t) ->
  exists b, (if truthy v then in_lower needle v else Ok false) = Ok b.
Proof. intros [-> | [t ->]]; simpl; [eauto|]. destruct (negb _); eauto. Qed.

(** C10. With a non-empty description filter, the residual test on a
    client or recruiter whose description is null answers [False] without
    raising; a row whose description column is absent or null decodes to
    such an entity; no entity with a null description is ever in the
    result of the search, on any store; and the search does not fail when
    the descriptions it meets are null or strings (the names of the
    recruiters being strings). *)
Theorem description_filter_skips_null {S} `{RecordStore S} (s : S) (d : string)
    (name_ : option string) :
  d ≠ "" ->
  (forall c, Clients.description c = VNone ->
             Clients.description_matches (PyStr.lower d) c = Ok false) /\
  (forall r, Recruiters.description r = VNone ->
             Recruiters.description_matches (PyStr.lower d) r = Ok false) /\
  (forall data c, Clients.from_dict data = Ok c ->
                  data !! "description" = None \/ data !! "description" = Some VNone ->
                  Clients.description c = VNone) /\
  (forall data r, Recruiters.from_dict data = Ok r ->
                  data !! "description" = None \/ data !! "description" = Some VNone ->
                  Recruiters.description r = VNone) /\
  (forall l c, (run (Clients.search_clients (Some d)) s).1 = Ok l ->
               c ∈ l -> Clients.description c ≠ VNone) /\
  (forall l r, (run (Recruiters.search_recruiters name_ (Some d)) s).1 = Ok l ->
               r ∈ l -> Recruiters.description r ≠ VNone) /\
  (forall rows cs,
      (answer (Select Clients.TABLE_NAME {[ "deactive" := VNone ]}) s).1 = Ok rows ->
      map_r Clients.from_dict rows = Ok cs ->
      Forall (fun c => Clients.description c = VNone \/
                       exists t, Clients.description c = VStr t) cs ->
      exists l, (run (Clients.search_clients (Some d)) s).1 = Ok l) /\
  (forall rows rs,
      (answer (Select Recruiters.TABLE_NAME {[ "deactive_at" := VNone ]}) s).1 = Ok rows ->
      map_r Recruiters.from_dict rows = Ok rs ->
      Forall (fun r => (exists t, Recruiters.name r = VStr t) /\
                       (Recruiters.description r = VNone \/
                        exists t, Recruiters.description r = VStr t)) rs ->
      exists l, (run (Recruiters.search_recruiters name_ (Some d)) s).1 = Ok l).
Proof.
  intros Hd. pose proof (given_Some d Hd) as Hg.
  split; [|split; [|split; [|split; [|split; [|split; [|split]]]]]].
  - intros c Hc. unfold Clients.description_matches. rewrite Hc. reflexivity.
  - intros r Hr. unfold Recruiters.description_matches. rewrite Hr. reflexivity.
  - intros data c Hc Hnull. unfold Clients.from_dict in Hc. decode_steps Hc.
    injection Hc as <-. simpl. unfold dict_get. destruct Hnull as [-> | ->]; reflexivity.
  - intros data r Hr Hnull. unfold Recruiters.from_dict in Hr. decode_steps Hr.
    injection Hr as <-. simpl. unfold dict_get. destruct Hnull as [-> | ->]; reflexivity.
  - intros l c Hrun Hin Hnull. rewrite run_search_clients, Hg in Hrun.
    destruct (answer _ s) as [[rows|e] s']; [|discriminate]. cbn [fst] in Hrun.
    apply rbind_Ok in Hrun as (cs & _ & Hf).
    destruct (filter_r_elem _ _ _ c Hf Hin) as [_ Hc].
    unfold Clients.description_matches in Hc. rewrite Hnull in Hc. discriminate.
  - intros l r Hrun Hin Hnull. rewrite run_search_recruiters, Hg in Hrun.
    destruct (answer _ s) as [[rows|e] s']; [|discriminate]. cbn [fst] in Hrun.
    apply rbind_Ok in Hrun as (rs & _ & Hrun).
    apply rbind_Ok in Hrun as (rs' & _ & Hf).
    destruct (filter_r_elem _ _ _ r Hf Hin) as [_ Hr].
    unfold Recruiters.description_matches in Hr. rewrite Hnull in Hr. discriminate.
  - intros rows cs Hans Hcs Hall. rewrite run_search_clients, Hg.
    destruct (answer _ s) as [[rows'|e] s']; [|discriminate]. cbn [fst] in *.
    injection Hans as ->. rewrite Hcs. cbn [rbind].
    apply filter_r_total. eapply Forall_impl; [exact Hall|].
    intros c Hc. apply description_test_total. exact Hc.
  - intros rows rs Hans Hrs Hall. rewrite run_search_recruiters, Hg.
    destruct (answer _ s) as [[rows'|e] s']; [|discriminate]. cbn [fst] in *.
    injection Hans as ->. rewrite Hrs. cbn [rbind].
    assert (Hname : exists rs', (if given name_
                                 then filter_r (Recruiters.name_matches
                                                  (PyStr.lower (default "" name_))) rs
                                 else Ok rs) = Ok rs' /\
                                Forall (fun r => (exists t, Recruiters.name r = VStr t) /\
                                                 (Recruiters.description r = VNone \/
                                                  exists t, Recruiters.description r = VStr t))
                                  rs').
    { destruct (given name_); [|eauto].
      destruct (filter_r_total (Recruiters.name_matches (PyStr.lower (default "" name_))) rs)
        as [rs' Hrs'].
      - eapply Forall_impl; [exact Hall|]. intros r [[t Ht] _].
        unfold Recruiters.name_matches, in_lower. rewrite Ht. simpl. eauto.
      - exists rs'. split; [exact Hrs'|]. eapply filter_r_Forall; eassumption. }
    destruct Hname as (rs' & -> & Hall'). cbn [rbind].
    apply filter_r_total. eapply Forall_impl; [exact Hall'|].
    intros r [_ Hr]. apply description_test_total. exact Hr.
Qed.

Lemma description_filter_skips_null_witness :
  exists l, (run (Clients.search_clients (Some "globant")) Sample.store).1 = Ok l /\
            forall c, c ∈ l -> Clients.description c ≠ VNone.
Proof.
  destruct (description_filter_skips_null Sample.store "globant" None)
    as (_ & _ & _ & _ & Hexcl & _ & Htotal & _); [discriminate|].
  destruct (Htotal [Sample.globant; Sample.nameless]
              [Clients.mkClient (VStr "Globant - IT") (PyUuid.of_string Sample.uuid_a)
                 (PyDatetime.fromisoformat "2024-01-15T10:30:00+00:00") None;
               Clients.mkClient VNone (PyUuid.of_string Sample.uuid_b)
                 (PyDatetime.fromisoformat "2024-01-15T10:30:00+00:00") None])
    as [l Hl].
  - vm_compute. reflexivity.
  - vm_compute. reflexivity.
  - constructor; [right; eexists; reflexivity|].
    constructor; [left; reflexivity|constructor].
  - exists l. split; [exact Hl|]. intros c. apply Hexcl. exact Hl.
Defined.

(** ** The codecs: decoding a row and encoding it back *)

Lemma lookup_set_if_not_none (k0 k : string) (d v' : pyval) (m : row) :
  set_if_not_none k0 d m !! k = Some v' -> (k = k0 /\ v' = d) \/ m !! k = Some v'.
Proof.
  destruct d; simpl; auto; intros Hl;
    apply lookup_insert_Some in Hl as [[<- <-] | [_ Hl]]; auto.
Qed.

(** A present column read with [data[k]], [data.get(k)] or
    [data.get(k, d)] gives the value it holds. *)
Lemma dict_item_present (data : row) k v x :
  data !! k = Some v -> dict_item data k = Ok x -> v = x.
Proof. unfold dict_item. intros ->. congruence. Qed.

Lemma dict_get_present (data : row) k v : data !! k = Some v -> dict_get data k = v.
Proof. unfold dict_get. intros ->. reflexivity. Qed.

Lemma dict_get_default_present (data : row) k v d :
  data !! k = Some v -> dict_get_default data k d = v.
Proof. unfold dict_get_default. intros ->. reflexivity. Qed.

(** A column decoded as an optional UUID and printed back. *)
Lemma uuid_column_round_trip (data : row) k v u :
  canonical_id data k ->
  data !! k = Some v ->
  parse_if_present uuid_UUID data k = Ok (Some u) ->
  v = VStr (PyUuid.to_string u).
Proof.
  intros Hc Hk Hp. unfold parse_if_present, dict_item, dict_get in Hp.
  rewrite Hk in Hp. simpl in Hp.
  destruct (truthy v); [|discriminate]. simpl in Hp.
  unfold uuid_UUID in Hp. destruct v as [| | |s]; try discriminate.
  destruct (PyUuid.of_string s) as [u'|] eqn:Hs; [|discriminate].
  simpl in Hp. injection Hp as ->. rewrite (Hc s u Hk Hs). reflexivity.
Qed.

Lemma uuid_column_filled (data : row) k v o :
  filled data k ->
  data !! k = Some v ->
  parse_if_present uuid_UUID data k = Ok o ->
  exists u, o = Some u.
Proof.
  intros Hf Hk Hp. unfold parse_if_present, dict_get in Hp.
  rewrite Hk in Hp. simpl in Hp. rewrite (Hf v Hk) in Hp.
  apply rbind_Ok in Hp as (x & _ & Hp). apply rbind_Ok in Hp as (u & _ & Hp).
  injection Hp as <-. eauto.
Qed.

Ltac split_lookup H :=
  repeat first
    [ apply lookup_insert_Some in H as [[<- <-] | [_ H]]
    | apply lookup_singleton_Some in H as [<- <-]
    | apply lookup_set_if_not_none in H as [[-> ->] | H]
    | rewrite lookup_empty in H; discriminate H ].

Lemma Applicant_round_trip data a :
  Applicants.from_dict data = Ok a -> canonical_id data "id" ->
  round_trip data (Applicants.to_dict a).
Proof.
  intros H Hc k v v' Hk Hout. unfold Applicants.from_dict in H. decode_steps H.
  injection H as <-. unfold Applicants.to_dict in Hout. cbn [Applicants.id] in Hout.
  destruct x as [u|]; cbn -[insert singletonM lookup] in Hout; split_lookup Hout;
    eauto using dict_item_present, uuid_column_round_trip.
Qed.

Lemma Client_round_trip data c :
  Clients.from_dict data = Ok c -> canonical_id data "id" ->
  round_trip data (Clients.to_dict c).
Proof.
  intros H Hc k v v' Hk Hout. unfold Clients.from_dict in H. decode_steps H.
  injection H as <-. unfold Clients.to_dict in Hout.
  cbn [Clients.id Clients.description] in Hout.
  destruct x as [u|]; cbn -[insert singletonM lookup set_if_not_none] in Hout;
    split_lookup Hout;
    eauto using dict_item_present, uuid_column_round_trip, dict_get_present, eq_sym.
Qed.

Lemma Recruiter_round_trip data r :
  Recruiters.from_dict data = Ok r -> round_trip data (Recruiters.to_dict r).
Proof.
  intros H k v v' Hk Hout. unfold Recruiters.from_dict in H. decode_steps H.
  injection H as <-. unfold Recruiters.to_dict in Hout.
  cbn [Recruiters.name Recruiters.description] in Hout.
  split_lookup Hout; eauto using dict_item_present, dict_get_present, eq_sym.
Qed.

Lemma JobDescription_round_trip data j :
  JobDescriptions.from_dict data = Ok j -> canonical_id data "client_id" ->
  round_trip data (JobDescriptions.to_dict j).
Proof.
  intros H Hc k v v' Hk Hout. unfold JobDescriptions.from_dict in H. decode_steps H.
  injection H as <-. unfold JobDescriptions.to_dict in Hout.
  cbn [JobDescriptions.min_salary JobDescriptions.status JobDescriptions.description
       JobDescriptions.max_salary JobDescriptions.recruiter_id JobDescriptions.client_id]
    in Hout.
  destruct x0 as [u|]; cbn -[insert singletonM lookup set_if_not_none] in Hout;
    split_lookup Hout;
    eauto using uuid_column_round_trip, dict_get_present, dict_get_default_present, eq_sym.
Qed.

Lemma JobApplication_round_trip data a :
  JobApplications.from_dict data = Ok a ->
  canonical_id data "applicant_id" -> filled data "applicant_id" ->
  canonical_id data "job_description_id" -> filled data "job_description_id" ->
  canonical_id data "recruiter_id" ->
  round_trip data (JobApplications.to_dict a).
Proof.
  intros H Hc1 Hf1 Hc2 Hf2 Hc3 k v v' Hk Hout.
  unfold JobApplications.from_dict in H. decode_steps H.
  injection H as <-. unfold JobApplications.to_dict in Hout.
  cbn [JobApplications.applicant_id JobApplications.job_description_id
       JobApplications.recruiter_id JobApplications.id] in Hout.
  destruct (truthy (dict_get data "id")); destruct x1 as [u3|];
    cbn -[insert singletonM lookup str_opt_uuid] in Hout; split_lookup Hout;
    eauto using uuid_column_round_trip, dict_get_present, eq_sym.
  all: first
    [ destruct (uuid_column_filled data "applicant_id" v x Hf1 Hk Hx) as [u ->]
    | destruct (uuid_column_filled data "job_description_id" v x0 Hf2 Hk Hx0) as [u ->] ];
    eauto using uuid_column_round_trip.
Qed.

(** C7, as the code has it. For every entity type and every row the codec
    accepts, a column present both in the row and in [to_dict] of the
    decoded entity has the same value in both, provided that the
    identifier columns the codec parses and prints back ([id] of an
    applicant or client, [client_id] of a job description, [applicant_id],
    [job_description_id] and [recruiter_id] of a job application) hold the
    canonical text of the identifier, and that [applicant_id] and
    [job_description_id] of a job application are filled. *)
Theorem codec_round_trip :
  (forall data a,
      Applicants.from_dict data = Ok a -> canonical_id data "id" ->
      round_trip data (Applicants.to_dict a)) /\
  (forall data c,
      Clients.from_dict data = Ok c -> canonical_id data "id" ->
      round_trip data (Clients.to_dict c)) /\
  (forall data r,
      Recruiters.from_dict data = Ok r -> round_trip data (Recruiters.to_dict r)) /\
  (forall data j,
      JobDescriptions.from_dict data = Ok j -> canonical_id data "client_id" ->
      round_trip data (JobDescriptions.to_dict j)) /\
  (forall data a,
      JobApplications.from_dict data = Ok a ->
      canonical_id data "applicant_id" -> filled data "applicant_id" ->
      canonical_id data "job_description_id" -> filled data "job_description_id" ->
      canonical_id data "recruiter_id" ->
      round_trip data (JobApplications.to_dict a)).
Proof.
  split; [|split; [|split; [|split]]].
  - exact Applicant_round_trip.
  - exact Client_round_trip.
  - exact Recruiter_round_trip.
  - exact JobDescription_round_trip.
  - exact JobApplication_round_trip.
Qed.

Lemma codec_round_trip_witness :
  exists a, Applicants.from_dict Sample.ana = Ok a /\
            round_trip Sample.ana (Applicants.to_dict a).
Proof.
  destruct codec_round_trip as [Happlicant _].
  eexists. split; [vm_compute; reflexivity|].
  apply Happlicant; [vm_compute; reflexivity|].
  intros s u Hs Hu. vm_compute in Hs. injection Hs as <-.
  vm_compute in Hu. injection Hu as <-. vm_compute. reflexivity.
Defined.

(** C7, as stated, fails: an applicant row whose id is written in upper
    case is accepted, and encoding the decoded applicant gives the id in
    lower case. *)
Lemma applicant_round_trip_fails_on_upper_case_id :
  exists a, Applicants.from_dict Sample.ana_upper = Ok a /\
            ~ round_trip Sample.ana_upper (Applicants.to_dict a).
Proof.
  eexists. split; [vm_compute; reflexivity|].
  intros Hrt.
  specialize (Hrt "id" (VStr "ABCDEF00-1234-5678-1234-567812345678")
                (VStr "abcdef00-1234-5678-1234-567812345678")).
  assert (Hne : VStr "ABCDEF00-1234-5678-1234-567812345678"
                = VStr "abcdef00-1234-5678-1234-567812345678").
  { apply Hrt; vm_compute; reflexivity. }
  discriminate Hne.
Qed.

(** ** Active by default *)

Lemma map_r_elem {A B} (f : A -> result B) (l : list A) (l' : list B) (y : B) :
  map_r f l = Ok l' -> y ∈ l' -> exists x, x ∈ l /\ f x = Ok y.
Proof.
  revert l'. induction l as [|x l IH]; intros l' Hm Hy; simpl in Hm.
  - injection Hm as <-. inversion Hy.
  - apply rbind_Ok in Hm as (z & Hz & Hm). apply rbind_Ok in Hm as (zs & Hzs & Hm).
    injection Hm as <-. apply elem_of_cons in Hy as [-> | Hy].
    + exists x. split; [left|exact Hz].
    + destruct (IH zs Hzs Hy) as (x' & Hx' & Hfx'). exists x'. split; [by right|exact Hfx'].
Qed.

(** A query that asks for a null column answers with rows whose column
    is unset or null. *)
Lemma query_null_column (m : MemStore.t) table (eqs : row) dk (r : row) :
  eqs !! dk = Some VNone ->
  r ∈ MemStore.query m table eqs ->
  r !! dk = None \/ r !! dk = Some VNone.
Proof.
  intros Heq Hr. unfold MemStore.query in Hr.
  apply list_elem_of_In, filter_In in Hr as [_ Hm].
  unfold MemStore.row_matches in Hm. rewrite forallb_forall in Hm.
  assert (Hc : MemStore.col_matches r dk VNone = true).
  { apply (Hm (dk, VNone)). apply list_elem_of_In, elem_of_map_to_list. exact Heq. }
  unfold MemStore.col_matches in Hc. apply bool_decide_eq_true in Hc. exact Hc.
Qed.

Lemma parse_null_column {A} (conv : pyval -> result A) (data : row) k o :
  data !! k = None \/ data !! k = Some VNone ->
  parse_if_present conv data k = Ok o -> o = None.
Proof.
  intros Hnull. unfold parse_if_present, dict_get.
  destruct Hnull as [-> | ->]; simpl; congruence.
Qed.

Lemma Applicant_null_deactive_at data a :
  Applicants.from_dict data = Ok a ->
  data !! "deactive_at" = None \/ data !! "deactive_at" = Some VNone ->
  Applicants.deactive_at a = None.
Proof.
  intros H Hnull. unfold Applicants.from_dict in H. decode_steps H.
  injection H as <-. simpl. eauto using parse_null_column.
Qed.

Lemma Client_null_deactive data c :
  Clients.from_dict data = Ok c ->
  data !! "deactive" = None \/ data !! "deactive" = Some VNone ->
  Clients.deactive c = None.
Proof.
  intros H Hnull. unfold Clients.from_dict in H. decode_steps H.
  injection H as <-. simpl. eauto using parse_null_column.
Qed.

Lemma Recruiter_null_deactive_at data r :
  Recruiters.from_dict data = Ok r ->
  data !! "deactive_at" = None \/ data !! "deactive_at" = Some VNone ->
  Recruiters.deactive_at r = None.
Proof.
  intros H Hnull. unfold Recruiters.from_dict in H. decode_steps H.
  injection H as <-. simpl. eauto using parse_null_column.
Qed.

Lemma JobDescription_null_deactive_at data j :
  JobDescriptions.from_dict data = Ok j ->
  data !! "deactive_at" = None \/ data !! "deactive_at" = Some VNone ->
  JobDescriptions.deactive_at j = None.
Proof.
  intros H Hnull. unfold JobDescriptions.from_dict in H. decode_steps H.
  injection H as <-. simpl. eauto using parse_null_column.
Qed.

Lemma JobApplication_null_deactive_at data a :
  JobApplications.from_dict data = Ok a ->
  data !! "deactive_at" = None \/ data !! "deactive_at" = Some VNone ->
  JobApplications.deactive_at a = None.
Proof.
  intros H Hnull. unfold JobApplications.from_dict in H. decode_steps H.
  injection H as <-. simpl. eauto using parse_null_column.
Qed.

(** An optional residual filter keeps a part of the candidates. *)
Lemma run_optional_filter {S} `{RecordStore S} {A} (c : bool) (p : A -> result bool)
    (l : list A) (s : S) :
  run (if c then lift (filter_r p l) else Ret l) s = (if c then filter_r p l else Ok l, s).
Proof. destruct c; [apply run_lift|reflexivity]. Qed.

Lemma optional_filter_elem {A} (c : bool) (p : A -> result bool) (l l' : list A) x :
  (if c then filter_r p l else Ok l) = Ok l' -> x ∈ l' -> x ∈ l.
Proof.
  destruct c; intros Hf Hx.
  - apply (filter_r_elem p l l' x Hf Hx).
  - congruence.
Qed.

Lemma run_bound_filter {S} `{RecordStore S} {A} (o : option Z) (p : Z -> A -> result bool)
    (l : list A) (s : S) :
  run (match o with Some b => lift (filter_r (p b) l) | None => Ret l end) s
  = (match o with Some b => filter_r (p b) l | None => Ok l end, s).
Proof. destruct o; [apply run_lift|reflexivity]. Qed.

Lemma bound_filter_elem {A} (o : option Z) (p : Z -> A -> result bool) (l l' : list A) x :
  match o with Some b => filter_r (p b) l | None => Ok l end = Ok l' -> x ∈ l' -> x ∈ l.
Proof.
  destruct o; intros Hf Hx.
  - apply (filter_r_elem (p z) l l' x Hf Hx).
  - congruence.
Qed.

Lemma search_from_query {A} (fd : row -> result A) table (eqs : row)
    (k : list A -> prog (list A)) (m : MemStore.t) l :
  keeps k ->
  (run (data <- Database.query_table table (Some eqs) ;;
        entities <- lift (map_r fd data) ;; k entities) m).1 = Ok l ->
  forall x, x ∈ l -> exists r, r ∈ MemStore.query m table eqs /\ fd r = Ok x.
Proof.
  intros Hk Hrun x Hx. rewrite run_bind, run_query_table in Hrun.
  change (answer (Select table (default ∅ (Some eqs))) m)
    with (Ok (MemStore.query m table eqs), m) in Hrun. cbn iota in Hrun.
  rewrite run_bind, run_lift in Hrun.
  destruct (map_r fd (MemStore.query m table eqs)) as [es|e] eqn:Hes; [|discriminate].
  apply (map_r_elem fd _ es x Hes). eapply Hk; eassumption.
Qed.

Lemma keeps_ret {A} : keeps (fun l : list A => Ret l).
Proof. intros m l l' Hrun x Hx. simpl in Hrun. congruence. Qed.

Lemma keeps_optional_filter {A} (c : bool) (p : A -> result bool)
    (k : list A -> prog (list A)) :
  keeps k ->
  keeps (fun l => l1 <- (if c then lift (filter_r p l) else Ret l) ;; k l1).
Proof.
  intros Hk m l l' Hrun x Hx. rewrite run_bind, run_optional_filter in Hrun.
  destruct (if c then filter_r p l else Ok l) as [l1|e] eqn:Hl1; [|discriminate].
  eapply optional_filter_elem; [exact Hl1|]. eapply Hk; eassumption.
Qed.

Lemma keeps_bound_filter {A} (o : option Z) (p : Z -> A -> result bool)
    (k : list A -> prog (list A)) :
  keeps k ->
  keeps (fun l => l1 <- (match o with
                         | Some b => lift (filter_r (p b) l)
                         | None => Ret l
                         end) ;; k l1).
Proof.
  intros Hk m l l' Hrun x Hx. rewrite run_bind, run_bound_filter in Hrun.
  destruct (match o with Some b => _ | None => _ end) as [l1|e] eqn:Hl1; [|discriminate].
  eapply bound_filter_elem; [exact Hl1|]. eapply Hk; eassumption.
Qed.

Lemma list_from_query {A} (fd : row -> result A) table (eqs : row) (m : MemStore.t) l :
  (run (data <- Database.query_table table (Some eqs) ;; lift (map_r fd data)) m).1 = Ok l ->
  forall x, x ∈ l -> exists r, r ∈ MemStore.query m table eqs /\ fd r = Ok x.
Proof.
  intros Hrun x Hx. rewrite run_bind, run_query_table in Hrun.
  change (answer (Select table (default ∅ (Some eqs))) m)
    with (Ok (MemStore.query m table eqs), m) in Hrun. cbn iota in Hrun.
  rewrite run_lift in Hrun. apply (map_r_elem fd _ l x Hrun Hx).
Qed.

Lemma JobApplications_search_filters_active a j r :
  JobApplications.search_filters a j r !! "deactive_at" = Some VNone.
Proof.
  unfold JobApplications.search_filters.
  destruct (given a), (given j), (given r);
    rewrite ?lookup_insert_ne, ?lookup_empty by done;
    apply lookup_insert_eq.
Qed.

(** The sibling searches: on the in-memory store, whatever the filters,
    every entity they return is active. So is every applicant returned by
    [search_applicants] when neither [email] nor [english_level] is
    given. *)
Lemma sibling_searches_active_only (m : MemStore.t) :
  (forall status_ client_id_ recruiter_id_ lo hi l,
      (run (JobDescriptions.search_job_descriptions status_ client_id_ recruiter_id_ lo hi)
         m).1 = Ok l ->
      forall j, j ∈ l -> JobDescriptions.deactive_at j = None) /\
  (forall a j r l,
      (run (JobApplications.search_applications a j r) m).1 = Ok l ->
      forall x, x ∈ l -> JobApplications.deactive_at x = None) /\
  (forall d l,
      (run (Clients.search_clients d) m).1 = Ok l ->
      forall c, c ∈ l -> Clients.deactive c = None) /\
  (forall n d l,
      (run (Recruiters.search_recruiters n d) m).1 = Ok l ->
      forall r, r ∈ l -> Recruiters.deactive_at r = None) /\
  (forall n c l,
      (run (Applicants.search_applicants n c None None) m).1 = Ok l ->
      forall a, a ∈ l -> Applicants.deactive_at a = None).
Proof.
  split; [|split; [|split; [|split]]].
  - intros status_ client_id_ recruiter_id_ lo hi l Hrun j Hj.
    unfold JobDescriptions.search_job_descriptions in Hrun. cbv zeta in Hrun.
    destruct (bool_decide _);
      (eapply search_from_query in Hrun as (r & Hr & Hd);
       [|apply (keeps_bound_filter _ (fun lo j => py_ge (JobDescriptions.min_salary j) lo));
         apply (keeps_bound_filter _ (fun hi j => py_le (JobDescriptions.min_salary j) hi));
         apply keeps_ret
        |exact Hj]);
      apply (JobDescription_null_deactive_at r j Hd);
      apply (query_null_column _ _ _ _ _ ltac:(apply lookup_insert_eq) Hr).
  - intros a j r l Hrun x Hx.
    unfold JobApplications.search_applications in Hrun. cbv zeta in Hrun.
    pose proof (JobApplications_search_filters_active a j r) as Hact.
    rewrite bool_decide_eq_false_2 in Hrun.
    2:{ intros Hempty. rewrite Hempty, lookup_empty in Hact. discriminate. }
    eapply list_from_query in Hrun as (r0 & Hr0 & Hd); [|exact Hx].
    apply (JobApplication_null_deactive_at r0 x Hd).
    apply (query_null_column _ _ _ _ _ Hact Hr0).
  - intros d l Hrun c Hc.
    unfold Clients.search_clients in Hrun.
    eapply search_from_query in Hrun as (r & Hr & Hd);
      [|apply keeps_optional_filter, keeps_ret|exact Hc].
    apply (Client_null_deactive r c Hd).
    apply (query_null_column _ _ _ _ _ ltac:(apply lookup_singleton_eq) Hr).
  - intros n d l Hrun r Hr.
    unfold Recruiters.search_recruiters in Hrun.
    eapply search_from_query in Hrun as (r0 & Hr0 & Hd);
      [|do 2 apply keeps_optional_filter; apply keeps_ret|exact Hr].
    apply (Recruiter_null_deactive_at r0 r Hd).
    apply (query_null_column _ _ _ _ _ ltac:(apply lookup_singleton_eq) Hr0).
  - intros n c l Hrun a Ha.
    unfold Applicants.search_applicants in Hrun. cbv zeta in Hrun.
    change (Applicants.search_filters None None) with (∅ : row) in Hrun.
    rewrite bool_decide_eq_true_2 in Hrun by reflexivity.
    eapply search_from_query in Hrun as (r & Hr & Hd);
      [|do 2 apply keeps_optional_filter; apply keeps_ret|exact Ha].
    apply (Applicant_null_deactive_at r a Hd).
    apply (query_null_column _ _ _ _ _ ltac:(apply lookup_singleton_eq) Hr).
Qed.

(** C1 fails on the code for applicants. With an [email] filter the query
    that [search_applicants] sends has no predicate on [deactive_at], and
    on the sample store the search returns the deactivated applicant. *)
Theorem search_applicants_email_returns_inactive :
  (forall e, e ≠ "" ->
             exists eqs,
               first_call (Applicants.search_applicants None None None (Some e))
               = Some (Select Applicants.TABLE_NAME eqs) /\
               eqs !! "deactive_at" = None) /\
  exists a,
    (run (Applicants.search_applicants None None None (Some "bob@x.io")) Sample.store).1
    = Ok [a] /\
    Applicants.email a = VStr "bob@x.io" /\
    Applicants.deactive_at a ≠ None.
Proof.
  split.
  - intros e He.
    assert (Hf : Applicants.search_filters None (Some e) = {[ "email" := VStr e ]}).
    { unfold Applicants.search_filters. rewrite (given_Some e He). reflexivity. }
    exists {[ "email" := VStr e ]}. split.
    + unfold Applicants.search_applicants. cbv zeta. rewrite Hf.
      rewrite bool_decide_eq_false_2 by apply map_non_empty_singleton. reflexivity.
    + apply lookup_singleton_ne. discriminate.
  - eexists. split; [vm_compute; reflexivity|]. split; [reflexivity|discriminate].
Qed.

Lemma search_applicants_email_returns_inactive_witness :
  exists eqs,
    first_call (Applicants.search_applicants None None None (Some "bob@x.io"))
    = Some (Select Applicants.TABLE_NAME eqs) /\
    eqs !! "deactive_at" = None.
Proof.
  destruct search_applicants_email_returns_inactive as [Hquery _].
  apply Hquery. discriminate.
Defined.

(** * Further properties of the repository operations *)

(** ** Lists of decoded rows *)

Lemma map_r_filter {A B} (f : A -> result B) (p : A -> bool) (l : list A) (l' : list B) :
  map_r f l = Ok l' ->
  exists l'', map_r f (List.filter p l) = Ok l'' /\ sublist l'' l'.
Proof.
  revert l'. induction l as [|x l IH]; intros l' Hm; simpl in Hm.
  - injection Hm as <-. exists []. split; [reflexivity|constructor].
  - apply rbind_Ok in Hm as (y & Hy & Hm). apply rbind_Ok in Hm as (ys & Hys & Hm).
    injection Hm as <-. destruct (IH ys Hys) as (l'' & Hl'' & Hsub).
    simpl. destruct (p x).
    + exists (y :: l''). simpl. rewrite Hy, Hl''. split; [reflexivity|].
      by apply sublist_skip.
    + exists l''. split; [exact Hl''|]. by apply sublist_cons.
Qed.

Lemma map_r_elem_fwd {A B} (f : A -> result B) (l : list A) (l' : list B) (x : A) :
  map_r f l = Ok l' -> x ∈ l -> exists y, f x = Ok y /\ y ∈ l'.
Proof.
  revert l'. induction l as [|z l IH]; intros l' Hm Hx; simpl in Hm.
  - inversion Hx.
  - apply rbind_Ok in Hm as (y & Hy & Hm). apply rbind_Ok in Hm as (ys & Hys & Hm).
    injection Hm as <-. apply elem_of_cons in Hx as [-> | Hx].
    + exists y. split; [exact Hy|left].
    + destruct (IH ys Hys Hx) as (y' & Hy' & Hin). exists y'. split; [exact Hy'|by right].
Qed.


Lemma filter_r_raises {A} (p : A -> result bool) (l : list A) (x : A) (e : exn) :
  x ∈ l -> p x = Raise e ->
  (forall y e', y ∈ l -> p y = Raise e' -> e' = e) ->
  filter_r p l = Raise e.
Proof.
  induction l as [|z l IH]; intros Hx Hpx Hall; [inversion Hx|].
  simpl. destruct (p z) as [b|e'] eqn:Hz.
  - apply elem_of_cons in Hx as [-> | Hx]; [congruence|].
    rewrite IH; [reflexivity|exact Hx|exact Hpx|].
    intros y e' Hy. apply Hall. by right.
  - simpl. f_equal. apply (Hall z e'); [left|exact Hz].
Qed.

(** ** Queries on the in-memory store *)

Lemma answer_select (m : MemStore.t) table eqs :
  answer (Select table eqs) m = (Ok (MemStore.query m table eqs), m).
Proof. reflexivity. Qed.

Lemma forallb_perm {A} (f : A -> bool) (l l' : list A) :
  l ≡ₚ l' -> forallb f l = forallb f l'.
Proof.
  induction 1 as [|x l l' _ IH|x y l|l l' l'' _ IH1 _ IH2]; simpl.
  - reflexivity.
  - by rewrite IH.
  - destruct (f x), (f y); reflexivity.
  - by rewrite IH1.
Qed.

Lemma row_matches_empty (r : row) : MemStore.row_matches ∅ r = true.
Proof. unfold MemStore.row_matches. rewrite map_to_list_empty. reflexivity. Qed.

Lemma row_matches_insert (eqs : row) k v (r : row) :
  eqs !! k = None ->
  MemStore.row_matches (<[k := v]> eqs) r
  = MemStore.col_matches r k v && MemStore.row_matches eqs r.
Proof.
  intros Hk. unfold MemStore.row_matches.
  rewrite (forallb_perm _ _ _ (map_to_list_insert eqs k v Hk)). reflexivity.
Qed.

Lemma row_matches_singleton k v (r : row) :
  MemStore.row_matches {[ k := v ]} r = MemStore.col_matches r k v.
Proof.
  change ({[ k := v ]} : row) with (<[k := v]> (∅ : row)).
  rewrite row_matches_insert by apply lookup_empty.
  rewrite row_matches_empty. apply andb_true_r.
Qed.

Lemma query_empty (m : MemStore.t) table : MemStore.query m table ∅ = MemStore.rows_of m table.
Proof.
  unfold MemStore.query. induction (MemStore.rows_of m table) as [|r rs IH]; simpl;
    [reflexivity|]. rewrite row_matches_empty, IH. reflexivity.
Qed.

Lemma filter_ext_eq {A} (f g : A -> bool) (l : list A) :
  (forall x, f x = g x) -> List.filter f l = List.filter g l.
Proof. intros Hfg. induction l as [|x l IH]; simpl; [reflexivity|]. by rewrite Hfg, IH. Qed.

Lemma filter_filter_and {A} (f g : A -> bool) (l : list A) :
  List.filter f (List.filter g l) = List.filter (fun x => f x && g x) l.
Proof.
  induction l as [|x l IH]; simpl; [reflexivity|].
  destruct (g x); simpl; [destruct (f x); simpl; by rewrite IH|].
  rewrite andb_false_r. exact IH.
Qed.

Lemma query_insert (m : MemStore.t) table (eqs : row) k v :
  eqs !! k = None ->
  MemStore.query m table (<[k := v]> eqs)
  = List.filter (fun r => MemStore.col_matches r k v) (MemStore.query m table eqs).
Proof.
  intros Hk. unfold MemStore.query. rewrite filter_filter_and.
  apply filter_ext_eq. intros r. by apply row_matches_insert.
Qed.

Lemma query_singleton (m : MemStore.t) table k v :
  MemStore.query m table {[ k := v ]}
  = List.filter (fun r => MemStore.col_matches r k v) (MemStore.rows_of m table).
Proof.
  unfold MemStore.query. apply filter_ext_eq. intros r. apply row_matches_singleton.
Qed.

Lemma col_matches_null (r : row) k :
  MemStore.col_matches r k VNone = true <-> null_column r k.
Proof. unfold MemStore.col_matches, null_column. apply bool_decide_eq_true. Qed.

(** ** Listing *)

Lemma run_get_all_with {S} `{RecordStore S} {E} (fw : row -> result E) table dk b (s : S) :
  run (get_all_with fw table dk b) s =
  match answer (Select table (if b then ∅ else {[ dk := VNone ]})) s with
  | (Ok rows, s') => (map_r fw rows, s')
  | (Raise e, s') => (Raise e, s')
  end.
Proof.
  unfold get_all_with. rewrite run_bind.
  assert (Hq : run (if b then Database.query_table table None
                    else Database.query_table table (Some {[ dk := VNone ]})) s
               = answer (Select table (if b then ∅ else {[ dk := VNone ]})) s).
  { destruct b; apply run_query_table. }
  rewrite Hq. destruct (answer _ s) as [[rows|e] s']; [apply run_lift|reflexivity].
Qed.

Section Listing.
Context {E : Type}.
Variable fw : row -> result E.
Variable table dk : string.
Variable deactive_of : E -> option datetime.
Hypothesis null_decodes :
  forall r e, fw r = Ok e -> null_column r dk -> deactive_of e = None.

Lemma get_all_with_subset (m : MemStore.t) (every : list E) :
  (run (get_all_with fw table dk true) m).1 = Ok every ->
  exists active,
    (run (get_all_with fw table dk false) m).1 = Ok active /\
    sublist active every /\
    Forall (fun e => deactive_of e = None) active.
Proof.
  rewrite !run_get_all_with, !answer_select. cbn [fst].
  rewrite query_empty, query_singleton. intros Hall.
  destruct (map_r_filter fw (fun r => MemStore.col_matches r dk VNone) _ _ Hall)
    as (active & Hact & Hsub).
  exists active. split; [exact Hact|split; [exact Hsub|]].
  apply Forall_forall. intros e He.
  destruct (map_r_elem fw _ _ e Hact He) as (r & Hr & Hd).
  apply (null_decodes r e Hd).
  apply list_elem_of_In, filter_In in Hr as [_ Hr]. by apply col_matches_null.
Qed.

End Listing.

(** X1. On the in-memory store, for every entity type: when the listing
    with [include_inactive=True] succeeds, the default listing succeeds
    too, is a sub-list of it (same order), and holds only entities whose
    deactivation timestamp is null. *)
Theorem active_listing_is_part_of_full_listing (m : MemStore.t) :
  (forall every, (run (Applicants.get_all_applicants true) m).1 = Ok every ->
     exists active, (run (Applicants.get_all_applicants false) m).1 = Ok active /\
                    sublist active every /\
                    Forall (fun a => Applicants.deactive_at a = None) active) /\
  (forall every, (run (Clients.get_all_clients true) m).1 = Ok every ->
     exists active, (run (Clients.get_all_clients false) m).1 = Ok active /\
                    sublist active every /\
                    Forall (fun c => Clients.deactive c = None) active) /\
  (forall every, (run (Recruiters.get_all_recruiters true) m).1 = Ok every ->
     exists active, (run (Recruiters.get_all_recruiters false) m).1 = Ok active /\
                    sublist active every /\
                    Forall (fun r => Recruiters.deactive_at r = None) active) /\
  (forall every, (run (JobDescriptions.get_all_job_descriptions true) m).1 = Ok every ->
     exists active, (run (JobDescriptions.get_all_job_descriptions false) m).1 = Ok active /\
                    sublist active every /\
                    Forall (fun j => JobDescriptions.deactive_at j = None) active) /\
  (forall every, (run (JobApplications.get_all_applications true) m).1 = Ok every ->
     exists active, (run (JobApplications.get_all_applications false) m).1 = Ok active /\
                    sublist active every /\
                    Forall (fun a => JobApplications.deactive_at a = None) active).
Proof.
  split; [|split; [|split; [|split]]]; intros every Hall.
  - apply (get_all_with_subset Applicants.from_dict Applicants.TABLE_NAME "deactive_at"
             Applicants.deactive_at Applicant_null_deactive_at m every Hall).
  - apply (get_all_with_subset Clients.from_dict Clients.TABLE_NAME "deactive"
             Clients.deactive Client_null_deactive m every Hall).
  - apply (get_all_with_subset Recruiters.from_dict Recruiters.TABLE_NAME "deactive_at"
             Recruiters.deactive_at Recruiter_null_deactive_at m every Hall).
  - apply (get_all_with_subset JobDescriptions.from_dict JobDescriptions.TABLE_NAME
             "deactive_at" JobDescriptions.deactive_at JobDescription_null_deactive_at
             m every Hall).
  - apply (get_all_with_subset JobApplications.from_dict JobApplications.TABLE_NAME
             "deactive_at" JobApplications.deactive_at JobApplication_null_deactive_at
             m every Hall).
Qed.

Lemma active_listing_is_part_of_full_listing_witness :
  exists active,
    (run (Applicants.get_all_applicants false) Sample.store).1 = Ok active /\
    Forall (fun a => Applicants.deactive_at a = None) active.
Proof.
  destruct (active_listing_is_part_of_full_listing Sample.store) as [Happlicants _].
  edestruct Happlicants as (active & Hact & _ & Hnull).
  - vm_compute. reflexivity.
  - exists active. split; assumption.
Defined.

(** ** Lookup by identifier *)

Lemma run_get_by_id_with {S} `{RecordStore S} {E} (fw : row -> result E) table rid (s : S) :
  run (get_by_id_with fw table rid) s =
  match answer (Select table {[ "id" := rid ]}) s with
  | (Ok (r :: _), s') => (some_r (fw r), s')
  | (Ok [], s') => (Ok None, s')
  | (Raise e, s') => (Raise e, s')
  end.
Proof.
  unfold get_by_id_with. rewrite run_bind, run_query_table. cbn [default].
  destruct (answer _ s) as [[[|r rest]|e] s']; try reflexivity.
  rewrite run_bind, run_lift. destruct (fw r); reflexivity.
Qed.

Lemma trace_get_by_id_with {S} `{RecordStore S} {E} (fw : row -> result E) table rid (s : S) :
  trace (get_by_id_with fw table rid) s = [Select table {[ "id" := rid ]}].
Proof.
  unfold get_by_id_with, Database.query_table, execute. simpl.
  destruct (answer _ s) as [[[|r rest]|e] s']; simpl; try reflexivity.
  destruct (fw r); reflexivity.
Qed.

Lemma get_by_id_with_mem {E} (fw : row -> result E) table rid (m : MemStore.t) :
  run (get_by_id_with fw table rid) m
  = (match first_row m table rid with
     | Some r => some_r (fw r)
     | None => Ok None
     end, m).
Proof.
  rewrite run_get_by_id_with, answer_select, query_singleton. unfold first_row.
  change (fun r : row => MemStore.col_matches r "id" rid) with (MemStore.is_target rid).
  destruct (List.filter (MemStore.is_target rid) (MemStore.rows_of m table)); reflexivity.
Qed.

(** X2. On the in-memory store, for every entity type, the lookup by
    identifier makes one query whose only predicate is on [id] (none on
    the deactivation column), leaves the store as it is, and returns
    [None] without raising when no row has the identifier, the decoding
    of the first such row otherwise. *)
Theorem get_by_id_finds_first_row_active_or_not (m : MemStore.t) :
  (forall id_,
      trace (Applicants.get_applicant_by_id id_) m
      = [Select Applicants.TABLE_NAME {[ "id" := VStr id_ ]}] /\
      run (Applicants.get_applicant_by_id id_) m
      = (match first_row m Applicants.TABLE_NAME (VStr id_) with
         | Some r => some_r (Applicants.from_dict r)
         | None => Ok None
         end, m)) /\
  (forall id_,
      trace (Clients.get_client_by_id id_) m
      = [Select Clients.TABLE_NAME {[ "id" := VStr id_ ]}] /\
      run (Clients.get_client_by_id id_) m
      = (match first_row m Clients.TABLE_NAME (VStr id_) with
         | Some r => some_r (Clients.from_dict r)
         | None => Ok None
         end, m)) /\
  (forall id_,
      trace (Recruiters.get_recruiter_by_id id_) m
      = [Select Recruiters.TABLE_NAME {[ "id" := VStr id_ ]}] /\
      run (Recruiters.get_recruiter_by_id id_) m
      = (match first_row m Recruiters.TABLE_NAME (VStr id_) with
         | Some r => some_r (Recruiters.from_dict r)
         | None => Ok None
         end, m)) /\
  (forall id_,
      trace (JobDescriptions.get_job_description_by_id id_) m
      = [Select JobDescriptions.TABLE_NAME {[ "id" := VStr id_ ]}] /\
      run (JobDescriptions.get_job_description_by_id id_) m
      = (match first_row m JobDescriptions.TABLE_NAME (VStr id_) with
         | Some r => some_r (JobDescriptions.from_dict r)
         | None => Ok None
         end, m)) /\
  (forall id_,
      trace (JobApplications.get_application_by_id id_) m
      = [Select JobApplications.TABLE_NAME {[ "id" := VNum id_ ]}] /\
      run (JobApplications.get_application_by_id id_) m
      = (match first_row m JobApplications.TABLE_NAME (VNum id_) with
         | Some r => some_r (JobApplications.from_dict r)
         | None => Ok None
         end, m)).
Proof.
  split; [|split; [|split; [|split]]]; intros id_; split.
  - apply (trace_get_by_id_with Applicants.from_dict).
  - apply (get_by_id_with_mem Applicants.from_dict).
  - apply (trace_get_by_id_with Clients.from_dict).
  - apply (get_by_id_with_mem Clients.from_dict).
  - apply (trace_get_by_id_with Recruiters.from_dict).
  - apply (get_by_id_with_mem Recruiters.from_dict).
  - apply (trace_get_by_id_with JobDescriptions.from_dict).
  - apply (get_by_id_with_mem JobDescriptions.from_dict).
  - apply (trace_get_by_id_with JobApplications.from_dict).
  - apply (get_by_id_with_mem JobApplications.from_dict).
Qed.

(** ** Permanent deletion *)

Lemma run_delete_with {S} `{RecordStore S} table rid (s : S) :
  run (delete_with table rid) s =
  match answer (DeleteEq table rid) s with
  | (Ok rs, s') => (Ok (nonempty rs), s')
  | (Raise e, s') => (Raise e, s')
  end.
Proof.
  unfold delete_with, Database.delete_record. rewrite run_bind, run_execute.
  destruct (answer _ s) as [[rs|e] s']; reflexivity.
Qed.

Lemma delete_with_mem table rid (m : MemStore.t) :
  run (delete_with table rid) m
  = (Ok (nonempty (List.filter (MemStore.is_target rid) (MemStore.rows_of m table))),
     (MemStore.delete m table rid).2).
Proof. rewrite run_delete_with. reflexivity. Qed.

Lemma rows_after_delete table rid (m : MemStore.t) :
  MemStore.rows_of (MemStore.delete m table rid).2 table
  = List.filter (fun r => negb (MemStore.is_target rid r)) (MemStore.rows_of m table).
Proof. unfold MemStore.delete. cbn [snd]. apply rows_of_set_rows. Qed.

Lemma no_targets_after_delete table rid (m : MemStore.t) :
  List.filter (MemStore.is_target rid) (MemStore.rows_of (MemStore.delete m table rid).2 table)
  = [].
Proof.
  rewrite rows_after_delete.
  induction (MemStore.rows_of m table) as [|r rs IH]; simpl; [reflexivity|].
  destruct (MemStore.is_target rid r) eqn:Ht; simpl; [exact IH|].
  rewrite Ht. exact IH.
Qed.

Lemma nonempty_targets (m : MemStore.t) table rid :
  nonempty (List.filter (MemStore.is_target rid) (MemStore.rows_of m table)) = true
  <-> exists r, r ∈ MemStore.rows_of m table /\ MemStore.is_target rid r = true.
Proof.
  split.
  - destruct (List.filter _ _) as [|r rest] eqn:Hf; [discriminate|]. intros _.
    assert (Hin : In r (List.filter (MemStore.is_target rid) (MemStore.rows_of m table))).
    { rewrite Hf. by left. }
    apply filter_In in Hin as [Hin Ht]. exists r. split; [by apply list_elem_of_In|exact Ht].
  - intros (r & Hin & Ht).
    assert (Hf : In r (List.filter (MemStore.is_target rid) (MemStore.rows_of m table))).
    { apply filter_In. split; [by apply list_elem_of_In|exact Ht]. }
    destruct (List.filter _ _); [destruct Hf|reflexivity].
Qed.

Section Deleting.
Context {E : Type}.
Variable fw : row -> result E.
Variable table : string.

Lemma delete_with_contract (m : MemStore.t) rid :
  deletion_contract (delete_with table rid) (get_by_id_with fw table rid) m table rid.
Proof.
  unfold deletion_contract. rewrite !run_bind, !delete_with_mem. cbn [fst snd].
  split; [|split; [|split; [|split]]].
  - eexists. split; [reflexivity|]. apply nonempty_targets.
  - apply rows_after_delete.
  - intros table' Hne. unfold MemStore.delete. cbn [snd].
    apply rows_of_set_rows_ne. congruence.
  - rewrite get_by_id_with_mem. unfold first_row.
    rewrite no_targets_after_delete. reflexivity.
  - rewrite ?delete_with_mem, no_targets_after_delete. reflexivity.
Qed.

End Deleting.

(** X4. On the in-memory store, for every entity type, the permanent
    deletion answers [True] exactly when a row had the identifier; it
    removes the rows with that identifier and nothing else; afterwards
    the lookup of the identifier returns [None] and a second deletion
    answers [False]. *)
Theorem delete_removes_exactly_the_row (m : MemStore.t) :
  (forall id_, deletion_contract (Applicants.delete_applicant id_)
                 (Applicants.get_applicant_by_id id_) m Applicants.TABLE_NAME (VStr id_)) /\
  (forall id_, deletion_contract (Clients.delete_client id_)
                 (Clients.get_client_by_id id_) m Clients.TABLE_NAME (VStr id_)) /\
  (forall id_, deletion_contract (Recruiters.delete_recruiter id_)
                 (Recruiters.get_recruiter_by_id id_) m Recruiters.TABLE_NAME (VStr id_)) /\
  (forall id_, deletion_contract (JobDescriptions.delete_job_description id_)
                 (JobDescriptions.get_job_description_by_id id_) m
                 JobDescriptions.TABLE_NAME (VStr id_)) /\
  (forall id_, deletion_contract (JobApplications.delete_application id_)
                 (JobApplications.get_application_by_id id_) m
                 JobApplications.TABLE_NAME (VNum id_)).
Proof.
  split; [|split; [|split; [|split]]]; intros id_.
  - apply (delete_with_contract Applicants.from_dict).
  - apply (delete_with_contract Clients.from_dict).
  - apply (delete_with_contract Recruiters.from_dict).
  - apply (delete_with_contract JobDescriptions.from_dict).
  - apply (delete_with_contract JobApplications.from_dict).
Qed.

Lemma delete_removes_exactly_the_row_witness :
  (run (Applicants.delete_applicant Sample.uuid_a) Sample.store).1 = Ok true /\
  (run (_ <- Applicants.delete_applicant Sample.uuid_a ;;
        Applicants.get_applicant_by_id Sample.uuid_a) Sample.store).1 = Ok None.
Proof.
  destruct (delete_removes_exactly_the_row Sample.store) as [Happlicants _].
  destruct (Happlicants Sample.uuid_a) as ((b & Hb & Htrue) & _ & _ & Hgone & _).
  split; [|exact Hgone].
  rewrite Hb. f_equal. apply Htrue. exists Sample.ana. split; [|reflexivity].
  vm_compute. left.
Defined.

(** ** Exceptions of the store *)

Section StoreErrors.
Context {S : Type} `{RecordStore S} {E : Type}.
Variable fw : row -> result E.
Variable table : string.

Lemma create_raises_wrapped what payload (s : S) :
  raises_when (InsertRow table payload) (insert_error table)
    (result <- Database.insert_record table payload ;;
     match result with
     | r :: _ => lift (fw r)
     | [] => Throw (creation_error what)
     end) s.
Proof.
  intros e He. rewrite run_bind, run_insert_record.
  destruct (answer _ s) as [[rs|e'] s']; [discriminate|].
  cbn [fst] in He. injection He as ->. reflexivity.
Qed.

Lemma update_raises_same (rid : pyval) (fields : row) (s : S) :
  raises_when (UpdateEq table fields rid) id (update_with fw table rid fields) s.
Proof.
  intros e He. rewrite update_with_run.
  destruct (answer _ s) as [[rs|e'] s']; [discriminate|].
  cbn [fst] in He. injection He as ->. reflexivity.
Qed.

Lemma delete_raises_same (rid : pyval) (s : S) :
  raises_when (DeleteEq table rid) id (delete_with table rid) s.
Proof.
  intros e He. rewrite run_delete_with.
  destruct (answer _ s) as [[rs|e'] s']; [discriminate|].
  cbn [fst] in He. injection He as ->. reflexivity.
Qed.

Lemma get_by_id_raises_same (rid : pyval) (s : S) :
  raises_when (Select table {[ "id" := rid ]}) id (get_by_id_with fw table rid) s.
Proof.
  intros e He. rewrite run_get_by_id_with.
  destruct (answer _ s) as [[rs|e'] s']; [discriminate|].
  cbn [fst] in He. injection He as ->. reflexivity.
Qed.

Lemma get_all_raises_same (dk : string) (b : bool) (s : S) :
  raises_when (Select table (if b then (∅ : row) else {[ dk := VNone ]})) id
    (get_all_with fw table dk b) s.
Proof.
  intros e He. rewrite run_get_all_with.
  destruct (answer _ s) as [[rs|e'] s']; [discriminate|].
  cbn [fst] in He. injection He as ->. reflexivity.
Qed.

End StoreErrors.

(** X16. On any store: when the insert raises [e], each of the five
    [create_*] functions raises [Exception("Error inserting into <table>:
    <str(e)>")], so the class of the store's exception is lost; when the
    update, the deletion or the query raises, [update_applicant],
    [update_application], [delete_applicant], [get_applicant_by_id] and
    [get_all_applicants] raise the store's exception unchanged. *)
Theorem store_exceptions_surface {S} `{RecordStore S} (s : S) :
  (forall a, raises_when (InsertRow Applicants.TABLE_NAME (Applicants.to_dict a))
               (insert_error Applicants.TABLE_NAME) (Applicants.create_applicant a) s) /\
  (forall c, raises_when (InsertRow Clients.TABLE_NAME (delete "id" (Clients.to_dict c)))
               (insert_error Clients.TABLE_NAME) (Clients.create_client c) s) /\
  (forall r, raises_when (InsertRow Recruiters.TABLE_NAME (Recruiters.to_dict r))
               (insert_error Recruiters.TABLE_NAME) (Recruiters.create_recruiter r) s) /\
  (forall j, raises_when (InsertRow JobDescriptions.TABLE_NAME (JobDescriptions.to_dict j))
               (insert_error JobDescriptions.TABLE_NAME)
               (JobDescriptions.create_job_description j) s) /\
  (forall a, raises_when (InsertRow JobApplications.TABLE_NAME (JobApplications.to_dict a))
               (insert_error JobApplications.TABLE_NAME)
               (JobApplications.create_application a) s) /\
  (forall id_ fields,
      raises_when (UpdateEq Applicants.TABLE_NAME fields (VStr id_)) id
        (Applicants.update_applicant id_ fields) s) /\
  (forall id_ fields,
      raises_when (UpdateEq JobApplications.TABLE_NAME fields (VNum id_)) id
        (JobApplications.update_application id_ fields) s) /\
  (forall id_,
      raises_when (DeleteEq Applicants.TABLE_NAME (VStr id_)) id
        (Applicants.delete_applicant id_) s) /\
  (forall id_,
      raises_when (Select Applicants.TABLE_NAME {[ "id" := VStr id_ ]}) id
        (Applicants.get_applicant_by_id id_) s) /\
  (forall b : bool,
      raises_when (Select Applicants.TABLE_NAME (if b then (∅ : row) else {[ "deactive_at" := VNone ]}))
        id (Applicants.get_all_applicants b) s).
Proof.
  repeat split; intros.
  - apply (create_raises_wrapped Applicants.from_dict _ "applicant").
  - apply (create_raises_wrapped Clients.from_dict _ "client").
  - apply (create_raises_wrapped Recruiters.from_dict _ "recruiter").
  - apply (create_raises_wrapped JobDescriptions.from_dict _ "job description").
  - apply (create_raises_wrapped JobApplications.from_dict _ "job application").
  - apply (update_raises_same Applicants.from_dict).
  - apply (update_raises_same JobApplications.from_dict).
  - apply delete_raises_same.
  - apply (get_by_id_raises_same Applicants.from_dict).
  - apply (get_all_raises_same Applicants.from_dict).
Qed.

Lemma store_exceptions_surface_witness :
  (run (Applicants.create_applicant Sample.new_applicant)
     (Outage (ValueError "connection refused"))).1
  = Raise (Exception_ "Error inserting into applicants: connection refused").
Proof.
  destruct (store_exceptions_surface (Outage (ValueError "connection refused")))
    as [Hcreate _].
  apply (Hcreate Sample.new_applicant (ValueError "connection refused")). reflexivity.
Defined.

(** ** What is seen after a deactivation *)

Lemma rows_after_update table rid fields (m : MemStore.t) :
  MemStore.rows_of (MemStore.update m table fields rid).2 table
  = List.map (MemStore.updated fields rid) (MemStore.rows_of m table).
Proof. unfold MemStore.update. cbn [snd]. apply rows_of_set_rows. Qed.

Section Visibility.
Context {E : Type}.
Variable fw : row -> result E.
Variable table dk : string.
Variable deactive_of : E -> option datetime.
Variable with_deactive : E -> option datetime -> E.
Variable extra : row.

Hypothesis extra_id : extra !! "id" = None.
Hypothesis dk_not_id : dk ≠ "id".
Hypothesis extra_ok : forall r e, fw r = Ok e -> exists e', fw (extra ∪ r) = Ok e'.
Hypothesis set_deactive :
  forall r e v o,
    fw r = Ok e ->
    parse_if_present datetime_fromisoformat (<[dk := v]> r) dk = Ok o ->
    fw (<[dk := v]> r) = Ok (with_deactive e o).
Hypothesis deactive_of_with : forall e o, deactive_of (with_deactive e o) = o.

Lemma visibility_generic (m : MemStore.t) rid r e now :
  first_row m table rid = Some r ->
  fw r = Ok e ->
  utc_instant now ->
  deactivation_visibility
    (update_with fw table rid (<[dk := VStr (PyDatetime.isoformat now)]> extra))
    (get_by_id_with fw table rid) (get_all_with fw table dk false)
    fw deactive_of m table rid now.
Proof.
  intros Hr He [Hv Hn].
  set (fields := <[dk := VStr (PyDatetime.isoformat now)]> extra).
  assert (Hid : fields !! "id" = None).
  { unfold fields. rewrite lookup_insert_ne by exact dk_not_id. exact extra_id. }
  destruct (extra_ok r e He) as [e0 He0].
  assert (He1 : fw (fields ∪ r) = Ok (with_deactive e0 (Some now))).
  { unfold fields. rewrite <- insert_union_l.
    apply (set_deactive _ e0 _ _ He0). by apply parse_written_instant. }
  split.
  - rewrite run_bind, (update_with_mem fw table rid fields m r Hr), He1. cbn [some_r rbind].
    rewrite get_by_id_with_mem, (first_row_after_update _ _ _ _ _ Hid Hr), He1.
    eexists. split; [reflexivity|]. apply deactive_of_with.
  - intros l Hl a Ha.
    rewrite run_bind, (update_with_mem fw table rid fields m r Hr), He1 in Hl.
    cbn [some_r rbind] in Hl.
    rewrite run_get_all_with, answer_select in Hl. cbn [fst] in Hl.
    rewrite query_singleton, rows_after_update in Hl.
    destruct (map_r_elem fw _ _ a Hl Ha) as (r' & Hr' & Hd).
    apply list_elem_of_In, filter_In in Hr' as [Hin Hnull].
    apply in_map_iff in Hin as (r0 & <- & Hin0).
    exists r0. split; [by apply list_elem_of_In|].
    unfold MemStore.updated in *.
    destruct (MemStore.is_target rid r0); [|split; [reflexivity|exact Hd]].
    exfalso. apply col_matches_null in Hnull.
    assert (Hdk : (fields ∪ r0) !! dk = Some (VStr (PyDatetime.isoformat now))).
    { apply lookup_union_Some_l. unfold fields. apply lookup_insert_eq. }
    unfold null_column in Hnull. rewrite Hdk in Hnull. destruct Hnull; discriminate.
Qed.

End Visibility.

Lemma no_extra_decodes {E} (fw : row -> result E) (r : row) (e : E) :
  fw r = Ok e -> exists e', fw (∅ ∪ r) = Ok e'.
Proof. intros He. rewrite (left_id_L ∅ (∪)). eauto. Qed.

(** X3. On the in-memory store, for every entity type and every
    identifier whose row decodes: after the deactivation (for a job
    description, after [close_job_description]) the lookup by identifier
    still returns the entity, stamped with the instant of the call, while
    every entity of the default listing comes from a row that does not
    have that identifier. *)
Theorem deactivated_entity_is_found_but_not_listed (m : MemStore.t) (now : datetime) :
  utc_instant now ->
  (forall id_ r a,
      first_row m Applicants.TABLE_NAME (VStr id_) = Some r ->
      Applicants.from_dict r = Ok a ->
      deactivation_visibility (Applicants.deactivate_applicant now id_)
        (Applicants.get_applicant_by_id id_) (Applicants.get_all_applicants false)
        Applicants.from_dict Applicants.deactive_at m Applicants.TABLE_NAME (VStr id_) now) /\
  (forall id_ r c,
      first_row m Clients.TABLE_NAME (VStr id_) = Some r ->
      Clients.from_dict r = Ok c ->
      deactivation_visibility (Clients.deactivate_client now id_)
        (Clients.get_client_by_id id_) (Clients.get_all_clients false)
        Clients.from_dict Clients.deactive m Clients.TABLE_NAME (VStr id_) now) /\
  (forall id_ r x,
      first_row m Recruiters.TABLE_NAME (VStr id_) = Some r ->
      Recruiters.from_dict r = Ok x ->
      deactivation_visibility (Recruiters.deactivate_recruiter now id_)
        (Recruiters.get_recruiter_by_id id_) (Recruiters.get_all_recruiters false)
        Recruiters.from_dict Recruiters.deactive_at m Recruiters.TABLE_NAME (VStr id_) now) /\
  (forall id_ r a,
      first_row m JobApplications.TABLE_NAME (VNum id_) = Some r ->
      JobApplications.from_dict r = Ok a ->
      deactivation_visibility (JobApplications.deactivate_application now id_)
        (JobApplications.get_application_by_id id_)
        (JobApplications.get_all_applications false)
        JobApplications.from_dict JobApplications.deactive_at m
        JobApplications.TABLE_NAME (VNum id_) now) /\
  (forall id_ r j,
      first_row m JobDescriptions.TABLE_NAME (VStr id_) = Some r ->
      JobDescriptions.from_dict r = Ok j ->
      deactivation_visibility (JobDescriptions.close_job_description now id_)
        (JobDescriptions.get_job_description_by_id id_)
        (JobDescriptions.get_all_job_descriptions false)
        JobDescriptions.from_dict JobDescriptions.deactive_at m
        JobDescriptions.TABLE_NAME (VStr id_) now).
Proof.
  intros Hnow. split; [|split; [|split; [|split]]]; intros id_ r e Hr He.
  - apply (visibility_generic Applicants.from_dict Applicants.TABLE_NAME "deactive_at"
             Applicants.deactive_at _ ∅ (lookup_empty _) ltac:(done)
             (no_extra_decodes _) Applicant_set_deactive_at ltac:(reflexivity)
             m (VStr id_) r e now Hr He Hnow).
  - apply (visibility_generic Clients.from_dict Clients.TABLE_NAME "deactive"
             Clients.deactive _ ∅ (lookup_empty _) ltac:(done)
             (no_extra_decodes _) Client_set_deactive ltac:(reflexivity)
             m (VStr id_) r e now Hr He Hnow).
  - apply (visibility_generic Recruiters.from_dict Recruiters.TABLE_NAME "deactive_at"
             Recruiters.deactive_at _ ∅ (lookup_empty _) ltac:(done)
             (no_extra_decodes _) Recruiter_set_deactive_at ltac:(reflexivity)
             m (VStr id_) r e now Hr He Hnow).
  - apply (visibility_generic JobApplications.from_dict JobApplications.TABLE_NAME
             "deactive_at" JobApplications.deactive_at _ ∅ (lookup_empty _) ltac:(done)
             (no_extra_decodes _) JobApplication_set_deactive_at ltac:(reflexivity)
             m (VNum id_) r e now Hr He Hnow).
  - apply (visibility_generic JobDescriptions.from_dict JobDescriptions.TABLE_NAME
             "deactive_at" JobDescriptions.deactive_at
             (fun j o =>
                JobDescriptions.mkJobDescription (JobDescriptions.min_salary j)
                  (JobDescriptions.status j) (JobDescriptions.description j)
                  (JobDescriptions.max_salary j) (JobDescriptions.recruiter_id j)
                  (JobDescriptions.client_id j) (JobDescriptions.id j)
                  (JobDescriptions.created_at j) o)
             {[ "status" := VStr "CLOSED" ]} ltac:(done) ltac:(done))
      with (r := r) (e := e); try assumption.
    + intros r' e' He'. rewrite singleton_union.
      rewrite (JobDescription_set_status r' e' _ He'). eauto.
    + apply JobDescription_set_deactive_at.
    + reflexivity.
Qed.

Lemma deactivated_entity_is_found_but_not_listed_witness :
  exists a,
    (run (_ <- Applicants.deactivate_applicant Sample.noon Sample.uuid_a ;;
          Applicants.get_applicant_by_id Sample.uuid_a) Sample.store).1 = Ok (Some a) /\
    Applicants.deactive_at a = Some Sample.noon.
Proof.
  destruct (deactivated_entity_is_found_but_not_listed Sample.store Sample.noon)
    as [Happlicants _].
  - split; vm_compute; reflexivity.
  - edestruct (Happlicants Sample.uuid_a Sample.ana) as [Hfound _].
    + vm_compute. reflexivity.
    + vm_compute. reflexivity.
    + exact Hfound.
Defined.

(** ** Reactivating an active entity *)

Lemma reactivate_generic {E} (fw : row -> result E) (deactive_of : E -> option datetime)
    table dk (m : MemStore.t) rid r e :
  (forall r e, fw r = Ok e -> deactive_of e = None -> fw (<[dk := VNone]> r) = Ok e) ->
  first_row m table rid = Some r ->
  fw r = Ok e ->
  deactive_of e = None ->
  (run (update_with fw table rid {[ dk := VNone ]}) m).1 = Ok (Some e) /\
  Forall2 (fun r0 r1 : row => forall k, k ≠ dk -> r1 !! k = r0 !! k)
    (MemStore.rows_of m table)
    (MemStore.rows_of (run (update_with fw table rid {[ dk := VNone ]}) m).2 table).
Proof.
  intros Hset Hr He Hactive.
  rewrite (update_with_mem fw table rid _ m r Hr). cbn [fst snd]. split.
  - rewrite singleton_union, (Hset r e He Hactive). reflexivity.
  - rewrite rows_after_update.
    induction (MemStore.rows_of m table) as [|r0 rs IH]; simpl; constructor; [|exact IH].
    intros k Hk. apply updated_frame. apply lookup_singleton_ne. congruence.
Qed.

(** X5. On the in-memory store, reactivating an entity that is active
    (its row decodes with a null deactivation timestamp) returns the
    entity as it was, and no row of the table changes in any column other
    than the deactivation column. *)
Theorem reactivating_an_active_entity_changes_nothing (m : MemStore.t) :
  (forall id_ r a,
      first_row m Applicants.TABLE_NAME (VStr id_) = Some r ->
      Applicants.from_dict r = Ok a -> Applicants.deactive_at a = None ->
      (run (Applicants.reactivate_applicant id_) m).1 = Ok (Some a) /\
      Forall2 (fun r0 r1 : row => forall k, k ≠ "deactive_at" -> r1 !! k = r0 !! k)
        (MemStore.rows_of m Applicants.TABLE_NAME)
        (MemStore.rows_of (run (Applicants.reactivate_applicant id_) m).2
           Applicants.TABLE_NAME)) /\
  (forall id_ r c,
      first_row m Clients.TABLE_NAME (VStr id_) = Some r ->
      Clients.from_dict r = Ok c -> Clients.deactive c = None ->
      (run (Clients.reactivate_client id_) m).1 = Ok (Some c) /\
      Forall2 (fun r0 r1 : row => forall k, k ≠ "deactive" -> r1 !! k = r0 !! k)
        (MemStore.rows_of m Clients.TABLE_NAME)
        (MemStore.rows_of (run (Clients.reactivate_client id_) m).2 Clients.TABLE_NAME)) /\
  (forall id_ r x,
      first_row m Recruiters.TABLE_NAME (VStr id_) = Some r ->
      Recruiters.from_dict r = Ok x -> Recruiters.deactive_at x = None ->
      (run (Recruiters.reactivate_recruiter id_) m).1 = Ok (Some x) /\
      Forall2 (fun r0 r1 : row => forall k, k ≠ "deactive_at" -> r1 !! k = r0 !! k)
        (MemStore.rows_of m Recruiters.TABLE_NAME)
        (MemStore.rows_of (run (Recruiters.reactivate_recruiter id_) m).2
           Recruiters.TABLE_NAME)) /\
  (forall id_ r a,
      first_row m JobApplications.TABLE_NAME (VNum id_) = Some r ->
      JobApplications.from_dict r = Ok a -> JobApplications.deactive_at a = None ->
      (run (JobApplications.reactivate_application id_) m).1 = Ok (Some a) /\
      Forall2 (fun r0 r1 : row => forall k, k ≠ "deactive_at" -> r1 !! k = r0 !! k)
        (MemStore.rows_of m JobApplications.TABLE_NAME)
        (MemStore.rows_of (run (JobApplications.reactivate_application id_) m).2
           JobApplications.TABLE_NAME)).
Proof.
  split; [|split; [|split]]; intros id_ r e Hr He Hactive.
  - apply (reactivate_generic Applicants.from_dict Applicants.deactive_at _ "deactive_at"
             m (VStr id_) r e); [|exact Hr|exact He|exact Hactive].
    clear. intros r e He Hactive.
    rewrite (Applicant_set_deactive_at r e VNone None He (parse_written_none _ _ _)).
    destruct e; simpl in *. subst. reflexivity.
  - apply (reactivate_generic Clients.from_dict Clients.deactive _ "deactive"
             m (VStr id_) r e); [|exact Hr|exact He|exact Hactive].
    clear. intros r e He Hactive.
    rewrite (Client_set_deactive r e VNone None He (parse_written_none _ _ _)).
    destruct e; simpl in *. subst. reflexivity.
  - apply (reactivate_generic Recruiters.from_dict Recruiters.deactive_at _ "deactive_at"
             m (VStr id_) r e); [|exact Hr|exact He|exact Hactive].
    clear. intros r e He Hactive.
    rewrite (Recruiter_set_deactive_at r e VNone None He (parse_written_none _ _ _)).
    destruct e; simpl in *. subst. reflexivity.
  - apply (reactivate_generic JobApplications.from_dict JobApplications.deactive_at _
             "deactive_at" m (VNum id_) r e); [|exact Hr|exact He|exact Hactive].
    clear. intros r e He Hactive.
    rewrite (JobApplication_set_deactive_at r e VNone None He (parse_written_none _ _ _)).
    destruct e; simpl in *. subst. reflexivity.
Qed.

Lemma reactivating_an_active_entity_changes_nothing_witness :
  exists a, Applicants.from_dict Sample.ana = Ok a /\
            (run (Applicants.reactivate_applicant Sample.uuid_a) Sample.store).1 = Ok (Some a).
Proof.
  destruct (reactivating_an_active_entity_changes_nothing Sample.store) as [Happlicants _].
  eexists. split; [vm_compute; reflexivity|].
  apply (Happlicants Sample.uuid_a Sample.ana); vm_compute; reflexivity.
Defined.

(** ** Searching without filters *)

Lemma run_decode_then_ret {S} `{RecordStore S} {A} (r : result (list A)) (s : S) :
  run (x <- lift r ;; Ret x) s = run (lift r) s.
Proof. destruct r; reflexivity. Qed.

Lemma run_query_then {S} `{RecordStore S} {A} table filters (k k' : list row -> prog A)
    (s : S) :
  (forall data s', run (k data) s' = run (k' data) s') ->
  run (data <- Database.query_table table filters ;; k data) s
  = run (data <- Database.query_table table filters ;; k' data) s.
Proof.
  intros Hk. rewrite !run_bind. destruct (run _ s) as [[data|e] s']; [apply Hk|reflexivity].
Qed.

(** X6. On any store, a search in which every filter is missing or the
    empty string does what the default listing does: the same query, the
    same result or exception, the same store afterwards. *)
Theorem search_without_filters_is_default_listing {S} `{RecordStore S} (s : S) :
  (forall n c e em,
      given n = false -> given c = false -> given e = false -> given em = false ->
      run (Applicants.search_applicants n c e em) s
      = run (Applicants.get_all_applicants false) s) /\
  (forall d,
      given d = false ->
      run (Clients.search_clients d) s = run (Clients.get_all_clients false) s) /\
  (forall n d,
      given n = false -> given d = false ->
      run (Recruiters.search_recruiters n d) s = run (Recruiters.get_all_recruiters false) s) /\
  (forall st c,
      given st = false -> given c = false ->
      run (JobDescriptions.search_job_descriptions st c None None None) s
      = run (JobDescriptions.get_all_job_descriptions false) s) /\
  (forall a j r,
      given a = false -> given j = false -> given r = false ->
      run (JobApplications.search_applications a j r) s
      = run (JobApplications.get_all_applications false) s).
Proof.
  split; [|split; [|split; [|split]]].
  - intros n c e em Hn Hc He Hem.
    unfold Applicants.search_applicants, Applicants.search_filters,
      Applicants.get_all_applicants.
    rewrite Hn, Hc, He, Hem. rewrite bool_decide_eq_true_2 by reflexivity.
    apply run_query_then. intros data s'. cbn [pbind]. apply run_decode_then_ret.
  - intros d Hd. unfold Clients.search_clients, Clients.get_all_clients. rewrite Hd.
    apply run_query_then. intros data s'. cbn [pbind]. apply run_decode_then_ret.
  - intros n d Hn Hd. unfold Recruiters.search_recruiters, Recruiters.get_all_recruiters.
    rewrite Hn, Hd.
    apply run_query_then. intros data s'. cbn [pbind]. apply run_decode_then_ret.
  - intros st c Hst Hc.
    unfold JobDescriptions.search_job_descriptions, JobDescriptions.search_filters,
      JobDescriptions.get_all_job_descriptions.
    rewrite Hst, Hc. rewrite bool_decide_eq_true_2 by reflexivity.
    apply run_query_then. intros data s'. cbn [pbind]. apply run_decode_then_ret.
  - intros a j r Ha Hj Hr.
    unfold JobApplications.search_applications, JobApplications.search_filters,
      JobApplications.get_all_applications.
    rewrite Ha, Hj, Hr. rewrite lookup_empty.
    rewrite bool_decide_eq_false_2 by apply insert_non_empty.
    reflexivity.
Qed.

Lemma search_without_filters_is_default_listing_witness :
  run (Applicants.search_applicants None (Some "") None None) Sample.store
  = run (Applicants.get_all_applicants false) Sample.store.
Proof.
  destruct (search_without_filters_is_default_listing Sample.store) as [Happlicants _].
  apply Happlicants; reflexivity.
Defined.

(** ** The applications of an applicant, of a job *)

Lemma run_list_query (fd : row -> result JobApplications.ApplicantJobApply) (eqs : row)
    (m : MemStore.t) :
  run (data <- Database.query_table JobApplications.TABLE_NAME (Some eqs) ;;
       lift (map_r fd data)) m
  = (map_r fd (MemStore.query m JobApplications.TABLE_NAME eqs), m).
Proof. rewrite run_bind, run_query_table, answer_select. apply run_lift. Qed.


Lemma active_part_of_query (m : MemStore.t) table (eqs : row) every :
  eqs !! "deactive_at" = None ->
  map_r JobApplications.from_dict (MemStore.query m table eqs) = Ok every ->
  exists active,
    map_r JobApplications.from_dict
      (MemStore.query m table (<["deactive_at" := VNone]> eqs)) = Ok active /\
    sublist active every /\
    Forall (fun a => JobApplications.deactive_at a = None) active.
Proof.
  intros Heqs Hall. rewrite query_insert by exact Heqs.
  destruct (map_r_filter JobApplications.from_dict
              (fun r => MemStore.col_matches r "deactive_at" VNone) _ _ Hall)
    as (active & Hact & Hsub).
  exists active. split; [exact Hact|split; [exact Hsub|]].
  apply Forall_forall. intros a Ha.
  destruct (map_r_elem _ _ _ a Hact Ha) as (r & Hr & Hd).
  apply (JobApplication_null_deactive_at r a Hd).
  apply list_elem_of_In, filter_In in Hr as [_ Hr]. by apply col_matches_null.
Qed.

(** X15. On the in-memory store, for a non-empty identifier text:
    [get_applications_by_applicant] and [get_applications_by_job] put no
    predicate on the deactivation column, so they return the deactivated
    applications too (every row of the applicant that decodes is in the
    answer); the search by the same identifier succeeds whenever they do
    and returns a sub-list of their answer, made of active applications
    only. *)
Theorem applications_of_include_inactive_search_does_not (m : MemStore.t) (x : string) :
  x ≠ "" ->
  (forall every,
      (run (JobApplications.get_applications_by_applicant x) m).1 = Ok every ->
      exists active,
        (run (JobApplications.search_applications (Some x) None None) m).1 = Ok active /\
        sublist active every /\
        Forall (fun a => JobApplications.deactive_at a = None) active) /\
  (forall every,
      (run (JobApplications.get_applications_by_job x) m).1 = Ok every ->
      exists active,
        (run (JobApplications.search_applications None (Some x) None) m).1 = Ok active /\
        sublist active every /\
        Forall (fun a => JobApplications.deactive_at a = None) active) /\
  (forall r a,
      r ∈ MemStore.rows_of m JobApplications.TABLE_NAME ->
      r !! "applicant_id" = Some (VStr x) ->
      forall every,
        (run (JobApplications.get_applications_by_applicant x) m).1 = Ok every ->
        JobApplications.from_dict r = Ok a -> a ∈ every).
Proof.
  intros Hx. pose proof (given_Some x Hx) as Hg. split; [|split].
  - intros every Hall.
    unfold JobApplications.get_applications_by_applicant in Hall.
    rewrite run_list_query in Hall. cbn [fst] in Hall.
    unfold JobApplications.search_applications, JobApplications.search_filters.
    rewrite Hg. cbn [given default].
    rewrite lookup_insert_ne, lookup_empty by done.
    rewrite bool_decide_eq_false_2 by apply insert_non_empty.
    rewrite run_list_query. cbn [fst].
    apply active_part_of_query; [|exact Hall].
    rewrite lookup_insert_ne by done. apply lookup_empty.
  - intros every Hall.
    unfold JobApplications.get_applications_by_job in Hall.
    rewrite run_list_query in Hall. cbn [fst] in Hall.
    unfold JobApplications.search_applications, JobApplications.search_filters.
    rewrite Hg. cbn [given default].
    rewrite lookup_insert_ne, lookup_empty by done.
    rewrite bool_decide_eq_false_2 by apply insert_non_empty.
    rewrite run_list_query. cbn [fst].
    apply active_part_of_query; [|exact Hall].
    rewrite lookup_insert_ne by done. apply lookup_empty.
  - intros r a Hr Hcol every Hall Hd.
    unfold JobApplications.get_applications_by_applicant in Hall.
    rewrite run_list_query in Hall. cbn [fst] in Hall.
    destruct (map_r_elem_fwd _ _ _ r Hall) as (a' & Ha' & Hin).
    + rewrite query_singleton. apply list_elem_of_In, filter_In.
      split; [by apply list_elem_of_In|].
      unfold MemStore.col_matches. apply bool_decide_eq_true. exact Hcol.
    + congruence.
Qed.

Lemma applications_of_include_inactive_search_does_not_witness :
  exists active,
    (run (JobApplications.search_applications (Some Sample.uuid_a) None None)
       Sample.store).1 = Ok active /\
    Forall (fun a => JobApplications.deactive_at a = None) active.
Proof.
  destruct (applications_of_include_inactive_search_does_not Sample.store Sample.uuid_a)
    as [Hby _]; [discriminate|].
  edestruct Hby as (active & Hact & _ & Hnull).
  - vm_compute. reflexivity.
  - exists active. split; assumption.
Defined.

(** ** Assigning a recruiter to an application *)

Lemma JobApplication_set_recruiter_id r a v o :
  JobApplications.from_dict r = Ok a ->
  parse_if_present uuid_UUID (<["recruiter_id" := v]> r) "recruiter_id" = Ok o ->
  JobApplications.from_dict (<["recruiter_id" := v]> r)
  = Ok (JobApplications.mkApplicantJobApply (JobApplications.applicant_id a)
          (JobApplications.job_description_id a) (JobApplications.id a)
          (JobApplications.created_at a) (JobApplications.deactive_at a) o).
Proof.
  intros H Ho. unfold JobApplications.from_dict in *. cbv zeta. rewrite Ho. insert_ne.
  decode_steps H. injection H as <-. reflexivity.
Qed.


Lemma parse_written_uuid (r : row) k s u :
  PyUuid.of_string s = Some u ->
  parse_if_present uuid_UUID (<[k := VStr s]> r) k = Ok (Some u).
Proof.
  intros Hu. rewrite parse_if_present_insert_eq.
  assert (Hs : s ≠ "") by (intros ->; vm_compute in Hu; discriminate).
  replace (truthy (VStr s)) with true
    by (simpl; apply String.eqb_neq in Hs; by rewrite Hs).
  unfold uuid_UUID. rewrite Hu. reflexivity.
Qed.

Lemma first_row_elem (m : MemStore.t) table rid r :
  first_row m table rid = Some r ->
  r ∈ MemStore.rows_of m table /\ MemStore.is_target rid r = true.
Proof.
  unfold first_row. intros Hr.
  destruct (List.filter _ _) as [|r0 rest] eqn:Hf; [discriminate|]. injection Hr as ->.
  assert (Hin : In r (List.filter (MemStore.is_target rid) (MemStore.rows_of m table))).
  { rewrite Hf. by left. }
  apply filter_In in Hin as [Hin Ht]. split; [by apply list_elem_of_In|exact Ht].
Qed.

Lemma run_search_applications_by_recruiter (m : MemStore.t) s :
  s ≠ "" ->
  run (JobApplications.search_applications None None (Some s)) m
  = (map_r JobApplications.from_dict
       (List.filter (fun r => MemStore.col_matches r "deactive_at" VNone)
          (List.filter (fun r => MemStore.col_matches r "recruiter_id" (VStr s))
             (MemStore.rows_of m JobApplications.TABLE_NAME))), m).
Proof.
  intros Hs. unfold JobApplications.search_applications, JobApplications.search_filters.
  rewrite (given_Some s Hs). cbn [given default].
  rewrite lookup_insert_ne, lookup_empty by done.
  rewrite bool_decide_eq_false_2 by apply insert_non_empty.
  rewrite run_list_query.
  rewrite query_insert by (rewrite lookup_insert_ne by done; apply lookup_empty).
  change (<["recruiter_id" := VStr (id s)]> ∅ : row) with ({[ "recruiter_id" := VStr s ]} : row).
  rewrite query_singleton. reflexivity.
Qed.

(** X13. On the in-memory store, for an application whose row decodes
    and a recruiter identifier that reads as a UUID: [assign_recruiter]
    returns the application with that recruiter and nothing else changed,
    [unassign_recruiter] returns it with no recruiter; after the
    assignment the search by that recruiter returns the application if it
    is active; after the assignment and the un-assignment every result of
    that search comes from a row of another application. *)
Theorem assign_then_search_by_recruiter (m : MemStore.t) (application_id : Z)
    (recruiter : string) (u : UUID) (r : row) (a : JobApplications.ApplicantJobApply) :
  first_row m JobApplications.TABLE_NAME (VNum application_id) = Some r ->
  JobApplications.from_dict r = Ok a ->
  PyUuid.of_string recruiter = Some u ->
  let assigned :=
    JobApplications.mkApplicantJobApply (JobApplications.applicant_id a)
      (JobApplications.job_description_id a) (JobApplications.id a)
      (JobApplications.created_at a) (JobApplications.deactive_at a) (Some u) in
  let unassigned :=
    JobApplications.mkApplicantJobApply (JobApplications.applicant_id a)
      (JobApplications.job_description_id a) (JobApplications.id a)
      (JobApplications.created_at a) (JobApplications.deactive_at a) None in
  (run (JobApplications.assign_recruiter application_id recruiter) m).1 = Ok (Some assigned) /\
  (run (JobApplications.unassign_recruiter application_id) m).1 = Ok (Some unassigned) /\
  (null_column r "deactive_at" ->
   forall l,
     (run (_ <- JobApplications.assign_recruiter application_id recruiter ;;
           JobApplications.search_applications None None (Some recruiter)) m).1 = Ok l ->
     assigned ∈ l) /\
  (forall l,
      (run (_ <- JobApplications.assign_recruiter application_id recruiter ;;
            _ <- JobApplications.unassign_recruiter application_id ;;
            JobApplications.search_applications None None (Some recruiter)) m).1 = Ok l ->
      forall x, x ∈ l ->
                exists r0, r0 ∈ MemStore.rows_of m JobApplications.TABLE_NAME /\
                           MemStore.is_target (VNum application_id) r0 = false /\
                           JobApplications.from_dict r0 = Ok x).
Proof.
  intros Hr Ha Hu assigned unassigned.
  assert (Hs : recruiter ≠ "") by (intros ->; vm_compute in Hu; discriminate).
  set (f1 := ({[ "recruiter_id" := VStr recruiter ]} : row)).
  set (f2 := ({[ "recruiter_id" := VNone ]} : row)).
  assert (Hid1 : f1 !! "id" = None) by (apply lookup_singleton_ne; done).
  assert (Hid2 : f2 !! "id" = None) by (apply lookup_singleton_ne; done).
  assert (H1 : JobApplications.from_dict (f1 ∪ r) = Ok assigned).
  { unfold f1. rewrite singleton_union.
    apply (JobApplication_set_recruiter_id r a _ _ Ha). by apply parse_written_uuid. }
  assert (Hassign : run (JobApplications.assign_recruiter application_id recruiter) m
                    = (Ok (Some assigned),
                       (MemStore.update m JobApplications.TABLE_NAME f1
                          (VNum application_id)).2)).
  { change (JobApplications.assign_recruiter application_id recruiter)
      with (update_with JobApplications.from_dict JobApplications.TABLE_NAME
              (VNum application_id) f1).
    rewrite (update_with_mem _ _ _ _ _ r Hr), H1. reflexivity. }
  split; [by rewrite Hassign|]. split; [|split].
  - change (JobApplications.unassign_recruiter application_id)
      with (update_with JobApplications.from_dict JobApplications.TABLE_NAME
              (VNum application_id) f2).
    rewrite (update_with_mem _ _ _ _ _ r Hr). cbn [fst]. unfold f2.
    rewrite singleton_union.
    rewrite (JobApplication_set_recruiter_id r a VNone None Ha (parse_written_none _ _ _)).
    reflexivity.
  - intros Hactive l Hl. rewrite run_bind, Hassign in Hl.
    rewrite (run_search_applications_by_recruiter _ _ Hs) in Hl. cbn [fst] in Hl.
    destruct (map_r_elem_fwd _ _ _ (f1 ∪ r) Hl) as (a' & Ha' & Hin); [|congruence].
    destruct (first_row_elem _ _ _ _ Hr) as [Hin Ht].
    apply list_elem_of_In, filter_In. split; [apply filter_In; split|].
    + rewrite rows_after_update. apply in_map_iff. exists r.
      split; [|by apply list_elem_of_In]. unfold MemStore.updated. by rewrite Ht.
    + unfold MemStore.col_matches. apply bool_decide_eq_true.
      apply lookup_union_Some_l. apply lookup_singleton_eq.
    + apply col_matches_null. unfold null_column.
      rewrite lookup_union_r by (apply lookup_singleton_ne; done). exact Hactive.
  - intros l Hl x Hx. rewrite run_bind, Hassign in Hl.
    change (JobApplications.unassign_recruiter application_id)
      with (update_with JobApplications.from_dict JobApplications.TABLE_NAME
              (VNum application_id) f2) in Hl.
    rewrite run_bind in Hl.
    pose proof (first_row_after_update _ _ _ _ _ Hid1 Hr) as Hr1.
    rewrite (update_with_mem _ _ _ _ _ _ Hr1) in Hl.
    assert (H2 : JobApplications.from_dict (f2 ∪ (f1 ∪ r)) = Ok unassigned).
    { unfold f2. rewrite singleton_union.
      apply (JobApplication_set_recruiter_id _ _ VNone None H1 (parse_written_none _ _ _)). }
    rewrite H2 in Hl. cbn [some_r rbind] in Hl.
    rewrite (run_search_applications_by_recruiter _ _ Hs) in Hl. cbn [fst] in Hl.
    destruct (map_r_elem _ _ _ x Hl Hx) as (r2 & Hr2 & Hd).
    apply list_elem_of_In, filter_In in Hr2 as [Hr2 _].
    apply filter_In in Hr2 as [Hr2 Hrec].
    rewrite !rows_after_update in Hr2.
    apply in_map_iff in Hr2 as (r1 & <- & Hr2).
    apply in_map_iff in Hr2 as (r0 & <- & Hr0).
    exists r0. split; [by apply list_elem_of_In|].
    destruct (MemStore.is_target (VNum application_id) r0) eqn:Ht.
    + exfalso. unfold MemStore.updated in Hrec at 2. rewrite Ht in Hrec.
      unfold MemStore.updated in Hrec. rewrite (is_target_union _ _ _ Hid1), Ht in Hrec.
      unfold MemStore.col_matches in Hrec. apply bool_decide_eq_true in Hrec.
      rewrite (lookup_union_Some_l _ _ _ VNone) in Hrec by apply lookup_singleton_eq.
      discriminate.
    + split; [reflexivity|].
      unfold MemStore.updated in Hd at 2. rewrite Ht in Hd.
      unfold MemStore.updated in Hd. rewrite Ht in Hd. exact Hd.
Qed.

Lemma assign_then_search_by_recruiter_witness :
  exists a,
    (run (JobApplications.assign_recruiter 1 Sample.uuid_b) Sample.store).1 = Ok (Some a) /\
    forall l,
      (run (_ <- JobApplications.assign_recruiter 1 Sample.uuid_b ;;
            JobApplications.search_applications None None (Some Sample.uuid_b))
         Sample.store).1 = Ok l ->
      a ∈ l.
Proof.
  edestruct (assign_then_search_by_recruiter Sample.store 1 Sample.uuid_b)
    as (Hassign & _ & Hfound & _).
  - vm_compute. reflexivity.
  - vm_compute. reflexivity.
  - vm_compute. reflexivity.
  - eexists. split; [exact Hassign|]. apply Hfound. right. vm_compute. reflexivity.
Defined.



(** ** Substring tests *)










(** ** Searching applicants by name and city *)

Lemma run_search_applicants {S} `{RecordStore S} n c e em (s : S) :
  run (Applicants.search_applicants n c e em) s =
  match answer (Select Applicants.TABLE_NAME
                  (if bool_decide (Applicants.search_filters e em = ∅)
                   then {[ "deactive_at" := VNone ]}
                   else Applicants.search_filters e em)) s with
  | (Ok rows, s') =>
      (applicants <-! map_r Applicants.from_dict rows ;;
       applicants <-! (if given n
                       then filter_r (Applicants.name_matches (PyStr.lower (default "" n)))
                              applicants
                       else Ok applicants) ;;
       if given c
       then filter_r (Applicants.city_matches (PyStr.lower (default "" c))) applicants
       else Ok applicants, s')
  | (Raise x, s') => (Raise x, s')
  end.
Proof.
  unfold Applicants.search_applicants. cbv zeta. rewrite run_bind, run_query_table.
  cbn [default]. destruct (answer _ s) as [[rows|x] s']; [|reflexivity].
  rewrite run_bind, run_lift.
  destruct (map_r Applicants.from_dict rows) as [l0|x]; [|reflexivity]. cbn [rbind].
  rewrite run_bind, run_optional_filter.
  destruct (if given n then _ else _) as [l1|x]; [|reflexivity]. cbn [rbind].
  rewrite run_bind, run_optional_filter.
  destruct (if given c then _ else _) as [l2|x]; reflexivity.
Qed.




(** ** Searching clients and recruiters by text *)







(** ** Searching job descriptions by salary *)

Lemma run_search_job_descriptions {S} `{RecordStore S} st c rid lo hi (s : S) :
  run (JobDescriptions.search_job_descriptions st c rid lo hi) s =
  match answer (Select JobDescriptions.TABLE_NAME
                  (<["deactive_at" := VNone]> (JobDescriptions.search_filters st c rid))) s
  with
  | (Ok rows, s') =>
      (jobs <-! map_r JobDescriptions.from_dict rows ;;
       jobs <-! (match lo with
                 | Some b => filter_r (fun j => py_ge (JobDescriptions.min_salary j) b) jobs
                 | None => Ok jobs
                 end) ;;
       match hi with
       | Some b => filter_r (fun j => py_le (JobDescriptions.min_salary j) b) jobs
       | None => Ok jobs
       end, s')
  | (Raise x, s') => (Raise x, s')
  end.
Proof.
  unfold JobDescriptions.search_job_descriptions. cbv zeta. rewrite run_bind.
  assert (Hq : run (if bool_decide (JobDescriptions.search_filters st c rid = ∅)
                    then Database.query_table JobDescriptions.TABLE_NAME
                           (Some {[ "deactive_at" := VNone ]})
                    else Database.query_table JobDescriptions.TABLE_NAME
                           (Some (<["deactive_at" := VNone]>
                                    (JobDescriptions.search_filters st c rid)))) s
               = answer (Select JobDescriptions.TABLE_NAME
                           (<["deactive_at" := VNone]>
                              (JobDescriptions.search_filters st c rid))) s).
  { case_bool_decide as Hf; rewrite run_query_table; [|reflexivity]. by rewrite Hf. }
  rewrite Hq. destruct (answer _ s) as [[rows|x] s']; [|reflexivity].
  rewrite run_bind, run_lift.
  destruct (map_r JobDescriptions.from_dict rows) as [l0|x]; [|reflexivity]. cbn [rbind].
  rewrite run_bind,
    (run_bound_filter lo (fun b j => py_ge (JobDescriptions.min_salary j) b)).
  destruct (match lo with Some b => _ | None => _ end) as [l1|x]; [|reflexivity]. cbn [rbind].
  rewrite run_bind,
    (run_bound_filter hi (fun b j => py_le (JobDescriptions.min_salary j) b)).
  destruct (match hi with Some b => _ | None => _ end) as [l2|x]; reflexivity.
Qed.







(** ** Residual tests on a null field *)

Lemma in_lower_raises needle v e : in_lower needle v = Raise e -> e = no_lower.
Proof.
  unfold in_lower, py_lower. destruct v; simpl; intros [= <-]; reflexivity.
Qed.

Lemma Applicant_name_matches_raises needle a e :
  Applicants.name_matches needle a = Raise e -> e = no_lower.
Proof.
  unfold Applicants.name_matches.
  destruct (in_lower needle (Applicants.name a)) as [[]|x] eqn:Hn; simpl.
  - discriminate.
  - apply in_lower_raises.
  - intros [= <-]. by apply in_lower_raises in Hn.
Qed.

Lemma py_ge_raises v b e : py_ge v b = Raise e -> e = not_comparable.
Proof. unfold py_ge, as_number. destruct v as [|[]| |]; simpl; intros [= <-]; reflexivity. Qed.

(** X9. On any store whose answer decodes: a search of recruiters or of
    applicants with a [name] filter raises [AttributeError] as soon as
    one candidate has a null name, and a search of job descriptions with
    a lower salary bound raises [TypeError] as soon as one candidate has
    a null [min_salary]; no result is returned. *)
Theorem residual_tests_raise_on_null_fields {S} `{RecordStore S} (s : S) :
  (forall n d rows decoded r,
      given n = true ->
      (answer (Select Recruiters.TABLE_NAME {[ "deactive_at" := VNone ]}) s).1 = Ok rows ->
      map_r Recruiters.from_dict rows = Ok decoded ->
      r ∈ decoded -> Recruiters.name r = VNone ->
      (run (Recruiters.search_recruiters n d) s).1 = Raise no_lower) /\
  (forall n c rows decoded a,
      given n = true ->
      (answer (Select Applicants.TABLE_NAME {[ "deactive_at" := VNone ]}) s).1 = Ok rows ->
      map_r Applicants.from_dict rows = Ok decoded ->
      a ∈ decoded -> Applicants.name a = VNone ->
      (run (Applicants.search_applicants n c None None) s).1 = Raise no_lower) /\
  (forall st c rid lo hi rows decoded j,
      (answer (Select JobDescriptions.TABLE_NAME
                 (<["deactive_at" := VNone]> (JobDescriptions.search_filters st c rid))) s).1
      = Ok rows ->
      map_r JobDescriptions.from_dict rows = Ok decoded ->
      j ∈ decoded -> JobDescriptions.min_salary j = VNone ->
      (run (JobDescriptions.search_job_descriptions st c rid (Some lo) hi) s).1
      = Raise not_comparable).
Proof.
  split; [|split].
  - intros n d rows decoded r Hg Hans Hdec Hr Hnull.
    rewrite run_search_recruiters, Hg.
    destruct (answer _ s) as [[rows'|x] s']; [|discriminate]. cbn [fst] in *.
    injection Hans as ->. rewrite Hdec. cbn [rbind].
    rewrite (filter_r_raises _ decoded r no_lower Hr); [reflexivity| |].
    + unfold Recruiters.name_matches. by rewrite Hnull.
    + intros y e' _. apply in_lower_raises.
  - intros n c rows decoded a Hg Hans Hdec Ha Hnull.
    rewrite run_search_applicants, Hg.
    change (Applicants.search_filters None None) with (∅ : row) in *.
    rewrite bool_decide_eq_true_2 by reflexivity.
    destruct (answer _ s) as [[rows'|x] s']; [|discriminate]. cbn [fst] in *.
    injection Hans as ->. rewrite Hdec. cbn [rbind].
    rewrite (filter_r_raises _ decoded a no_lower Ha); [reflexivity| |].
    + unfold Applicants.name_matches. by rewrite Hnull.
    + intros y e' _. apply Applicant_name_matches_raises.
  - intros st c rid lo hi rows decoded j Hans Hdec Hj Hnull.
    rewrite run_search_job_descriptions.
    destruct (answer _ s) as [[rows'|x] s']; [|discriminate]. cbn [fst] in *.
    injection Hans as ->. rewrite Hdec. cbn [rbind].
    rewrite (filter_r_raises _ decoded j not_comparable Hj); [reflexivity| |].
    + by rewrite Hnull.
    + intros y e' _. apply py_ge_raises.
Qed.

Lemma residual_tests_raise_on_null_fields_witness :
  (run (Recruiters.search_recruiters (Some "rita") None) Sample.store_with_anonymous).1
  = Raise no_lower.
Proof.
  destruct (residual_tests_raise_on_null_fields Sample.store_with_anonymous)
    as [Hrecruiters _].
  eapply (Hrecruiters (Some "rita") None [Sample.rita; Sample.anonymous]).
  - reflexivity.
  - vm_compute. reflexivity.
  - vm_compute. reflexivity.
  - right. left.
  - reflexivity.
Defined.

(** ** What [to_dict] leaves out *)

Lemma set_if_not_none_other k0 k d (m : row) :
  k ≠ k0 -> set_if_not_none k0 d m !! k = m !! k.
Proof. intros Hk. destruct d; simpl; try reflexivity; by rewrite lookup_insert_ne. Qed.

Lemma set_if_not_none_not_null k0 k d (m : row) :
  m !! k ≠ Some VNone -> set_if_not_none k0 d m !! k ≠ Some VNone.
Proof.
  intros Hm. destruct d; simpl; try exact Hm;
    (destruct (decide (k0 = k)) as [->|Hne];
       [rewrite lookup_insert_eq; discriminate|by rewrite lookup_insert_ne]).
Qed.

Ltac to_dict_lookup :=
  repeat first
    [ rewrite lookup_insert_ne by done
    | rewrite set_if_not_none_other by done
    | rewrite lookup_singleton_ne by done
    | rewrite lookup_empty ];
  try reflexivity.

(** X11. For every entity, [to_dict] never holds the creation timestamp
    nor the deactivation timestamp, so neither is ever sent on a create;
    the dictionary of a recruiter or of a job description never holds an
    [id]; and an optional field is left out rather than sent as null. *)
Theorem to_dict_never_sends_timestamps_or_nulls :
  (forall a, Applicants.to_dict a !! "created_at" = None /\
             Applicants.to_dict a !! "deactive_at" = None) /\
  (forall c, Clients.to_dict c !! "created_at" = None /\
             Clients.to_dict c !! "deactive" = None /\
             Clients.to_dict c !! "description" ≠ Some VNone) /\
  (forall r, Recruiters.to_dict r !! "created_at" = None /\
             Recruiters.to_dict r !! "deactive_at" = None /\
             Recruiters.to_dict r !! "id" = None /\
             Recruiters.to_dict r !! "description" ≠ Some VNone) /\
  (forall j, JobDescriptions.to_dict j !! "created_at" = None /\
             JobDescriptions.to_dict j !! "deactive_at" = None /\
             JobDescriptions.to_dict j !! "id" = None /\
             JobDescriptions.to_dict j !! "description" ≠ Some VNone /\
             JobDescriptions.to_dict j !! "max_salary" ≠ Some VNone /\
             JobDescriptions.to_dict j !! "recruiter_id" ≠ Some VNone /\
             JobDescriptions.to_dict j !! "client_id" ≠ Some VNone) /\
  (forall a, JobApplications.to_dict a !! "created_at" = None /\
             JobApplications.to_dict a !! "deactive_at" = None /\
             JobApplications.to_dict a !! "recruiter_id" ≠ Some VNone /\
             JobApplications.to_dict a !! "id" ≠ Some VNone).
Proof.
  split; [|split; [|split; [|split]]].
  - intros a. unfold Applicants.to_dict.
    destruct (Applicants.id a); split; to_dict_lookup.
  - intros c. unfold Clients.to_dict.
    destruct (Clients.id c); repeat split; to_dict_lookup;
      apply set_if_not_none_not_null; rewrite lookup_empty; discriminate.
  - intros r. unfold Recruiters.to_dict. repeat split; to_dict_lookup.
    apply set_if_not_none_not_null. rewrite lookup_singleton_ne by done. discriminate.
  - intros j. unfold JobDescriptions.to_dict.
    destruct (JobDescriptions.client_id j); repeat split; to_dict_lookup;
      try (rewrite lookup_insert_eq; discriminate);
      try discriminate;
      repeat first [ rewrite set_if_not_none_other by done
                   | apply set_if_not_none_not_null ];
      to_dict_lookup; discriminate.
  - intros a. unfold JobApplications.to_dict.
    destruct (truthy (JobApplications.id a)) eqn:Hid;
      destruct (JobApplications.recruiter_id a); repeat split; to_dict_lookup;
      try (rewrite lookup_insert_eq; discriminate);
      try discriminate.
    all: rewrite lookup_insert_eq; intros [= Hnull]; rewrite Hnull in Hid; discriminate.
Qed.

(** ** What [from_dict] rejects, and what it lets through *)







Lemma uuid_UUID_no_key_error v : raises_only not_key_error (uuid_UUID v).
Proof.
  intros e. unfold uuid_UUID. destruct v; try (intros [= <-]; exact I).
  destruct (PyUuid.of_string s); intros [= <-]. exact I.
Qed.

Lemma datetime_fromisoformat_no_key_error v :
  raises_only not_key_error (datetime_fromisoformat v).
Proof.
  intros e. unfold datetime_fromisoformat. destruct v; try (intros [= <-]; exact I).
  destruct (PyDatetime.fromisoformat s); intros [= <-]. exact I.
Qed.

Lemma parse_if_present_no_key_error {A} (conv : pyval -> result A) data k :
  (forall v, raises_only not_key_error (conv v)) ->
  raises_only not_key_error (parse_if_present conv data k).
Proof.
  intros Hconv e. unfold parse_if_present, dict_get, dict_item.
  destruct (data !! k) as [v|]; simpl; [|discriminate].
  destruct (truthy v); [|discriminate]. simpl.
  destruct (conv v) as [x|e'] eqn:Hc; simpl; [discriminate|].
  intros [= <-]. by apply (Hconv v).
Qed.

Ltac no_key_error :=
  repeat (first [ apply raises_only_ok
                | apply raises_only_bind;
                  [solve [ apply parse_if_present_no_key_error;
                           first [apply uuid_UUID_no_key_error
                                 |apply datetime_fromisoformat_no_key_error] ]
                  |intros ?] ]).

(** X17. A row without the column [name] makes the decoding of a
    recruiter, and of an applicant whose id decodes, raise
    [KeyError('name')]; the decodings of a client, a job description and
    a job application never raise [KeyError]. A job description takes
    [0] for a missing [min_salary] and ["OPEN"] for a missing [status],
    which [to_dict] then sends; a [status] that is present and null stays
    null and is sent as null. *)
Theorem required_columns_and_defaults (data : row) :
  (data !! "name" = None -> Recruiters.from_dict data = Raise (KeyError "name")) /\
  (data !! "name" = None ->
   forall i, parse_if_present uuid_UUID data "id" = Ok i ->
             Applicants.from_dict data = Raise (KeyError "name")) /\
  raises_only not_key_error (Clients.from_dict data) /\
  raises_only not_key_error (JobDescriptions.from_dict data) /\
  raises_only not_key_error (JobApplications.from_dict data) /\
  (forall j, JobDescriptions.from_dict data = Ok j ->
             JobDescriptions.min_salary j = default (VNum 0) (data !! "min_salary") /\
             JobDescriptions.status j = default (VStr "OPEN") (data !! "status") /\
             (data !! "status" = None ->
              JobDescriptions.to_dict j !! "status" = Some (VStr "OPEN")) /\
             (data !! "status" = Some VNone ->
              JobDescriptions.to_dict j !! "status" = Some VNone)).
Proof.
  split; [|split; [|split; [|split; [|split]]]].
  - intros Hn. unfold Recruiters.from_dict, dict_item. cbv zeta. by rewrite Hn.
  - intros Hn i Hi. unfold Applicants.from_dict, dict_item. rewrite Hi. cbn [rbind].
    by rewrite Hn.
  - unfold Clients.from_dict. cbv zeta. no_key_error.
  - unfold JobDescriptions.from_dict. cbv zeta. no_key_error.
  - unfold JobApplications.from_dict. cbv zeta. no_key_error.
  - intros j Hj. unfold JobDescriptions.from_dict in Hj. decode_steps Hj.
    injection Hj as <-. cbn [JobDescriptions.min_salary JobDescriptions.status].
    split; [reflexivity|]. split; [reflexivity|].
    unfold JobDescriptions.to_dict.
    cbn [JobDescriptions.min_salary JobDescriptions.status JobDescriptions.description
         JobDescriptions.max_salary JobDescriptions.recruiter_id JobDescriptions.client_id].
    split; intros Hst; unfold dict_get_default; rewrite Hst; simpl default;
      destruct x0; to_dict_lookup;
      rewrite lookup_insert_ne by done; apply lookup_singleton_eq.
Qed.

Lemma required_columns_and_defaults_witness :
  Recruiters.from_dict (delete "name" Sample.rita) = Raise (KeyError "name").
Proof.
  destruct (required_columns_and_defaults (delete "name" Sample.rita)) as [Hname _].
  apply Hname. apply lookup_delete_eq.
Defined.

(** ** What an update changes *)

Lemma update_with_frame {E} (fw : row -> result E) table rid fields (m : MemStore.t) :
  update_frame (update_with fw table rid fields) m table rid fields.
Proof.
  unfold update_frame. rewrite update_with_mem_state. split.
  - rewrite rows_after_update.
    induction (MemStore.rows_of m table) as [|r rs IH]; simpl; constructor; [|exact IH].
    unfold MemStore.updated. destruct (MemStore.is_target rid r); split; [| |reflexivity|].
    + discriminate.
    + split; [|intros k Hk; by apply lookup_union_r].
      intros _ k v Hk. by apply lookup_union_Some_l.
    + split; [discriminate|reflexivity].
  - intros table' Hne. unfold MemStore.update. cbn [snd].
    apply rows_of_set_rows_ne. congruence.
Qed.

(** X18. On the in-memory store, for every entity type and whatever the
    fields, an update leaves the rows without the identifier as they are,
    gives the rows with the identifier the given fields and keeps their
    other columns, and leaves the other tables alone; this holds for the
    store even when the call goes on to raise. *)
Theorem update_touches_only_the_given_fields_of_the_row (m : MemStore.t) (fields : row) :
  (forall id_, update_frame (Applicants.update_applicant id_ fields) m
                 Applicants.TABLE_NAME (VStr id_) fields) /\
  (forall id_, update_frame (Clients.update_client id_ fields) m
                 Clients.TABLE_NAME (VStr id_) fields) /\
  (forall id_, update_frame (Recruiters.update_recruiter id_ fields) m
                 Recruiters.TABLE_NAME (VStr id_) fields) /\
  (forall id_, update_frame (JobDescriptions.update_job_description id_ fields) m
                 JobDescriptions.TABLE_NAME (VStr id_) fields) /\
  (forall id_, update_frame (JobApplications.update_application id_ fields) m
                 JobApplications.TABLE_NAME (VNum id_) fields).
Proof.
  split; [|split; [|split; [|split]]]; intros id_.
  - apply (update_with_frame Applicants.from_dict).
  - apply (update_with_frame Clients.from_dict).
  - apply (update_with_frame Recruiters.from_dict).
  - apply (update_with_frame JobDescriptions.from_dict).
  - apply (update_with_frame JobApplications.from_dict).
Qed.

Lemma update_touches_only_the_given_fields_of_the_row_witness :
  MemStore.rows_of
    (run (Applicants.update_applicant Sample.uuid_a {[ "city" := VStr "Cusco" ]})
       Sample.store).2 Clients.TABLE_NAME
  = MemStore.rows_of Sample.store Clients.TABLE_NAME.
Proof.
  destruct (update_touches_only_the_given_fields_of_the_row Sample.store
              {[ "city" := VStr "Cusco" ]}) as [Happlicants _].
  destruct (Happlicants Sample.uuid_a) as [_ Hother].
  apply Hother. discriminate.
Defined.

(** ** Creating, then listing *)

Lemma map_r_app {A B} (f : A -> result B) (l1 l2 : list A) (l1' l2' : list B) :
  map_r f l1 = Ok l1' -> map_r f l2 = Ok l2' -> map_r f (l1 ++ l2)%list = Ok (l1' ++ l2')%list.
Proof.
  revert l1'. induction l1 as [|x l1 IH]; intros l1' H1 H2; simpl in *.
  - by injection H1 as <-.
  - apply rbind_Ok in H1 as (y & Hy & H1). apply rbind_Ok in H1 as (ys & Hys & H1).
    injection H1 as <-. rewrite Hy, (IH ys Hys H2). reflexivity.
Qed.

Lemma create_with_mem {E} (fw : row -> result E) table what payload (m : MemStore.t) :
  run (create_with fw table what payload) m
  = (fw (MemStore.defaults m table (MemStore.rows_of m table) payload),
     (MemStore.insert m table payload).2).
Proof.
  rewrite (create_run fw table what payload m). reflexivity.
Qed.

Lemma create_with_extends {E} (fw : row -> result E) table what dk payload (m : MemStore.t) :
  creation_extends_listing (create_with fw table what payload)
    (get_all_with fw table dk true) m.
Proof.
  intros every Hall created Hc.
  rewrite run_get_all_with, answer_select, query_empty in Hall. cbn [fst] in Hall.
  rewrite create_with_mem in Hc. cbn [fst] in Hc.
  rewrite run_bind, create_with_mem, Hc.
  rewrite run_get_all_with, answer_select, query_empty. cbn [fst].
  unfold MemStore.insert. cbn [snd]. rewrite rows_of_set_rows.
  apply (map_r_app fw _ _ every [created] Hall). simpl. by rewrite Hc.
Qed.

(** X19. On the in-memory store, for every entity type: when the full
    listing decodes and the creation succeeds, the full listing made
    after the creation is the former one followed by the created
    entity. *)
Theorem create_then_list (m : MemStore.t) :
  (forall a, creation_extends_listing (Applicants.create_applicant a)
               (Applicants.get_all_applicants true) m) /\
  (forall c, creation_extends_listing (Clients.create_client c)
               (Clients.get_all_clients true) m) /\
  (forall r, creation_extends_listing (Recruiters.create_recruiter r)
               (Recruiters.get_all_recruiters true) m) /\
  (forall j, creation_extends_listing (JobDescriptions.create_job_description j)
               (JobDescriptions.get_all_job_descriptions true) m) /\
  (forall a, creation_extends_listing (JobApplications.create_application a)
               (JobApplications.get_all_applications true) m).
Proof.
  split; [|split; [|split; [|split]]]; intros x.
  - apply (create_with_extends Applicants.from_dict _ "applicant" "deactive_at").
  - apply (create_with_extends Clients.from_dict _ "client" "deactive").
  - apply (create_with_extends Recruiters.from_dict _ "recruiter" "deactive_at").
  - apply (create_with_extends JobDescriptions.from_dict _ "job description" "deactive_at").
  - apply (create_with_extends JobApplications.from_dict _ "job application" "deactive_at").
Qed.

Lemma create_then_list_witness :
  exists every created,
    (run (Applicants.get_all_applicants true) Sample.store).1 = Ok every /\
    (run (_ <- Applicants.create_applicant Sample.new_applicant ;;
          Applicants.get_all_applicants true) Sample.store).1
    = Ok (every ++ [created])%list.
Proof.
  destruct (create_then_list Sample.store) as [Happlicants _].
  eexists. eexists. split; [vm_compute; reflexivity|].
  apply (Happlicants Sample.new_applicant); vm_compute; reflexivity.
Defined.
